(** * Uncertainty analysis for rheometer measurements

    A shallow embedding of the uncertainty-propagation computation of
    [Row1DataSummary/Uncertainity.py] and
    [Row2DataSummary/10K/R2_Uncertainity10K.py]: the inversion of a fitted
    line ([calculate_z_height]), the per-torque spread of the inverted
    Z-heights over the trials of a cell, the torque uncertainty obtained
    from the steepest slope, and the qualitative status labels.

    Numbers.  The scripts compute on binary64 values, and two readings of
    them are kept side by side.

    In the first, finite values are idealised as exact rationals ([Q]); the
    three non-finite values of the format are kept ([PInf], [NInf], [NaN])
    because the scripts can produce them: a NumPy division by zero does not
    raise.  The statements about the shape of the computation are made on
    this reading: which entry of a row is which, which trial is picked, what
    is raised, which label a given value gets, what a given input prints.

    In the second, module [Binary64], every finite operation is followed by
    the rounding of the format (to nearest, ties to even, with subnormal
    numbers and overflow to an infinity), the literals of the tables are
    the doubles nearest to them, and [round] follows the algorithm of
    Python on a [float] and that of NumPy on a NumPy scalar.  The
    statements about the size of the numbers are made on this reading: the
    Z-height against the quotient, the round trip through the line, the
    spread of a row and the ratio of two uncertainties.

    The sign of zero is outside both readings. *)

From Stdlib Require Import ZArith QArith Qabs Qround Lia Lqa List String Bool.
Import ListNotations.

Local Open Scope Q_scope.

(** ** Values *)

(** A binary64 value: a finite number or one of the special values. *)
Inductive f64 : Type :=
| Fin (q : Q)
| PInf
| NInf
| NaN.

(** Where a number comes from decides which arithmetic Python dispatches to:
    [Builtin] is a Python [int] or [float] (the literals of the regression
    tables), [NumPy] is a NumPy scalar (the elements of
    [torque_levels = np.array([...])] and everything computed from them). *)
Inductive origin : Type := Builtin | NumPy.

Record scalar : Type := Scalar { origin_of : origin; value_of : f64 }.

Definition py (q : Q) : scalar := Scalar Builtin (Fin q).
Definition np (q : Q) : scalar := Scalar NumPy (Fin q).

(** The exceptions the modelled code can raise. *)
Inductive exn : Type :=
| ZeroDivisionError
| ValueError
| IndexError
| KeyError.

Inductive result (A : Type) : Type :=
| Return (a : A)
| Raise (e : exn).
Arguments Return {A} a.
Arguments Raise {A} e.

Definition bind {A B : Type} (r : result A) (k : A -> result B) : result B :=
  match r with
  | Return a => k a
  | Raise e => Raise e
  end.

Declare Scope py_scope.
Delimit Scope py_scope with py.
Notation "x <- c ;; k" := (bind c (fun x => k))
  (at level 61, c at next level, right associativity) : py_scope.

(** ** Arithmetic on [f64] *)

Definition Qsign_pos (q : Q) : bool := Qle_bool 0 q.
Definition Qis_zero (q : Q) : bool := Qeq_bool q 0.

Definition f64_opp (x : f64) : f64 :=
  match x with
  | Fin a => Fin (- a)
  | PInf => NInf
  | NInf => PInf
  | NaN => NaN
  end.

Definition f64_sub (x y : f64) : f64 :=
  match x, y with
  | NaN, _ | _, NaN => NaN
  | Fin a, Fin b => Fin (a - b)
  | PInf, PInf | NInf, NInf => NaN
  | PInf, _ => PInf
  | NInf, _ => NInf
  | Fin _, PInf => NInf
  | Fin _, NInf => PInf
  end.

(** The infinity of the sign of [q], and [NaN] for [q == 0]. *)
Definition inf_of_sign (q : Q) (positive : f64) : f64 :=
  if Qis_zero q then NaN
  else if Qsign_pos q then positive else f64_opp positive.

Definition f64_mul (x y : f64) : f64 :=
  match x, y with
  | NaN, _ | _, NaN => NaN
  | Fin a, Fin b => Fin (a * b)
  | Fin a, PInf | PInf, Fin a => inf_of_sign a PInf
  | Fin a, NInf | NInf, Fin a => inf_of_sign a NInf
  | PInf, PInf | NInf, NInf => PInf
  | PInf, NInf | NInf, PInf => NInf
  end.

(** IEEE division, as NumPy performs it: a finite nonzero number divided by
    zero is an infinity, zero divided by zero is [NaN]. *)
Definition f64_div (x y : f64) : f64 :=
  match x, y with
  | NaN, _ | _, NaN => NaN
  | Fin a, Fin b => if Qis_zero b then inf_of_sign a PInf else Fin (a / b)
  | Fin _, PInf | Fin _, NInf => Fin 0
  | PInf, Fin b => if Qsign_pos b then PInf else NInf
  | NInf, Fin b => if Qsign_pos b then NInf else PInf
  | PInf, PInf | PInf, NInf | NInf, PInf | NInf, NInf => NaN
  end.

(** Comparisons; every comparison with [NaN] is false. *)
Definition f64_ltb (x y : f64) : bool :=
  match x, y with
  | NaN, _ | _, NaN => false
  | Fin a, Fin b => negb (Qle_bool b a)
  | NInf, NInf | PInf, _ => false
  | NInf, _ => true
  | Fin _, PInf => true
  | Fin _, NInf => false
  end.

Definition f64_leb (x y : f64) : bool :=
  match x, y with
  | NaN, _ | _, NaN => false
  | Fin a, Fin b => Qle_bool a b
  | NInf, _ => true
  | _, PInf => true
  | PInf, _ => false
  | Fin _, NInf => false
  end.

Definition f64_eqb (x y : f64) : bool :=
  match x, y with
  | Fin a, Fin b => Qeq_bool a b
  | PInf, PInf | NInf, NInf => true
  | _, _ => false
  end.

Definition is_finite (x : f64) : bool :=
  match x with Fin _ => true | _ => false end.

(** ** Rounding *)

(** The nearest integer, ties to the even one. *)
Definition round_half_even (x : Q) : Z :=
  let f := Qfloor x in
  match Qcompare (x - inject_Z f) (1 # 2) with
  | Lt => f
  | Gt => (f + 1)%Z
  | Eq => if Z.even f then f else (f + 1)%Z
  end.

(** [round(x, ndigits)] on a finite value. *)
Definition Qround_digits (x : Q) (ndigits : nat) : Q :=
  let scale := (10 ^ Z.of_nat ndigits)%Z in
  round_half_even (x * inject_Z scale) # Z.to_pos scale.

(** [round(x, ndigits)] with [ndigits] given leaves a non-finite value as
    it is, for a Python float and for a NumPy scalar alike. *)
Definition f64_round (x : f64) (ndigits : nat) : f64 :=
  match x with
  | Fin a => Fin (Qround_digits a ndigits)
  | _ => x
  end.

(** ** Python operators on scalars *)

(** A binary operator with a NumPy operand is NumPy's. *)
Definition join (a b : origin) : origin :=
  match a, b with
  | Builtin, Builtin => Builtin
  | _, _ => NumPy
  end.

Definition py_sub (a b : scalar) : scalar :=
  Scalar (join (origin_of a) (origin_of b))
         (f64_sub (value_of a) (value_of b)).

Definition py_mul (a b : scalar) : scalar :=
  Scalar (join (origin_of a) (origin_of b))
         (f64_mul (value_of a) (value_of b)).

(** [a / b].  Between two built-in numbers a zero divisor raises
    [ZeroDivisionError]; with a NumPy operand the division is IEEE's and
    returns an infinity or [NaN] (NumPy only emits a warning). *)
Definition py_truediv (a b : scalar) : result scalar :=
  match join (origin_of a) (origin_of b), value_of b with
  | Builtin, Fin d =>
      if Qis_zero d then Raise ZeroDivisionError
      else Return (Scalar Builtin (f64_div (value_of a) (Fin d)))
  | o, d => Return (Scalar o (f64_div (value_of a) d))
  end.

Definition py_round (a : scalar) (ndigits : nat) : scalar :=
  Scalar (origin_of a) (f64_round (value_of a) ndigits).

(** ** Z-height inversion

    [calculate_z_height] is the same function, textually, in both
    scripts. *)
Definition calculate_z_height (torque slope intercept : scalar)
  : result scalar :=
  (z_height <- py_truediv (py_sub torque intercept) slope ;;
   Return (py_round z_height 3))%py.

(** ** The regression tables *)

(** One fitted line [torque = slope * z_height + intercept]: the dict
    [{'slope': .., 'intercept': .., 'r_squared': ..}] of Python float
    literals. *)
Record eq_data : Type := EqData { slope : Q; intercept : Q; r_squared : Q }.

(** The trials of one cell: a dict from trial name to fit.  A Python dict
    iterates in insertion order, so it is kept as an association list. *)
Definition cell_equations : Type := list (string * eq_data).

Definition items (d : cell_equations) : list (string * eq_data) := d.
Definition values (d : cell_equations) : list eq_data := map snd d.
Definition keys (d : cell_equations) : list string := map fst d.

(** ** Reductions *)

(** The built-in [max] of a list of Python floats: the running maximum is
    replaced only by a strictly greater item; an empty list raises
    [ValueError]. *)
Definition max_step (best item : Q) : Q :=
  if Qle_bool item best then best else item.

Definition py_max (l : list Q) : result Q :=
  match l with
  | [] => Raise ValueError
  | x :: rest => Return (fold_left max_step rest x)
  end.

(** [np.array] of a list of scalars: a float64 array. *)
Definition np_array (l : list scalar) : list f64 := map value_of l.

(** [np.minimum] and [np.maximum] propagate [NaN]. *)
Definition f64_minimum (x y : f64) : f64 :=
  match x, y with
  | NaN, _ | _, NaN => NaN
  | _, _ => if f64_ltb y x then y else x
  end.

Definition f64_maximum (x y : f64) : f64 :=
  match x, y with
  | NaN, _ | _, NaN => NaN
  | _, _ => if f64_ltb x y then y else x
  end.

(** [np.min] and [np.max] of an array; a zero-size array raises
    [ValueError]. *)
Definition np_min (a : list f64) : result scalar :=
  match a with
  | [] => Raise ValueError
  | x :: rest => Return (Scalar NumPy (fold_left f64_minimum rest x))
  end.

Definition np_max (a : list f64) : result scalar :=
  match a with
  | [] => Raise ValueError
  | x :: rest => Return (Scalar NumPy (fold_left f64_maximum rest x))
  end.

(** ** The steepest slope and its trial *)

(** [max([eq_data['slope'] for eq_data in cell_equations.values()])] *)
Definition steepest_slope (d : cell_equations) : result Q :=
  py_max (map slope (values d)).

(** [[name for name, eq_data in cell_equations.items()
      if eq_data['slope'] == steepest_slope][0]]; indexing an empty list
    raises [IndexError]. *)
Definition steepest_trial_of (d : cell_equations) (steepest : Q)
  : result string :=
  match filter (fun it => Qeq_bool (slope (snd it)) steepest) (items d) with
  | [] => Raise IndexError
  | it :: _ => Return (fst it)
  end.

Definition steepest_trial (d : cell_equations) : result string :=
  (s <- steepest_slope d ;; steepest_trial_of d s)%py.

(** ** One row of the results table *)

(** A row is the Python list
    [[torque, z_1, .., z_n, min_val, max_val, range_val, torque_uncertainty]]. *)
Definition row : Type := list scalar.

(** [row[-k]]: the [k]-th element from the end for [k >= 1], and the first
    element for [k = 0]; out of range it raises [IndexError]. *)
Definition row_from_end (r : row) (k : nat) : result scalar :=
  match match k with
        | O => nth_error r 0
        | S k' => nth_error (rev r) k'
        end with
  | Some x => Return x
  | None => Raise IndexError
  end.

(** The inner loop over [cell_equations.items()]: every inverted Z-height
    is appended to [row_data] and to [z_heights_for_torque]. *)
Fixpoint for_trials (torque : scalar) (its : list (string * eq_data))
    (row_data z_heights_for_torque : list scalar)
  : result (list scalar * list scalar) :=
  match its with
  | [] => Return (row_data, z_heights_for_torque)
  | (_, eq) :: rest =>
      (z_height <- calculate_z_height torque (py (slope eq))
                                      (py (intercept eq)) ;;
       for_trials torque rest (row_data ++ [z_height])
                  (z_heights_for_torque ++ [z_height]))%py
  end.

(** The body of the loop over the torque levels (the same statements in
    both scripts, apart from the printing). *)
Definition torque_row (d : cell_equations) (torque : scalar) : result row :=
  (lists <- for_trials torque (items d) [torque] [] ;;
   let row_data := fst lists in
   let z_heights_for_torque := snd lists in
   let z_array := np_array z_heights_for_torque in
   min_val <- np_min z_array ;;
   max_val <- np_max z_array ;;
   let range_val := py_sub max_val min_val in
   steepest <- steepest_slope d ;;
   let torque_uncertainty := py_mul (py steepest) range_val in
   Return (row_data ++ [min_val; max_val; range_val; torque_uncertainty]))%py.

(** The loop over the torque levels, appending each row to
    [results_data]. *)
Fixpoint for_torques (d : cell_equations) (levels : list Q)
    (results_data : list row) : result (list row) :=
  match levels with
  | [] => Return results_data
  | torque :: rest =>
      (row_data <- torque_row d (np torque) ;;
       for_torques d rest (results_data ++ [row_data]))%py
  end.

(** ** Program state

    The scripts read two global objects, the array [torque_levels] and the
    dict [all_cells_equations], and write to standard output.  A statement
    runs in a [store] and leaves a store; an exception ends the run with the
    store as it was when it was raised. *)

(** One call of [print]: the text, with a placeholder for every formatted
    number, and the numbers. *)
Inductive printed : Type := Print (text : string) (args : list scalar).

Record store : Type := Store {
  torque_levels : list Q;
  all_cells_equations : list (string * cell_equations);
  stdout : list printed
}.

Definition M (A : Type) : Type := store -> result A * store.

Definition ret {A : Type} (a : A) : M A := fun st => (Return a, st).

Definition bindM {A B : Type} (c : M A) (k : A -> M B) : M B :=
  fun st =>
    match c st with
    | (Return a, st') => k a st'
    | (Raise e, st') => (Raise e, st')
    end.

Definition lift {A : Type} (r : result A) : M A := fun st => (r, st).

Definition print (text : string) (args : list scalar) : M unit :=
  fun st =>
    (Return tt,
     Store (torque_levels st) (all_cells_equations st)
           (stdout st ++ [Print text args])).

Definition read_torque_levels : M (list Q) :=
  fun st => (Return (torque_levels st), st).

Definition read_all_cells_equations : M (list (string * cell_equations)) :=
  fun st => (Return (all_cells_equations st), st).

Declare Scope m_scope.
Delimit Scope m_scope with M.
Notation "x <- c ;; k" := (bindM c (fun x => k))
  (at level 61, c at next level, right associativity) : m_scope.
Notation "c ;; k" := (bindM c (fun _ => k))
  (at level 61, right associativity) : m_scope.

Definition nl : string := String (Ascii.ascii_of_nat 10) EmptyString.

(** ** [Row2DataSummary/10K/R2_Uncertainity10K.py] *)
Module Row2.

(** [analyze_cell_uncertainty(cell_name, cell_equations)]: the torque
    levels are the global array. *)
Definition analyze_cell_uncertainty (cell_name : string)
    (d : cell_equations) : M (list row) :=
  (print (nl ++ "Analyzing " ++ cell_name ++ "...") [] ;;
   levels <- read_torque_levels ;;
   lift (for_torques d levels []))%M.

(** [all_results[cell_name] = ...] on a dict kept in insertion order. *)
Fixpoint dict_set {A : Type} (d : list (string * A)) (k : string) (v : A)
  : list (string * A) :=
  match d with
  | [] => [(k, v)]
  | (k', v') :: rest =>
      if String.eqb k' k then (k', v) :: rest
      else (k', v') :: dict_set rest k v
  end.

(** The loop over [all_cells_equations.items()] that fills
    [all_results]. *)
Fixpoint for_cells (cells : list (string * cell_equations))
    (all_results : list (string * list row))
  : M (list (string * list row)) :=
  match cells with
  | [] => ret all_results
  | (cell_name, d) :: rest =>
      (results_data <- analyze_cell_uncertainty cell_name d ;;
       for_cells rest (dict_set all_results cell_name results_data))%M
  end.

Definition all_results : M (list (string * list row)) :=
  (cells <- read_all_cells_equations ;; for_cells cells [])%M.

(** The performance label of a cell, from its largest uncertainty. *)
Definition status (max_uncertainty : scalar) : string :=
  if f64_ltb (value_of max_uncertainty) (Fin 5) then "EXCELLENT"
  else if f64_ltb (value_of max_uncertainty) (Fin 10) then "GOOD"
  else if f64_ltb (value_of max_uncertainty) (Fin 20) then "ACCEPTABLE"
  else "NEEDS ATTENTION".

(** The tables of the script. *)
Definition all_cells_equations_literal : list (string * cell_equations) :=
  [ ("Cell 1",
     [ ("Trial 1", EqData 87.767 (-5759.814) 0.996);
       ("Trial 2", EqData 135.833 (-8941.347) 0.975);
       ("Trial 3", EqData 89.133 (-5838.821) 0.996);
       ("Trial 4", EqData 84.895 (-5557.924) 0.992) ]);
    ("Cell 2",
     [ ("Trial 1", EqData 89.848 (-5873.516) 0.991);
       ("Trial 2", EqData 89.767 (-5867.689) 0.993);
       ("Trial 3", EqData 84.867 (-5541.969) 0.994);
       ("Trial 4", EqData 85.600 (-5589.990) 0.995) ]);
    ("Cell 3",
     [ ("Trial 1", EqData 90.657 (-5921.408) 0.991);
       ("Trial 2", EqData 93.767 (-6128.208) 0.994);
       ("Trial 3", EqData 88.867 (-5801.210) 0.991);
       ("Trial 4", EqData 87.552 (-5714.667) 0.992) ]);
    ("Cell 4",
     [ ("Trial 1", EqData 90.933 (-5922.497) 0.992);
       ("Trial 2", EqData 92.267 (-6010.167) 0.991);
       ("Trial 3", EqData 89.933 (-5853.865) 0.994);
       ("Trial 4", EqData 91.543 (-5960.168) 0.990) ]);
    ("Cell 5",
     [ ("Trial 1", EqData 94.700 (-6176.787) 0.997);
       ("Trial 2", EqData 99.500 (-6502.016) 0.979);
       ("Trial 3", EqData 93.600 (-6102.294) 0.995);
       ("Trial 4", EqData 94.567 (-6165.921) 0.995) ]);
    ("Cell 6",
     [ ("Trial 1", EqData 90.767 (-5940.868) 0.996);
       ("Trial 2", EqData 96.767 (-6327.421) 0.991);
       ("Trial 3", EqData 90.305 (-5898.003) 0.993);
       ("Trial 4", EqData 88.900 (-5804.552) 0.994) ]) ]%string.

Definition initial_store : store :=
  Store [42; 45; 48; 51; 54; 57] all_cells_equations_literal [].

End Row2.

(** ** [Row1DataSummary/Uncertainity.py] *)
Module Row1.

(** The inner loop, which also prints every Z-height. *)
Fixpoint for_trials (torque : scalar) (its : list (string * eq_data))
    (row_data z_heights_for_torque : list scalar)
  : M (list scalar * list scalar) :=
  match its with
  | [] => ret (row_data, z_heights_for_torque)
  | (trial_name, eq) :: rest =>
      (z_height <- lift (calculate_z_height torque (py (slope eq))
                                            (py (intercept eq))) ;;
       print ("  " ++ trial_name ++ ": Z-height = {:.3f} mm") [z_height] ;;
       for_trials torque rest (row_data ++ [z_height])
                  (z_heights_for_torque ++ [z_height]))%M
  end.

(** The body of the loop over the torque levels: the row, the Z-heights on
    their own, and the trial reported as the steepest one.  (In the last
    printed text the plus-minus sign of the script is written [+-].) *)
Definition torque_iteration (d : cell_equations) (torque : scalar)
  : M (row * list scalar * string) :=
  (print (nl ++ "Torque = {}%:") [torque] ;;
   lists <- for_trials torque (items d) [torque] [] ;;
   let row_data := fst lists in
   let z_heights_for_torque := snd lists in
   let z_array := np_array z_heights_for_torque in
   min_val <- lift (np_min z_array) ;;
   max_val <- lift (np_max z_array) ;;
   let range_val := py_sub max_val min_val in
   steepest <- lift (steepest_slope d) ;;
   trial <- lift (steepest_trial_of d steepest) ;;
   let torque_uncertainty := py_mul (py steepest) range_val in
   let row_data :=
     row_data ++ [min_val; max_val; range_val; torque_uncertainty] in
   print "  Statistics: Min={:.3f}, Max={:.3f}, Range={:.3f}"
         [min_val; max_val; range_val] ;;
   print ("              Steepest slope={:.3f} (" ++ trial ++ ")")
         [py steepest] ;;
   print "              Torque uncertainty=+-{:.3f}%"
         [torque_uncertainty] ;;
   ret (row_data, z_heights_for_torque, trial))%M.

(** The loop over the torque levels; [steepest_trial] is a variable of the
    script, overwritten by every iteration. *)
Fixpoint for_torques (d : cell_equations) (levels : list Q)
    (results_data : list row) (z_height_matrix : list (list scalar))
    (steepest_trial : option string)
  : M (list row * list (list scalar) * option string) :=
  match levels with
  | [] => ret (results_data, z_height_matrix, steepest_trial)
  | torque :: rest =>
      (it <- torque_iteration d (np torque) ;;
       for_torques d rest (results_data ++ [fst (fst it)])
                   (z_height_matrix ++ [snd (fst it)])
                   (Some (snd it)))%M
  end.

(** [all_cells_equations['Cell 1']]; a missing key raises [KeyError]. *)
Fixpoint dict_get {A : Type} (d : list (string * A)) (k : string)
  : result A :=
  match d with
  | [] => Raise KeyError
  | (k', v) :: rest => if String.eqb k' k then Return v else dict_get rest k
  end.

Definition cell_1_equations : M cell_equations :=
  (cells <- read_all_cells_equations ;; lift (dict_get cells "Cell 1"))%M.

(** ["-" * n] *)
Definition dashes (n : nat) : string :=
  String.concat EmptyString (repeat "-"%string n).

(** The analysis part of the script: [results_data], [z_height_matrix]
    and the last [steepest_trial] of the loop. *)
Definition results_data
  : M (list row * list (list scalar) * option string) :=
  (d <- cell_1_equations ;;
   levels <- read_torque_levels ;;
   print (nl ++ "Calculating Z-height values for Cell 1:") [] ;;
   print (dashes 50) [] ;;
   for_torques d levels [] [] None)%M.

(** The label of one torque level, from its uncertainty. *)
Definition status (uncertainty : scalar) : string :=
  if f64_ltb (value_of uncertainty) (Fin 0.2) then "LOW"
  else if f64_ltb (value_of uncertainty) (Fin 0.5) then "MEDIUM"
  else "HIGH".

(** The tables of the script. *)
Definition all_cells_equations_literal : list (string * cell_equations) :=
  [ ("Cell 1",
     [ ("Trial 1", EqData 117.200 (-7722.002) 0.998);
       ("Trial 2", EqData 91.571 (-6008.560) 0.992);
       ("Trial 3", EqData 92.900 (-6105.849) 0.991);
       ("Trial 4", EqData 89.057 (-5849.702) 0.986) ]);
    ("Cell 2",
     [ ("Trial 1", EqData 79.705 (-5217.116) 0.980);
       ("Trial 2", EqData 89.276 (-5840.457) 0.992);
       ("Trial 3", EqData 88.438 (-5784.236) 0.994);
       ("Trial 4", EqData 85.000 (-5556.020) 0.993) ]);
    ("Cell 3",
     [ ("Trial 1", EqData 61.893 (-4031.049) 0.963);
       ("Trial 2", EqData 89.500 (-5849.869) 0.993);
       ("Trial 3", EqData 87.933 (-5745.053) 0.996);
       ("Trial 4", EqData 106.133 (-6950.891) 0.999) ]);
    ("Cell 4",
     [ ("Trial 1", EqData 104.633 (-6864.468) 0.975);
       ("Trial 2", EqData 90.267 (-5913.411) 0.992);
       ("Trial 3", EqData 79.895 (-5227.275) 0.980);
       ("Trial 4", EqData 81.833 (-5353.966) 0.993) ]);
    ("Cell 5",
     [ ("Trial 1", EqData 202.667 (-13305.203) 1.000);
       ("Trial 2", EqData 186.167 (-12207.618) 0.967);
       ("Trial 3", EqData 125.367 (-8187.536) 0.983);
       ("Trial 4", EqData 85.981 (-5605.991) 0.956) ]);
    ("Cell 6",
     [ ("Trial 1", EqData 94.700 (-6221.678) 0.993);
       ("Trial 2", EqData 90.067 (-5904.849) 0.993);
       ("Trial 3", EqData 90.590 (-5947.949) 0.992);
       ("Trial 4", EqData 87.433 (-5738.806) 0.991) ]) ]%string.

Definition initial_store : store :=
  Store [45; 47; 49; 51; 53] all_cells_equations_literal [].

End Row1.

(** ** Closed forms

    What the loops compute, written without the loops; the lemmas below
    relate the two. *)

(** The Z-height of one trial at a torque level taken from
    [torque_levels]. *)
Definition z_value (torque : Q) (eq : eq_data) : f64 :=
  f64_round (f64_div (Fin (torque - intercept eq)) (Fin (slope eq))) 3.

Definition z_heights (torque : Q) (d : cell_equations) : list scalar :=
  map (fun it => Scalar NumPy (z_value torque (snd it))) (items d).

(** [range_val >= 0 and max_val >= min_val] on a row, read from its end. *)
Definition spread_ok (r : row) : bool :=
  match row_from_end r 4, row_from_end r 3, row_from_end r 2 with
  | Return min_val, Return max_val, Return range_val =>
      f64_leb (Fin 0) (value_of range_val)
      && f64_leb (value_of min_val) (value_of max_val)
  | _, _, _ => false
  end.

(** ** Frame conditions *)

(** Two stores hold the same inputs: the same torque levels and the same
    regression tables (standard output may differ). *)
Definition same_inputs (st st' : store) : Prop :=
  torque_levels st = torque_levels st'
  /\ all_cells_equations st = all_cells_equations st'.

(** A statement that reads nothing but the inputs and writes nothing but
    standard output: its result, or its exception, depends on the inputs
    only, and it leaves the inputs as they were. *)
Definition input_pure {A : Type} (c : M A) : Prop :=
  forall st st',
    same_inputs st st' ->
    fst (c st) = fst (c st') /\ same_inputs st (snd (c st)).

(** ** The specification's wording, for comparison *)

(** The specification's steepest slope: "max(|slope|) over trials in that
    cell". *)
Definition spec_steepest_slope (d : cell_equations) : result Q :=
  py_max (map (fun eq => Qabs (slope eq)) (values d)).

(** The specification's classification: the label of the first strict upper
    threshold the value falls under, and a default label otherwise. *)
Fixpoint spec_classify (thresholds : list (Q * string)) (default : string)
    (u : f64) : string :=
  match thresholds with
  | [] => default
  | (bound, label) :: rest =>
      if f64_ltb u (Fin bound) then label
      else spec_classify rest default u
  end.

(** ** Sample cells *)

(** Two trials with negative slopes. *)
Definition negative_slopes_cell : cell_equations :=
  [ ("Trial 1", EqData (-2) 0 1); ("Trial 2", EqData (-1) 0 1) ]%string.

(** Three trials, the last two sharing the maximum slope. *)
Definition tied_slopes_cell : cell_equations :=
  [ ("Trial 1", EqData 80 (-5000) 1);
    ("Trial 2", EqData 90 (-6000) 1);
    ("Trial 3", EqData 90 (-5900) 1) ]%string.

(** The built-in [max] and [min] of a list of NumPy floats: the running
    extremum is replaced only when the comparison [item > best]
    (respectively [item < best]) is true, which it never is with a NaN. *)
Definition max_scalar_step (best item : scalar) : scalar :=
  if f64_ltb (value_of best) (value_of item) then item else best.

Definition py_max_scalar (l : list scalar) : result scalar :=
  match l with
  | [] => Raise ValueError
  | x :: rest => Return (fold_left max_scalar_step rest x)
  end.

(** [l[i]] for [i >= 0]. *)
Definition list_index {A : Type} (l : list A) (i : nat) : result A :=
  match nth_error l i with
  | Some x => Return x
  | None => Raise IndexError
  end.

(** Signs of the printed texts, as their UTF-8 bytes. *)
Definition utf8 (bytes : list nat) : string :=
  string_of_list_ascii (map Ascii.ascii_of_nat bytes).

Definition plus_minus : string := utf8 [194; 177]%nat.
Definition say (text : string) : M unit := print text [].

(** ** The per-level lines of the summary of [Uncertainity.py] *)
Module Row1Summary.

(** What the loop over [enumerate(torque_levels)] prints for one level. *)
Definition level_line (results_data : list row) (i : nat) (torque : Q)
  : result printed :=
  (row_i <- list_index results_data i ;;
   uncertainty <- row_from_end row_i 1 ;;
   row_i' <- list_index results_data i ;;
   range_val <- row_from_end row_i' 3 ;;
   let status := Row1.status uncertainty in
   Return (Print ("  {}%: " ++ plus_minus
                  ++ "{:.3f}% torque (Z-range: {:.3f}mm) - " ++ status)
                 [np torque; uncertainty; range_val]))%py.

End Row1Summary.

(** ** The display tables *)

(** The format a value is printed in: [f"{val:.0f}"], [f"{val:.3f}"], and
    the uncertainty with the plus-minus sign, [f"+-{val:.1f}"] in
    [R2_Uncertainity10K.py] and [f"+-{val:.1f}%"] in [Uncertainity.py].  A
    formatted cell is kept as the format and the value. *)
Inductive cell_format : Type :=
| Fixed0
| Fixed3
| PlusMinus1
| PlusMinus1Percent.

(** The chain of conditions on the column index [i]. *)
Definition format_cell (uncertainty_format : cell_format) (i : nat)
    (val : scalar) : cell_format * scalar :=
  if Nat.eqb i 0 then (Fixed0, val)
  else if Nat.leb i 4 then (Fixed3, val)
  else if existsb (Nat.eqb i) [5; 6; 7]%nat then (Fixed3, val)
  else (uncertainty_format, val).

Fixpoint enumerate_from {A : Type} (i : nat) (l : list A) : list (nat * A) :=
  match l with
  | [] => []
  | x :: rest => (i, x) :: enumerate_from (S i) rest
  end.

(** [formatted_row], built by the loop over [enumerate(row)]. *)
Definition formatted_row (uncertainty_format : cell_format) (r : row)
  : list (cell_format * scalar) :=
  map (fun iv => format_cell uncertainty_format (fst iv) (snd iv))
      (enumerate_from 0 r).

(** [table_data] of one cell in [R2_Uncertainity10K.py], and of the data
    frame of [Uncertainity.py], whose rows are the rows of [results_data]. *)
Definition table_data (uncertainty_format : cell_format)
    (results_data : list row) : list (list (cell_format * scalar)) :=
  map (formatted_row uncertainty_format) results_data.

(** [column_names] of [Uncertainity.py]. *)
Definition column_names (d : cell_equations) : list string :=
  ("Torque" :: keys d ++ ["Min"; "Max"; "Range"; "Uncertainty(%)"])%string.

(** ** Results of statements *)

(** In every store with the inputs of [st], the statement [c] ends with
    the result [r] and leaves the inputs as they were. *)
Definition runs {A : Type} (st : store) (c : M A) (r : result A) : Prop :=
  forall st',
    same_inputs st st' ->
    fst (c st') = r /\ same_inputs st (snd (c st')).

(** A store with one cell and two torque levels, and one with no torque
    level. *)
Definition sample_store : store :=
  Store [45; 47] [("Cell 1"%string, tied_slopes_cell)] [].

(** ** The curve-fitting scripts: [Row1DataSummary/fit_all.py] and
    [Row1DataSummary/curvefit.py]

    The scripts read the measurement sheets, keep the rows of every cell
    whose torque lies between 42 and 57, fit a line through them and, in
    [fit_all.py], lay the fitted equations out in a table.  The sheets, the
    regression and the number format are the environment of the scripts:
    they are variables here.  The drawing calls have no part in what is
    printed or stored and are left out, except for the subscripts
    [axes[trial_num - 1]] and [colors[i]], which can raise. *)

From Stdlib Require Import Sorted.
From Stdlib Require DecimalString DecimalNat.

(** [f"{n}"] *)
Definition str_of_nat (n : nat) : string :=
  DecimalString.NilEmpty.string_of_uint (Nat.to_uint n).

(** [l[k]] with an index of either sign. *)
Definition subscript {A : Type} (l : list A) (k : Z) : result A :=
  if (0 <=? k)%Z then list_index l (Z.to_nat k)
  else if (- Z.of_nat (List.length l) <=? k)%Z
       then list_index l (Z.to_nat (Z.of_nat (List.length l) + k))
       else Raise IndexError.

(** [sorted(keys)] on numbers. *)
Fixpoint insert_sorted (k : nat) (l : list nat) : list nat :=
  match l with
  | [] => [k]
  | x :: rest => if (k <=? x)%nat then k :: l else x :: insert_sorted k rest
  end.

Definition sorted (l : list nat) : list nat :=
  fold_right insert_sorted [] l.

Module Fit.

(** A column of a sheet that holds numbers: binary64 values, [NaN] where
    the sheet has no value.  A data frame is its columns by name; they have
    one index.  A column with a text or a date in a cell is no value of this
    type: on such a column the comparisons [df[column] >= 42] raise
    [TypeError], which no statement below covers. *)
Definition series : Type := list f64.
Definition dataframe : Type := list (string * series).

(** [df.shape] *)
Definition shape (df : dataframe) : nat * nat :=
  (match df with [] => 0%nat | (_, s) :: _ => List.length s end,
   List.length df).

(** [df[column]] *)
Definition column_of (df : dataframe) (column : string) : result series :=
  Row1.dict_get df column.

(** [s.notna()], [s >= q], [s <= q], [a & b] *)
Definition notna (s : series) : list bool :=
  map (fun v => match v with NaN => false | _ => true end) s.

Definition ge (s : series) (q : Q) : list bool :=
  map (fun v => f64_leb (Fin q) v) s.

Definition le (s : series) (q : Q) : list bool :=
  map (fun v => f64_leb v (Fin q)) s.

Fixpoint and_ (a b : list bool) : list bool :=
  match a, b with
  | x :: a', y :: b' => (x && y) :: and_ a' b'
  | _, _ => []
  end.

(** [mask.any()], [mask.sum()] *)
Definition any (mask : list bool) : bool := existsb (fun b => b) mask.

Definition sum (mask : list bool) : nat :=
  List.length (filter (fun b => b) mask).

(** The values of [df.loc[mask, column]]. *)
Fixpoint select (mask : list bool) (s : series) : series :=
  match mask, s with
  | b :: mask', v :: s' => if b then v :: select mask' s' else select mask' s'
  | _, _ => []
  end.

Definition loc (df : dataframe) (mask : list bool) (column : string)
  : result series :=
  (s <- column_of df column ;; Return (select mask s))%py.

(** [s * q] *)
Definition mul (s : series) (q : Q) : series :=
  map (fun v => f64_mul v (Fin q)) s.

(** [(df[column].notna()) & (df[column] >= 42) & (df[column] <= 57)] *)
Definition mask (df : dataframe) (column : string) : result (list bool) :=
  (a <- column_of df column ;;
   b <- column_of df column ;;
   c <- column_of df column ;;
   Return (and_ (and_ (notna a) (ge b 42)) (le c 57)))%py.

(** An entry of [cell_data]. *)
Record points : Type := Points {
  z_height : series;
  torque : series;
  column : string
}.

(** [d[k] = v] and [d[k]] on a dict with numbers as keys, kept in insertion
    order. *)
Fixpoint set_item {A : Type} (d : list (nat * A)) (k : nat) (v : A)
  : list (nat * A) :=
  match d with
  | [] => [(k, v)]
  | (k', v') :: rest =>
      if Nat.eqb k' k then (k', v) :: rest
      else (k', v') :: set_item rest k v
  end.

Fixpoint get_item {A : Type} (d : list (nat * A)) (k : nat) : result A :=
  match d with
  | [] => Raise KeyError
  | (k', v) :: rest => if Nat.eqb k' k then Return v else get_item rest k
  end.

(** [k in d] on a dict with strings as keys. *)
Definition contains {A : Type} (d : list (string * A)) (k : string) : bool :=
  existsb (fun kv => String.eqb (fst kv) k) d.

Definition colors : list string :=
  ["#1f77b4"; "#ff7f0e"; "#2ca02c"; "#d62728"; "#9467bd"; "#8c564b"]%string.

Definition torque_columns : list string :=
  ["Cell_1_Torque"; "Cell_2_Torque"; "Cell_3_Torque";
   "Cell_4_Torque"; "Cell_5_Torque"; "Cell_6_Torque"]%string.

(** The number [mask.sum()] gives. *)
Definition counted (n : nat) : scalar :=
  Scalar NumPy (Fin (inject_Z (Z.of_nat n))).

(** The loop over [enumerate(torque_columns)] of both scripts; the printed
    lines of [fit_all.py] are indented. *)
Fixpoint for_columns (indent : string) (df : dataframe)
    (columns : list string) (i : nat) (has_data : bool)
    (cell_data : list (nat * points)) : M (bool * list (nat * points)) :=
  match columns with
  | [] => ret (has_data, cell_data)
  | column :: rest =>
      (m <- lift (mask df column) ;;
       if any m then
         z <- lift (loc df m "Z-Height") ;;
         let z_height_positive := mul z (-1) in
         torque_values <- lift (loc df m column) ;;
         _ <- lift (list_index colors i) ;;
         let cell_data :=
           set_item cell_data i
                    (Points z_height_positive torque_values column) in
         print (indent ++ "Cell " ++ str_of_nat (i + 1)
                  ++ ": {} data points in range 42-57")
               [counted (sum m)] ;;
         for_columns indent df rest (S i) true cell_data
       else
         say (indent ++ "Cell " ++ str_of_nat (i + 1)
                ++ ": No data points in range 42-57") ;;
         for_columns indent df rest (S i) has_data cell_data)%M
  end.

(** What [stats.linregress] returns, as far as the scripts use it. *)
Record regression : Type := Regression {
  slope : f64;
  intercept : f64;
  r_value : f64
}.

(** An entry of [trial_equations]. *)
Record equation : Type := Equation {
  equation_text : string;
  r_squared : string;
  equation_slope : f64;
  equation_intercept : f64
}.

Definition squared : string := utf8 [194; 178]%nat.

Definition cells : list string :=
  ["Cell 1"; "Cell 2"; "Cell 3"; "Cell 4"; "Cell 5"; "Cell 6"]%string.

Definition no_data : string := ("No data" ++ nl ++ "in range")%string.

(** [trial_cols] and [headers] *)
Definition trial_cols {A : Type} (trial_data : list (nat * A)) : list string :=
  map (fun i => ("Trial " ++ str_of_nat i)%string)
      (seq 1 (List.length trial_data)).

Definition headers {A : Type} (trial_data : list (nat * A)) : list string :=
  "Cell"%string :: trial_cols trial_data.

(** The text of one entry of the table. *)
Definition cell_text (all_equations : list (nat * list (string * equation)))
    (cell : string) (trial_num : nat) : result string :=
  (trial_equations <- get_item all_equations trial_num ;;
   if contains trial_equations cell then
     trial_equations <- get_item all_equations trial_num ;;
     eq_data <- Row1.dict_get trial_equations cell ;;
     Return (equation_text eq_data ++ nl ++ "(R" ++ squared ++ " = "
               ++ r_squared eq_data ++ ")")%string
   else Return no_data)%py.

(** The loop over [sorted(all_equations.keys())] that fills a row. *)
Fixpoint for_entries (all_equations : list (nat * list (string * equation)))
    (cell : string) (trial_nums : list nat) (row : list string)
  : result (list string) :=
  match trial_nums with
  | [] => Return row
  | trial_num :: rest =>
      (text <- cell_text all_equations cell trial_num ;;
       for_entries all_equations cell rest (row ++ [text]))%py
  end.

(** The loop over [cells] that fills [table_data]. *)
Fixpoint for_rows (all_equations : list (nat * list (string * equation)))
    (cells : list string) (table_data : list (list string))
  : result (list (list string)) :=
  match cells with
  | [] => Return table_data
  | cell :: rest =>
      (row <- for_entries all_equations cell
                          (sorted (map fst all_equations)) [cell] ;;
       for_rows all_equations rest (table_data ++ [row]))%py
  end.

Definition table_data (all_equations : list (nat * list (string * equation)))
  : result (list (list string)) :=
  for_rows all_equations cells [].

Definition trial_files : list string :=
  ["Trial1.xlsx"; "Trial2.xlsx"; "Trial3.xlsx"; "Trial4.xlsx"]%string.

(** The four subplots of [axes.flatten()]. *)
Definition axes : list unit := repeat tt 4.

Section Environment.

(** The directory of the script, [os.path.join], [os.path.exists] and
    [pd.read_excel]. *)
Variable script_dir : string.
Variable path_join : string -> string -> string.
Variable path_exists : string -> bool.
Variable read_excel : string -> result dataframe.

(** [stats.linregress(x, y)] and the format [f"{x:.3f}"]. *)
Variable linregress : series -> series -> result regression.
Variable fmt3 : f64 -> string.

(** The body of the [try] for a file found at [path]. *)
Definition load (trial_data : list (nat * dataframe)) (trial_num : nat)
    (filename path : string) : M (list (nat * dataframe)) :=
  match read_excel path with
  | Return df =>
      (say ("Trial " ++ str_of_nat trial_num
              ++ " loaded successfully! Shape: ("
              ++ str_of_nat (fst (shape df)) ++ ", "
              ++ str_of_nat (snd (shape df)) ++ ")") ;;
       ret (set_item trial_data trial_num df))%M
  | Raise _ =>
      (say ("Error loading " ++ filename ++ ": {}") ;; ret trial_data)%M
  end.

(** The loop over [enumerate(trial_files)]. *)
Fixpoint for_files (files : list string) (i : nat)
    (trial_data : list (nat * dataframe)) : M (list (nat * dataframe)) :=
  match files with
  | [] => ret trial_data
  | filename :: rest =>
      let trial_num := (i + 1)%nat in
      let file_path := path_join script_dir filename in
      (trial_data <-
         (if path_exists file_path then
            load trial_data trial_num filename file_path
          else if path_exists filename then
            load trial_data trial_num filename filename
          else
            say ("Warning: " ++ filename ++ " not found, skipping...") ;;
            ret trial_data) ;;
       for_files rest (S i) trial_data)%M
  end.

(** The loop over [cell_data.items()] of [fit_all.py]. *)
Fixpoint for_fits (items : list (nat * points))
    (trial_equations : list (string * equation))
  : M (list (string * equation)) :=
  match items with
  | [] => ret trial_equations
  | (i, data) :: rest =>
      (fit <- lift (linregress (z_height data) (torque data)) ;;
       _ <- lift (match z_height data with
                  | [] => Raise ValueError
                  | _ :: _ => Return tt
                  end) ;;
       let text := ("y = " ++ fmt3 (slope fit) ++ "x + "
                      ++ fmt3 (intercept fit))%string in
       let r2 := fmt3 (f64_mul (r_value fit) (r_value fit)) in
       say ("  Cell " ++ str_of_nat (i + 1) ++ ": " ++ text
              ++ " (R" ++ squared ++ " = " ++ r2 ++ ")") ;;
       for_fits rest
                (Row2.dict_set trial_equations
                               ("Cell " ++ str_of_nat (i + 1))
                               (Equation text r2 (slope fit) (intercept fit))))%M
  end.

(** The loop over [trial_data.items()]. *)
Fixpoint for_trials (items : list (nat * dataframe))
    (all_equations : list (nat * list (string * equation)))
  : M (list (nat * list (string * equation))) :=
  match items with
  | [] => ret all_equations
  | (trial_num, df) :: rest =>
      (_ <- lift (subscript axes (Z.of_nat trial_num - 1)) ;;
       say (nl ++ "=== Processing Trial " ++ str_of_nat trial_num ++ " ===") ;;
       r <- for_columns "  " df torque_columns 0 false [] ;;
       trial_equations <-
         (if fst r then
            say (nl ++ "  Linear fit equations for Trial "
                   ++ str_of_nat trial_num ++ ":") ;;
            for_fits (snd r) []
          else ret []) ;;
       for_trials rest (set_item all_equations trial_num trial_equations))%M
  end.

(** The script up to its table: [None] where it leaves through [exit()],
    else [headers] and [table_data]. *)
Definition main : M (option (list string * list (list string))) :=
  (say "Loading all trial data..." ;;
   trial_data <- for_files trial_files 0 [] ;;
   match trial_data with
   | [] =>
       say ("No trial data found! Please ensure Trial1.xlsx, Trial2.xlsx, "
              ++ "Trial3.xlsx, and Trial4.xlsx exist.") ;;
       ret None
   | _ :: _ =>
       all_equations <- for_trials trial_data [] ;;
       table <- lift (table_data all_equations) ;;
       ret (Some (headers trial_data, table))
   end)%M.

End Environment.

End Fit.

(** ** Reading the fitting scripts *)

(** The test of the mask on one value: not missing, and between 42 and
    57. *)
Definition in_range (v : f64) : bool :=
  match v with NaN => false | _ => true end
  && f64_leb (Fin 42) v && f64_leb v (Fin 57).

(** The column [column] of the frame has a value in the range. *)
Definition has_points (df : Fit.dataframe) (column : string) : bool :=
  match Fit.column_of df column with
  | Return s => existsb in_range s
  | Raise _ => false
  end.

(** [f"Cell {i+1}"] *)
Definition cell_name (i : nat) : string :=
  ("Cell " ++ str_of_nat (i + 1))%string.

(** What the loop has stored for the column [i]: the rows of the frame
    whose torque is in the range, with the Z-height negated. *)
Definition kept (df : Fit.dataframe) (i : nat) (data : Fit.points) : Prop :=
  nth_error Fit.torque_columns i = Some (Fit.column data)
  /\ exists s z,
       Fit.column_of df (Fit.column data) = Return s
       /\ Fit.column_of df "Z-Height" = Return z
       /\ Fit.torque data = filter in_range s
       /\ Fit.z_height data = Fit.mul (Fit.select (map in_range s) z) (-1)
       /\ existsb in_range s = true.

(** The frame [df] is what the script reads for [filename]: from the
    directory of the script if the file is there, else from the working
    directory. *)
Definition loads (script_dir : string) (path_join : string -> string -> string)
    (path_exists : string -> bool)
    (read_excel : string -> result Fit.dataframe)
    (filename : string) (df : Fit.dataframe) : Prop :=
  (path_exists (path_join script_dir filename) = true
   /\ read_excel (path_join script_dir filename) = Return df)
  \/ (path_exists (path_join script_dir filename) = false
      /\ path_exists filename = true
      /\ read_excel filename = Return df).

(** Every stored text is an equation. *)
Definition equations (eqs : list (string * Fit.equation)) : Prop :=
  Forall (fun kv => exists t, Fit.equation_text (snd kv)
                              = ("y = " ++ t)%string) eqs.

(** The equations of a trial say which cells have points in the range, and
    every stored text is an equation. *)
Definition equations_of (df : Fit.dataframe)
    (trial_equations : list (string * Fit.equation)) : Prop :=
  (forall i c, nth_error Fit.torque_columns i = Some c ->
               Fit.contains trial_equations (cell_name i) = has_points df c)
  /\ equations trial_equations.

(** A sheet with points of three cells in the range, and one with none. *)
Definition sample_frame : Fit.dataframe :=
  [ ("Z-Height"%string, [Fin (-66.5); Fin (-66.4); Fin (-66.3); Fin (-66.2)]);
    ("Cell_1_Torque"%string, [Fin 40; Fin 45; NaN; Fin 56.5]);
    ("Cell_2_Torque"%string, [NaN; NaN; NaN; NaN]);
    ("Cell_3_Torque"%string, [Fin 41; Fin 58; PInf; Fin 57]);
    ("Cell_4_Torque"%string, [Fin 42; Fin 43; Fin 44; Fin 45]);
    ("Cell_5_Torque"%string, [Fin 10; Fin 20; Fin 30; Fin 40]);
    ("Cell_6_Torque"%string, [Fin 60; Fin 61; Fin 62; Fin 63]) ].


Definition idle_frame : Fit.dataframe :=
  [ ("Z-Height"%string, [Fin (-60); Fin (-59)]);
    ("Cell_1_Torque"%string, [Fin 10; Fin 20]);
    ("Cell_2_Torque"%string, [Fin 10; Fin 20]);
    ("Cell_3_Torque"%string, [Fin 10; NaN]);
    ("Cell_4_Torque"%string, [Fin 70; Fin 80]);
    ("Cell_5_Torque"%string, [NaN; NaN]);
    ("Cell_6_Torque"%string, [Fin 57.5; Fin 41.5]) ].

(** A place with three sheets: the first trial next to the script, the
    third in the working directory, and the fourth in both, where the one
    next to the script cannot be read. *)
Definition sample_join (dir filename : string) : string :=
  (dir ++ "/" ++ filename)%string.

Definition sample_exists (path : string) : bool :=
  String.eqb path "/data/Trial1.xlsx" || String.eqb path "Trial3.xlsx"
  || String.eqb path "/data/Trial4.xlsx" || String.eqb path "Trial4.xlsx".

Definition sample_read (path : string) : result Fit.dataframe :=
  if String.eqb path "/data/Trial1.xlsx" then Return sample_frame
  else if String.eqb path "Trial3.xlsx" then Return idle_frame
  else if String.eqb path "Trial4.xlsx" then Return idle_frame
  else Raise ValueError.

(** A regression and a format that give the same answer for every
    argument. *)
Definition sample_linregress (x y : Fit.series) : result Fit.regression :=
  Return (Fit.Regression (Fin 117.2) (Fin (-7722.002)) (Fin 0.999)).

Definition sample_fmt3 (v : f64) : string := "0.000"%string.

Definition sample_trials : list (nat * Fit.dataframe) :=
  [(1%nat, sample_frame); (3%nat, idle_frame)].

From Stdlib Require Import Qpower.

(** ** Binary64 arithmetic

    The definitions above take the numbers of the scripts as exact
    rationals.  For the claims on the accuracy of the computed numbers the
    same statements are read in binary64, the arithmetic the scripts run on:
    a float literal denotes the nearest binary64 number, and every operation
    returns its exact result rounded to the nearest binary64 number, ties to
    the even mantissa, or an infinity when that is out of range.  Finite
    values are still written as rationals ([Fin q]), now with [q] a binary64
    number.  Slopes, intercepts and torques are floats (the torque levels
    are the elements of an integer array, converted to binary64 by the
    subtraction); the sign of zero is outside the model. *)
Module Binary64.

(** [floor_log2 q] is the integer [k] with [2^k <= |q| < 2^(k+1)], for
    [q] not zero. *)
Definition floor_log2 (q : Q) : Z :=
  let k := (Z.log2 (Z.abs (Qnum q)) - Z.log2 (Zpos (Qden q)))%Z in
  if Qle_bool (2 ^ k) (Qabs q) then k else (k - 1)%Z.

(** The exponent of the last place of a binary64 number near [q]: 52 places
    below the leading one, and never below the subnormal exponent. *)
Definition ulp_exponent (q : Q) : Z := Z.max (floor_log2 q - 52) (-1074).

(** The binary64 number nearest to [q], ties to even; an infinity from
    [2^1024] on. *)
Definition double (q : Q) : f64 :=
  if Qis_zero q then Fin 0
  else
    let e := ulp_exponent q in
    let r := inject_Z (round_half_even (q / 2 ^ e)) * 2 ^ e in
    if Qle_bool (2 ^ 1024) (Qabs r)
    then (if Qsign_pos q then PInf else NInf)
    else Fin (Qred r).

(** An exact result, rounded. *)
Definition rounded (x : f64) : f64 :=
  match x with
  | Fin q => double q
  | _ => x
  end.

Definition sub (x y : f64) : f64 := rounded (f64_sub x y).
Definition mul (x y : f64) : f64 := rounded (f64_mul x y).
Definition div (x y : f64) : f64 := rounded (f64_div x y).

(** [np.rint]: the nearest integer, ties to even. *)
Definition rint (x : f64) : f64 :=
  match x with
  | Fin a => Fin (inject_Z (round_half_even a))
  | _ => x
  end.

(** A float literal of the tables, and an element of [torque_levels] as
    the arithmetic sees it. *)
Definition lit (q : Q) : scalar := Scalar Builtin (double q).
Definition level (q : Q) : scalar := Scalar NumPy (double q).

Definition py_sub (a b : scalar) : scalar :=
  Scalar (join (origin_of a) (origin_of b))
         (sub (value_of a) (value_of b)).

Definition py_mul (a b : scalar) : scalar :=
  Scalar (join (origin_of a) (origin_of b))
         (mul (value_of a) (value_of b)).

(** [a / b]: between two built-in floats a zero divisor raises
    [ZeroDivisionError]; with a NumPy operand the division is IEEE's. *)
Definition py_truediv (a b : scalar) : result scalar :=
  match join (origin_of a) (origin_of b), value_of b with
  | Builtin, Fin d =>
      if Qis_zero d then Raise ZeroDivisionError
      else Return (Scalar Builtin (div (value_of a) (Fin d)))
  | o, d => Return (Scalar o (div (value_of a) d))
  end.

(** [round(a, ndigits)].  On a built-in float Python rounds the exact value
    of the float to [ndigits] decimal places, ties to even, and returns the
    binary64 number nearest to that decimal.  On a NumPy float,
    [np.float64.__round__] multiplies by [10 ** ndigits], takes [np.rint]
    and divides by [10 ** ndigits], each in binary64. *)
Definition py_round (a : scalar) (ndigits : nat) : scalar :=
  match origin_of a with
  | Builtin =>
      Scalar Builtin
             (match value_of a with
              | Fin x => double (Qround_digits x ndigits)
              | v => v
              end)
  | NumPy =>
      let f := Fin (inject_Z (10 ^ Z.of_nat ndigits)) in
      Scalar NumPy (div (rint (mul (value_of a) f)) f)
  end.

Definition calculate_z_height (torque slope intercept : scalar)
  : result scalar :=
  (z_height <- py_truediv (py_sub torque intercept) slope ;;
   Return (py_round z_height 3))%py.

(** [max([eq_data['slope'] for eq_data in cell_equations.values()])] *)
Definition steepest_slope (d : cell_equations) : result scalar :=
  py_max_scalar (map (fun eq => lit (slope eq)) (values d)).

(** The inner loop over [cell_equations.items()]. *)
Fixpoint for_trials (torque : scalar) (its : list (string * eq_data))
    (row_data z_heights_for_torque : list scalar)
  : result (list scalar * list scalar) :=
  match its with
  | [] => Return (row_data, z_heights_for_torque)
  | (_, eq) :: rest =>
      (z_height <- calculate_z_height torque (lit (slope eq))
                                      (lit (intercept eq)) ;;
       for_trials torque rest (row_data ++ [z_height])
                  (z_heights_for_torque ++ [z_height]))%py
  end.

(** The body of the loop over the torque levels. *)
Definition torque_row (d : cell_equations) (torque : scalar) : result row :=
  (lists <- for_trials torque (items d) [torque] [] ;;
   let row_data := fst lists in
   let z_heights_for_torque := snd lists in
   let z_array := np_array z_heights_for_torque in
   min_val <- np_min z_array ;;
   max_val <- np_max z_array ;;
   let range_val := py_sub max_val min_val in
   steepest <- steepest_slope d ;;
   let torque_uncertainty := py_mul steepest range_val in
   Return (row_data ++ [min_val; max_val; range_val; torque_uncertainty]))%py.

(** The loop over the torque levels. *)
Fixpoint for_torques (d : cell_equations) (levels : list Q)
    (results_data : list row) : result (list row) :=
  match levels with
  | [] => Return results_data
  | torque :: rest =>
      (row_data <- torque_row d (level torque) ;;
       for_torques d rest (results_data ++ [row_data]))%py
  end.

(** [analyze_cell_uncertainty(cell_name, cell_equations)] *)
Definition analyze_cell_uncertainty (cell_name : string)
    (d : cell_equations) : M (list row) :=
  (print (nl ++ "Analyzing " ++ cell_name ++ "...") [] ;;
   levels <- read_torque_levels ;;
   lift (for_torques d levels []))%M.

(** The Z-height the inner loop computes for one trial at a torque level
    of the array, and the Z-heights of a level. *)
Definition z_height_of (torque : scalar) (eq : eq_data) : scalar :=
  py_round
    (Scalar NumPy
            (div (sub (value_of torque) (double (intercept eq)))
                 (double (slope eq))))
    3.

Definition z_heights (torque : scalar) (d : cell_equations) : list scalar :=
  map (fun it => z_height_of torque (snd it)) (items d).

(** The loop of [Uncertainity.py], which prints as it goes and names the
    steepest trial. *)
Module Row1.

(** [[name for name, eq_data in cell_1_equations.items()
      if eq_data['slope'] == steepest_slope][0]] *)
Definition steepest_trial_of (d : cell_equations) (steepest : scalar)
  : result string :=
  match filter (fun it => f64_eqb (double (slope (snd it)))
                                  (value_of steepest))
               (items d) with
  | [] => Raise IndexError
  | it :: _ => Return (fst it)
  end.

Fixpoint for_trials (torque : scalar) (its : list (string * eq_data))
    (row_data z_heights_for_torque : list scalar)
  : M (list scalar * list scalar) :=
  match its with
  | [] => ret (row_data, z_heights_for_torque)
  | (trial_name, eq) :: rest =>
      (z_height <- lift (calculate_z_height torque (lit (slope eq))
                                            (lit (intercept eq))) ;;
       print ("  " ++ trial_name ++ ": Z-height = {:.3f} mm") [z_height] ;;
       for_trials torque rest (row_data ++ [z_height])
                  (z_heights_for_torque ++ [z_height]))%M
  end.

Definition torque_iteration (d : cell_equations) (torque : scalar)
  : M (row * list scalar * string) :=
  (print (nl ++ "Torque = {}%:") [torque] ;;
   lists <- for_trials torque (items d) [torque] [] ;;
   let row_data := fst lists in
   let z_heights_for_torque := snd lists in
   let z_array := np_array z_heights_for_torque in
   min_val <- lift (np_min z_array) ;;
   max_val <- lift (np_max z_array) ;;
   let range_val := py_sub max_val min_val in
   steepest <- lift (steepest_slope d) ;;
   trial <- lift (steepest_trial_of d steepest) ;;
   let torque_uncertainty := py_mul steepest range_val in
   let row_data :=
     row_data ++ [min_val; max_val; range_val; torque_uncertainty] in
   print "  Statistics: Min={:.3f}, Max={:.3f}, Range={:.3f}"
         [min_val; max_val; range_val] ;;
   print ("              Steepest slope={:.3f} (" ++ trial ++ ")")
         [steepest] ;;
   print ("              Torque uncertainty=" ++ plus_minus ++ "{:.3f}%")
         [torque_uncertainty] ;;
   ret (row_data, z_heights_for_torque, trial))%M.

Fixpoint for_torques (d : cell_equations) (levels : list Q)
    (results_data : list row) (z_height_matrix : list (list scalar))
    (steepest_trial : option string)
  : M (list row * list (list scalar) * option string) :=
  match levels with
  | [] => ret (results_data, z_height_matrix, steepest_trial)
  | torque :: rest =>
      (it <- torque_iteration d (level torque) ;;
       for_torques d rest (results_data ++ [fst (fst it)])
                   (z_height_matrix ++ [snd (fst it)])
                   (Some (snd it)))%M
  end.

End Row1.

End Binary64.

(** Two trials with the slope [1e-320]. *)
Definition tiny_slopes_cell : cell_equations :=
  [ ("Trial 1", EqData (1 # 10 ^ 320) 0 1);
    ("Trial 2", EqData (1 # 10 ^ 320) 0 1) ]%string.

(** * Properties of the rounding *)

Lemma round_half_even_near (x : Q) :
  Qabs (inject_Z (round_half_even x) - x) <= 1 # 2.
Proof.
  unfold round_half_even.
  pose proof (Qfloor_le x) as Hlo.
  pose proof (Qlt_floor x) as Hhi.
  rewrite inject_Z_plus in Hhi. change (inject_Z 1) with 1 in Hhi.
  apply Qabs_Qle_condition.
  destruct (Qcompare_spec (x - inject_Z (Qfloor x)) (1 # 2)) as [He|Hl|Hg].
  - destruct (Z.even (Qfloor x)).
    + split; lra.
    + rewrite inject_Z_plus. change (inject_Z 1) with 1. split; lra.
  - split; lra.
  - rewrite inject_Z_plus. change (inject_Z 1) with 1. split; lra.
Qed.

Lemma Qround_digits_3 (x : Q) :
  Qround_digits x 3 = round_half_even (x * 1000) # 1000.
Proof. reflexivity. Qed.

(** [round(x, 3)] is a multiple of 0.001 at most 0.0005 away from [x]. *)
Lemma Qround_digits_3_near (x : Q) :
  Qabs (Qround_digits x 3 - x) <= 5 # 10000.
Proof.
  rewrite Qround_digits_3.
  pose proof (round_half_even_near (x * 1000)) as H.
  apply Qabs_Qle_condition in H. apply Qabs_Qle_condition.
  set (k := round_half_even (x * 1000)) in *.
  assert (Hk : k # 1000 == inject_Z k * (1 # 1000)).
  { unfold Qeq, Qmult, inject_Z. simpl. lia. }
  rewrite Hk. generalize dependent (inject_Z k). intros q H _.
  split; lra.
Qed.

(** * Properties of the Z-height inversion *)

Lemma Qis_zero_true (q : Q) : Qis_zero q = true <-> q == 0.
Proof. unfold Qis_zero. apply Qeq_bool_iff. Qed.

Lemma Qis_zero_false (q : Q) : Qis_zero q = false <-> ~ q == 0.
Proof.
  rewrite <- Qis_zero_true. destruct (Qis_zero q); split; congruence.
Qed.

Lemma f64_round_inf_of_sign (q : Q) (n : nat) :
  f64_round (inf_of_sign q PInf) n = inf_of_sign q PInf.
Proof.
  unfold inf_of_sign. destruct (Qis_zero q); [reflexivity|].
  destruct (Qsign_pos q); reflexivity.
Qed.

(** What the inversion does on finite operands, by the origin of the
    operands and the slope. *)
Lemma calculate_z_height_finite (ot os oc : origin) (t s c : Q) :
  calculate_z_height (Scalar ot (Fin t)) (Scalar os (Fin s)) (Scalar oc (Fin c))
  = if Qis_zero s then
      match join (join ot oc) os with
      | Builtin => Raise ZeroDivisionError
      | NumPy => Return (Scalar NumPy (inf_of_sign (t - c) PInf))
      end
    else Return (Scalar (join (join ot oc) os)
                        (Fin (Qround_digits ((t - c) / s) 3))).
Proof.
  unfold calculate_z_height, py_truediv, py_sub, py_round; simpl.
  destruct ot, oc, os; simpl; destruct (Qis_zero s) eqn:Hs; simpl;
    rewrite ?Hs, ?f64_round_inf_of_sign; reflexivity.
Qed.

Lemma calculate_z_height_nonzero (ot os oc : origin) (t s c : Q) :
  ~ s == 0 ->
  calculate_z_height (Scalar ot (Fin t)) (Scalar os (Fin s)) (Scalar oc (Fin c))
  = Return (Scalar (join (join ot oc) os)
                   (Fin (Qround_digits ((t - c) / s) 3))).
Proof.
  intros Hs. rewrite calculate_z_height_finite.
  apply Qis_zero_false in Hs. rewrite Hs. reflexivity.
Qed.

(** C3, as stated, fails: with slope 117.200, intercept -7722.002 and
    torque 45 the inversion does not return 66.267, whatever the origin of
    the torque. *)
Lemma z_height_example_is_not_66_267 :
  ~ exists (ot o : origin) (z : Q),
      calculate_z_height (Scalar ot (Fin 45)) (py 117.200) (py (-7722.002))
      = Return (Scalar o (Fin z))
      /\ z == 66.267.
Proof.
  intros (ot & o & z & Hcall & Hz). unfold py in Hcall.
  rewrite calculate_z_height_nonzero in Hcall by (unfold Qeq; simpl; lia).
  injection Hcall as _ Hval. subst z.
  vm_compute in Hz. discriminate Hz.
Qed.

(** C3, amended.  With slope 117.200, intercept -7722.002 and torque 45 the
    inversion returns 66.271, which is the quotient
    (45 - (-7722.002)) / 117.200 = 66.27134... rounded to 3 decimal places;
    66.267 is more than 0.004 away from that quotient.  These are the
    numbers of Trial 1 of Cell 1 in [Uncertainity.py], and the first Z-height
    of the first row the script computes is that 66.271. *)
Theorem z_height_example_is_66_271 :
  (forall ot : origin,
      calculate_z_height (Scalar ot (Fin 45)) (py 117.200) (py (-7722.002))
      = Return (Scalar ot (Fin 66.271)))
  /\ Qabs (66.271 - (45 - (-7722.002)) / 117.200) <= 5 # 10000
  /\ 4 # 1000 < Qabs (66.267 - (45 - (-7722.002)) / 117.200)
  /\ exists rows matrix trial st1 r,
       Row1.results_data Row1.initial_store
       = (Return (rows, matrix, trial), st1)
       /\ nth_error rows 0 = Some r
       /\ nth_error r 0 = Some (np 45)
       /\ nth_error r 1 = Some (np 66.271).
Proof.
  split; [|split; [|split]].
  - intros ot. unfold py. rewrite calculate_z_height_nonzero by (unfold Qeq; simpl; lia).
    destruct ot; reflexivity.
  - vm_compute. discriminate.
  - vm_compute. reflexivity.
  - do 5 eexists. split; [vm_compute; reflexivity|].
    split; [reflexivity|]. split; reflexivity.
Qed.

(** * The loops *)

Lemma calculate_z_height_numpy (torque : Q) (eq : eq_data) :
  calculate_z_height (np torque) (py (slope eq)) (py (intercept eq))
  = Return (Scalar NumPy (z_value torque eq)).
Proof. reflexivity. Qed.

Lemma for_trials_numpy (torque : Q) (its : list (string * eq_data)) :
  forall row_data zs,
    for_trials (np torque) its row_data zs
    = Return (row_data ++ z_heights torque its, zs ++ z_heights torque its).
Proof.
  induction its as [|[name eq] rest IH]; intros row_data zs.
  - simpl. rewrite !app_nil_r. reflexivity.
  - cbn [for_trials]. rewrite calculate_z_height_numpy. cbn [bind].
    rewrite IH. unfold z_heights, items. cbn [map snd].
    rewrite <- !app_assoc. reflexivity.
Qed.

Lemma z_heights_length (torque : Q) (d : cell_equations) :
  List.length (z_heights torque d) = List.length d.
Proof. unfold z_heights, items. apply length_map. Qed.

Lemma py_max_nonempty (l : list Q) :
  l <> [] -> exists m, py_max l = Return m.
Proof. destruct l; [congruence | intros _; eexists; reflexivity]. Qed.

Lemma steepest_slope_nonempty (d : cell_equations) :
  d <> [] -> exists S, steepest_slope d = Return S.
Proof.
  intros Hd. apply py_max_nonempty. destruct d; [congruence | discriminate].
Qed.

(** The row of a nonempty cell: the loop body raises nothing, and the row is
    the torque, the Z-heights, and the four statistics. *)
Lemma torque_row_nonempty (d : cell_equations) (torque : Q) :
  d <> [] ->
  exists (min_val max_val : scalar) (S : Q),
    np_min (np_array (z_heights torque d)) = Return min_val
    /\ np_max (np_array (z_heights torque d)) = Return max_val
    /\ steepest_slope d = Return S
    /\ torque_row d (np torque)
       = Return (np torque :: z_heights torque d
                 ++ [min_val; max_val; py_sub max_val min_val;
                     py_mul (py S) (py_sub max_val min_val)]).
Proof.
  intros Hd. destruct (steepest_slope_nonempty d Hd) as [S HS].
  unfold torque_row. rewrite for_trials_numpy. cbn [bind fst snd app].
  destruct d as [|[name eq] rest]; [congruence|].
  unfold z_heights, items, np_array. cbn [map np_min np_max bind].
  rewrite HS. cbn [bind].
  do 3 eexists. repeat split; reflexivity.
Qed.

Lemma torque_row_empty (torque : scalar) :
  torque_row [] torque = Raise ValueError.
Proof. reflexivity. Qed.

Lemma row_from_end_stats (l : list scalar) (a b c e : scalar) :
  row_from_end (l ++ [a; b; c; e]) 4 = Return a
  /\ row_from_end (l ++ [a; b; c; e]) 3 = Return b
  /\ row_from_end (l ++ [a; b; c; e]) 2 = Return c
  /\ row_from_end (l ++ [a; b; c; e]) 1 = Return e.
Proof.
  unfold row_from_end. rewrite rev_app_distr. simpl. repeat split.
Qed.

(** The loop over the torque levels of a nonempty cell returns one row per
    level, in order. *)
Lemma for_torques_nonempty (d : cell_equations) (levels : list Q) :
  d <> [] ->
  forall acc,
  exists rows,
    for_torques d levels acc = Return (acc ++ rows)
    /\ Forall2 (fun t r => torque_row d (np t) = Return r) levels rows.
Proof.
  intros Hd. induction levels as [|t rest IH]; intros acc.
  - exists []. rewrite app_nil_r. split; [reflexivity | constructor].
  - destruct (torque_row_nonempty d t Hd) as (mn & mx & S & _ & _ & _ & Hrow).
    remember (np t :: _) as r eqn:Hr in Hrow. clear Hr.
    cbn [for_torques]. rewrite Hrow. cbn [bind].
    destruct (IH (acc ++ [r])) as (rows & Hloop & Hall).
    exists (r :: rows). split.
    + rewrite <- app_assoc in Hloop. exact Hloop.
    + constructor; [exact Hrow | exact Hall].
Qed.

(** The minimum of finite values is one of them and below all of them. *)
Lemma fold_minimum_finite (l : list Q) :
  forall x,
  exists m,
    fold_left f64_minimum (map Fin l) (Fin x) = Fin m
    /\ In m (x :: l)
    /\ Forall (fun z => m <= z) (x :: l).
Proof.
  induction l as [|a l IH]; intros x.
  - exists x. split; [reflexivity|]. split; [left; reflexivity|].
    constructor; [apply Qle_refl | constructor].
  - cbn [map fold_left]. unfold f64_minimum at 2. cbn [f64_ltb].
    destruct (Qle_bool x a) eqn:Hxa; cbn [negb].
    + apply Qle_bool_iff in Hxa.
      destruct (IH x) as (m & Hfold & Hin & Hall).
      exists m. split; [exact Hfold|]. inversion Hall as [|? ? Hmx Hrest]; subst.
      split.
      * destruct Hin as [->|Hin]; [left; reflexivity | right; right; exact Hin].
      * constructor; [exact Hmx|]. constructor; [|exact Hrest].
        apply Qle_trans with x; assumption.
    + assert (Hax : a < x).
      { apply Qnot_le_lt. intros Hle. apply Qle_bool_iff in Hle. congruence. }
      destruct (IH a) as (m & Hfold & Hin & Hall).
      exists m. split; [exact Hfold|]. inversion Hall as [|? ? Hma Hrest]; subst.
      split; [right; exact Hin|].
      constructor; [|exact Hall].
      apply Qle_trans with a; [exact Hma | apply Qlt_le_weak; exact Hax].
Qed.

(** The maximum of finite values is one of them and above all of them. *)
Lemma fold_maximum_finite (l : list Q) :
  forall x,
  exists m,
    fold_left f64_maximum (map Fin l) (Fin x) = Fin m
    /\ In m (x :: l)
    /\ Forall (fun z => z <= m) (x :: l).
Proof.
  induction l as [|a l IH]; intros x.
  - exists x. split; [reflexivity|]. split; [left; reflexivity|].
    constructor; [apply Qle_refl | constructor].
  - cbn [map fold_left]. unfold f64_maximum at 2. cbn [f64_ltb].
    destruct (Qle_bool a x) eqn:Hax; cbn [negb].
    + apply Qle_bool_iff in Hax.
      destruct (IH x) as (m & Hfold & Hin & Hall).
      exists m. split; [exact Hfold|]. inversion Hall as [|? ? Hxm Hrest]; subst.
      split.
      * destruct Hin as [->|Hin]; [left; reflexivity | right; right; exact Hin].
      * constructor; [exact Hxm|]. constructor; [|exact Hrest].
        apply Qle_trans with x; assumption.
    + assert (Hxa : x < a).
      { apply Qnot_le_lt. intros Hle. apply Qle_bool_iff in Hle. congruence. }
      destruct (IH a) as (m & Hfold & Hin & Hall).
      exists m. split; [exact Hfold|]. inversion Hall as [|? ? Ham Hrest]; subst.
      split; [right; exact Hin|].
      constructor; [|exact Hall].
      apply Qle_trans with a; [apply Qlt_le_weak; exact Hxa | exact Ham].
Qed.

(** * The statements leave the inputs alone *)

Lemma same_inputs_refl (st : store) : same_inputs st st.
Proof. split; reflexivity. Qed.

Lemma same_inputs_sym (st st' : store) :
  same_inputs st st' -> same_inputs st' st.
Proof. intros [H1 H2]. split; symmetry; assumption. Qed.

Lemma same_inputs_trans (st1 st2 st3 : store) :
  same_inputs st1 st2 -> same_inputs st2 st3 -> same_inputs st1 st3.
Proof. intros [H1 H2] [H3 H4]. split; congruence. Qed.

Lemma input_pure_ret {A : Type} (a : A) : input_pure (ret a).
Proof. intros st st' H. split; [reflexivity | apply same_inputs_refl]. Qed.

Lemma input_pure_lift {A : Type} (r : result A) : input_pure (lift r).
Proof. intros st st' H. split; [reflexivity | apply same_inputs_refl]. Qed.

Lemma input_pure_print (text : string) (args : list scalar) :
  input_pure (print text args).
Proof. intros st st' H. split; [reflexivity | split; reflexivity]. Qed.

Lemma input_pure_read_torque_levels : input_pure read_torque_levels.
Proof.
  intros st st' [H1 H2]. split; [|apply same_inputs_refl].
  unfold read_torque_levels. simpl. rewrite H1. reflexivity.
Qed.

Lemma input_pure_read_all_cells_equations :
  input_pure read_all_cells_equations.
Proof.
  intros st st' [H1 H2]. split; [|apply same_inputs_refl].
  unfold read_all_cells_equations. simpl. rewrite H2. reflexivity.
Qed.

Lemma input_pure_bind {A B : Type} (c : M A) (k : A -> M B) :
  input_pure c -> (forall a, input_pure (k a)) -> input_pure (bindM c k).
Proof.
  intros Hc Hk st st' Hst.
  destruct (Hc st st' Hst) as [Hres Hframe].
  destruct (Hc st' st' (same_inputs_refl st')) as [_ Hframe'].
  unfold bindM.
  destruct (c st) as [[a|e] st1], (c st') as [[a'|e'] st1'];
    simpl in Hres, Hframe, Hframe'; try discriminate Hres.
  - injection Hres as <-.
    assert (H11 : same_inputs st1 st1').
    { apply same_inputs_trans with st; [apply same_inputs_sym; exact Hframe|].
      apply same_inputs_trans with st'; assumption. }
    destruct (Hk a st1 st1' H11) as [Hres2 Hframe2].
    split; [exact Hres2|].
    apply same_inputs_trans with st1; assumption.
  - injection Hres as <-. split; [reflexivity | exact Hframe].
Qed.

Ltac input_pure_step :=
  first
    [ apply input_pure_ret
    | apply input_pure_lift
    | apply input_pure_print
    | apply input_pure_read_torque_levels
    | apply input_pure_read_all_cells_equations
    | apply input_pure_bind; [|intros ?] ].

Lemma input_pure_analyze_cell_uncertainty (cell_name : string)
    (d : cell_equations) :
  input_pure (Row2.analyze_cell_uncertainty cell_name d).
Proof. unfold Row2.analyze_cell_uncertainty. repeat input_pure_step. Qed.

Lemma input_pure_for_cells (cells : list (string * cell_equations)) :
  forall acc, input_pure (Row2.for_cells cells acc).
Proof.
  induction cells as [|[name d] rest IH]; intros acc; cbn [Row2.for_cells].
  - apply input_pure_ret.
  - apply input_pure_bind; [apply input_pure_analyze_cell_uncertainty|].
    intros rows. apply IH.
Qed.

Lemma input_pure_all_results : input_pure Row2.all_results.
Proof.
  unfold Row2.all_results. apply input_pure_bind.
  - apply input_pure_read_all_cells_equations.
  - intros cells. apply input_pure_for_cells.
Qed.

Lemma input_pure_row1_for_trials (torque : scalar)
    (its : list (string * eq_data)) :
  forall row_data zs, input_pure (Row1.for_trials torque its row_data zs).
Proof.
  induction its as [|[name eq] rest IH]; intros row_data zs;
    cbn [Row1.for_trials].
  - apply input_pure_ret.
  - apply input_pure_bind; [apply input_pure_lift|]. intros z.
    apply input_pure_bind; [apply input_pure_print|]. intros _. apply IH.
Qed.

Lemma input_pure_torque_iteration (d : cell_equations) (torque : scalar) :
  input_pure (Row1.torque_iteration d torque).
Proof.
  unfold Row1.torque_iteration.
  apply input_pure_bind; [apply input_pure_print|]. intros _.
  apply input_pure_bind; [apply input_pure_row1_for_trials|]. intros lists.
  repeat input_pure_step.
Qed.

Lemma input_pure_row1_for_torques (d : cell_equations) (levels : list Q) :
  forall acc matrix trial,
    input_pure (Row1.for_torques d levels acc matrix trial).
Proof.
  induction levels as [|t rest IH]; intros acc matrix trial;
    cbn [Row1.for_torques].
  - apply input_pure_ret.
  - apply input_pure_bind; [apply input_pure_torque_iteration|].
    intros it. apply IH.
Qed.

Lemma input_pure_results_data : input_pure Row1.results_data.
Proof.
  unfold Row1.results_data, Row1.cell_1_equations.
  apply input_pure_bind; [repeat input_pure_step|]. intros d.
  apply input_pure_bind; [apply input_pure_read_torque_levels|].
  intros levels.
  apply input_pure_bind; [apply input_pure_print|]. intros _.
  apply input_pure_bind; [apply input_pure_print|]. intros _.
  apply input_pure_row1_for_torques.
Qed.

(** A statement that is pure in the inputs gives the same result when it is
    run again in the store it left. *)
Lemma input_pure_rerun {A : Type} (c : M A) (st : store) :
  input_pure c ->
  same_inputs st (snd (c st)) /\ fst (c (snd (c st))) = fst (c st).
Proof.
  intros Hc. destruct (Hc st st (same_inputs_refl st)) as [_ Hframe].
  split; [exact Hframe|].
  destruct (Hc st (snd (c st)) Hframe) as [Hres _]. symmetry. exact Hres.
Qed.

(** * The steepest slope and the trial that has it *)

Lemma max_step_cases (x a : Q) :
  (max_step x a = x /\ a <= x) \/ (max_step x a = a /\ x < a).
Proof.
  unfold max_step. destruct (Qle_bool a x) eqn:Hax.
  - left. split; [reflexivity | apply Qle_bool_iff; exact Hax].
  - right. split; [reflexivity|]. apply Qnot_le_lt. intros Hle.
    apply Qle_bool_iff in Hle. congruence.
Qed.

Lemma fold_max_step (l : list Q) :
  forall x,
    In (fold_left max_step l x) (x :: l)
    /\ Forall (fun y => y <= fold_left max_step l x) (x :: l).
Proof.
  induction l as [|a l IH]; intros x; cbn [fold_left].
  - split; [left; reflexivity|]. constructor; [apply Qle_refl | constructor].
  - destruct (IH (max_step x a)) as [Hin Hall].
    inversion Hall as [|? ? Hstep Hrest]; subst.
    destruct (max_step_cases x a) as [[Hm Hle]|[Hm Hlt]];
      rewrite Hm in Hin, Hstep, Hall, Hrest |- *.
    + split.
      * destruct Hin as [Hin|Hin]; [left; exact Hin | right; right; exact Hin].
      * constructor; [exact Hstep|]. constructor; [|exact Hrest].
        apply Qle_trans with x; assumption.
    + split; [right; exact Hin|].
      constructor; [|exact Hall].
      apply Qle_trans with a; [apply Qlt_le_weak; exact Hlt | exact Hstep].
Qed.

Lemma py_max_spec (l : list Q) (m : Q) :
  py_max l = Return m -> In m l /\ Forall (fun y => y <= m) l.
Proof.
  destruct l as [|x l]; [discriminate|]. cbn [py_max]. intros [= <-].
  apply fold_max_step.
Qed.

Lemma filter_first {A : Type} (f : A -> bool) (l : list A) :
  forall it rest,
    filter f l = it :: rest ->
    exists before after,
      l = before ++ it :: after
      /\ Forall (fun x => f x = false) before
      /\ f it = true.
Proof.
  induction l as [|a l IH]; intros it rest Hf; [discriminate|].
  cbn [filter] in Hf. destruct (f a) eqn:Hfa.
  - injection Hf as -> _. exists [], l. repeat split; [constructor | exact Hfa].
  - destruct (IH it rest Hf) as (before & after & -> & Hall & Hit).
    exists (a :: before), after. repeat split; [constructor; assumption | exact Hit].
Qed.

(** The list comprehension of [steepest_trial] is never empty when the
    slope looked for is the slope of a trial, and its first element is the
    first trial of the cell with that slope. *)
Lemma steepest_trial_of_first (d : cell_equations) (S : Q) :
  In S (map slope (values d)) ->
  exists name eq before after,
    steepest_trial_of d S = Return name
    /\ items d = before ++ (name, eq) :: after
    /\ slope eq == S
    /\ Forall (fun it => ~ slope (snd it) == S) before.
Proof.
  intros Hin. unfold steepest_trial_of.
  destruct (filter _ (items d)) as [|[name eq] rest] eqn:Hf.
  - exfalso. unfold values in Hin. rewrite map_map in Hin.
    apply in_map_iff in Hin. destruct Hin as (it & Hs & Hit).
    assert (Hmem : In it (filter (fun it => Qeq_bool (slope (snd it)) S)
                                 (items d))).
    { apply filter_In. split; [exact Hit|]. apply Qeq_bool_iff.
      rewrite Hs. reflexivity. }
    rewrite Hf in Hmem. exact Hmem.
  - destruct (filter_first _ _ _ _ Hf) as (before & after & Hd & Hall & Hit).
    exists name, eq, before, after. cbn [fst snd] in *.
    split; [reflexivity|]. split; [exact Hd|].
    split; [apply Qeq_bool_iff; exact Hit|].
    eapply Forall_impl; [|exact Hall]. cbn beta. intros it Hfalse Heq.
    apply Qeq_bool_iff in Heq. congruence.
Qed.

(** * The loop of [Uncertainity.py] computes the rows of
      [analyze_cell_uncertainty] *)

Lemma row1_for_trials_run (torque : Q) (its : list (string * eq_data)) :
  forall row_data zs st,
  exists st1,
    Row1.for_trials (np torque) its row_data zs st
    = (Return (row_data ++ z_heights torque its, zs ++ z_heights torque its),
       st1).
Proof.
  induction its as [|[name eq] rest IH]; intros row_data zs st.
  - exists st. cbn. rewrite !app_nil_r. reflexivity.
  - cbn [Row1.for_trials]. unfold bindM at 1, lift.
    rewrite calculate_z_height_numpy. unfold bindM at 1, print.
    destruct (IH (row_data ++ [Scalar NumPy (z_value torque eq)])
                 (zs ++ [Scalar NumPy (z_value torque eq)])
                 (Store (torque_levels st) (all_cells_equations st)
                    (stdout st ++
                     [Print ("  " ++ name ++ ": Z-height = {:.3f} mm")
                            [Scalar NumPy (z_value torque eq)]])))
      as [st1 Hrun].
    exists st1. rewrite Hrun. unfold z_heights, items. cbn [map snd].
    rewrite <- !app_assoc. reflexivity.
Qed.

Lemma steepest_trial_nonempty (d : cell_equations) :
  d <> [] ->
  exists (S : Q) (name : string) (eq : eq_data)
         (before after : list (string * eq_data)),
    steepest_slope d = Return S
    /\ steepest_trial_of d S = Return name
    /\ items d = before ++ (name, eq) :: after
    /\ slope eq == S
    /\ Forall (fun it => slope (snd it) < S) before
    /\ Forall (fun it => slope (snd it) <= S) after.
Proof.
  intros Hd. destruct (steepest_slope_nonempty d Hd) as [S HS].
  destruct (py_max_spec _ _ HS) as [Hin Hall].
  destruct (steepest_trial_of_first d S Hin)
    as (name & eq & before & after & Htrial & Hitems & Heq & Hbefore).
  exists S, name, eq, before, after.
  split; [exact HS|]. split; [exact Htrial|]. split; [exact Hitems|].
  split; [exact Heq|].
  assert (Hle : Forall (fun it => slope (snd it) <= S) (items d)).
  { unfold values in Hall. rewrite map_map in Hall.
    rewrite Forall_map in Hall. exact Hall. }
  rewrite Hitems in Hle. apply Forall_app in Hle. destruct Hle as [Hleb Hlea].
  split.
  - rewrite Forall_forall in *. intros it Hit.
    pose proof (Hleb it Hit) as Hle. apply Qle_lteq in Hle.
    destruct Hle as [Hlt|Heq']; [exact Hlt|].
    exfalso. exact (Hbefore it Hit Heq').
  - inversion Hlea; assumption.
Qed.

Lemma row1_torque_iteration_run (d : cell_equations) (torque : Q) :
  d <> [] ->
  exists (r : row) (S : Q) (name : string),
    torque_row d (np torque) = Return r
    /\ steepest_slope d = Return S
    /\ steepest_trial_of d S = Return name
    /\ forall st, exists st1,
         Row1.torque_iteration d (np torque) st
         = (Return (r, z_heights torque d, name), st1).
Proof.
  intros Hd.
  destruct (torque_row_nonempty d torque Hd)
    as (mn & mx & S & Hmin & Hmax & HS & Hrow).
  destruct (steepest_trial_nonempty d Hd)
    as (S' & name & _ & _ & _ & HS' & Htrial & _).
  assert (S' = S) by congruence. subst S'.
  eexists _, S, name. split; [exact Hrow|]. split; [exact HS|].
  split; [exact Htrial|]. intros st.
  unfold Row1.torque_iteration. unfold bindM at 1. unfold print at 1.
  unfold bindM at 1.
  destruct (row1_for_trials_run torque (items d) [np torque] []
              (Store (torque_levels st) (all_cells_equations st)
                 (stdout st ++ [Print (nl ++ "Torque = {}%:") [np torque]])))
    as [st1 Hrun].
  rewrite Hrun. cbn [fst snd app]. change (items d) with d.
  unfold bindM, lift, print, ret. rewrite Hmin, Hmax, HS, Htrial.
  eexists. reflexivity.
Qed.

Lemma steepest_trial_unfold (d : cell_equations) (S : Q) (name : string) :
  steepest_slope d = Return S ->
  steepest_trial_of d S = Return name ->
  steepest_trial d = Return name.
Proof. intros HS Ht. unfold steepest_trial. rewrite HS. exact Ht. Qed.

(** The loop of the script returns the rows of the loop of
    [analyze_cell_uncertainty], the matrix of the Z-heights, and the
    steepest trial of the cell. *)
Lemma row1_for_torques_run (d : cell_equations) (levels : list Q) :
  d <> [] ->
  exists name,
    steepest_trial d = Return name
    /\ forall acc matrix trial st,
       exists rows st1,
         for_torques d levels acc = Return (acc ++ rows)
         /\ Forall2 (fun t r => torque_row d (np t) = Return r) levels rows
         /\ Row1.for_torques d levels acc matrix trial st
            = (Return (acc ++ rows,
                       matrix ++ map (fun t => z_heights t d) levels,
                       match levels with
                       | [] => trial
                       | _ :: _ => Some name
                       end),
               st1).
Proof.
  intros Hd.
  destruct (steepest_trial_nonempty d Hd)
    as (S & name & _ & _ & _ & HS & Htrial & _).
  exists name. split; [eapply steepest_trial_unfold; eassumption|].
  induction levels as [|t rest IH]; intros acc matrix trial st.
  - exists [], st. rewrite !app_nil_r.
    split; [reflexivity|]. split; [constructor | reflexivity].
  - destruct (row1_torque_iteration_run d t Hd)
      as (r & S' & name' & Hrow & HS' & Htrial' & Hrun).
    assert (S' = S) by congruence. subst S'.
    assert (name' = name) by congruence. subst name'.
    destruct (Hrun st) as [st1 Hit].
    destruct (IH (acc ++ [r]) (matrix ++ [z_heights t d]) (Some name) st1)
      as (rows & st2 & Hloop & Hall & Hloop1).
    exists (r :: rows), st2. split; [|split].
    + cbn [for_torques]. rewrite Hrow. cbn [bind].
      rewrite <- app_assoc in Hloop. exact Hloop.
    + constructor; assumption.
    + cbn [Row1.for_torques]. unfold bindM at 1. rewrite Hit.
      cbn [fst snd]. rewrite Hloop1. cbn [map].
      rewrite <- !app_assoc. cbn [app].
      destruct rest; reflexivity.
Qed.

(** * The claims about the steepest trial and the frame *)

(** C8.  In a cell with at least one trial, the trial reported as the most
    sensitive one is the first trial, in the order of the cell, whose slope
    is the maximum slope: the trials before it have a strictly smaller
    slope, the trials after it a smaller or equal one (so of several trials
    that share the maximum the first is reported).  The selection is the
    same whenever it is made: every iteration of the loop over the torque
    levels of [Uncertainity.py] selects that trial, in every store, and the
    variable [steepest_trial] holds it after the loop. *)
Theorem steepest_trial_is_first_with_max_slope (d : cell_equations) :
  d <> [] ->
  exists (S : Q) (name : string) (eq : eq_data)
         (before after : list (string * eq_data)),
    steepest_slope d = Return S
    /\ steepest_trial d = Return name
    /\ items d = before ++ (name, eq) :: after
    /\ slope eq == S
    /\ Forall (fun it => slope (snd it) < S) before
    /\ Forall (fun it => slope (snd it) <= S) after
    /\ (forall torque st, exists r st1,
          Row1.torque_iteration d (np torque) st
          = (Return (r, z_heights torque d, name), st1))
    /\ (forall levels st, levels <> [] -> exists rows matrix st1,
          Row1.for_torques d levels [] [] None st
          = (Return (rows, matrix, Some name), st1)).
Proof.
  intros Hd.
  destruct (steepest_trial_nonempty d Hd)
    as (S & name & eq & before & after & HS & Htrial & Hitems & Heq
        & Hbefore & Hafter).
  pose proof (steepest_trial_unfold d S name HS Htrial) as Hst.
  exists S, name, eq, before, after.
  repeat (split; [assumption|]). split.
  - intros torque st.
    destruct (row1_torque_iteration_run d torque Hd)
      as (r & S' & name' & _ & HS' & Htrial' & Hrun).
    assert (S' = S) by congruence. subst S'.
    assert (name' = name) by congruence. subst name'.
    destruct (Hrun st) as [st1 Hit]. exists r, st1. exact Hit.
  - intros levels st Hlevels.
    destruct (row1_for_torques_run d levels Hd) as (name' & Hst' & Hrun).
    assert (name' = name) by congruence. subst name'.
    destruct (Hrun [] [] None st) as (rows & st1 & _ & _ & Hloop).
    destruct levels as [|t rest]; [congruence|].
    do 3 eexists. exact Hloop.
Qed.

Lemma steepest_trial_is_first_with_max_slope_witness :
  tied_slopes_cell <> [] /\
  exists (S : Q) (name : string) (eq : eq_data)
         (before after : list (string * eq_data)),
    steepest_slope tied_slopes_cell = Return S
    /\ steepest_trial tied_slopes_cell = Return name
    /\ items tied_slopes_cell = before ++ (name, eq) :: after
    /\ slope eq == S
    /\ Forall (fun it => slope (snd it) < S) before
    /\ Forall (fun it => slope (snd it) <= S) after
    /\ (forall torque st, exists r st1,
          Row1.torque_iteration tied_slopes_cell (np torque) st
          = (Return (r, z_heights torque tied_slopes_cell, name), st1))
    /\ (forall levels st, levels <> [] -> exists rows matrix st1,
          Row1.for_torques tied_slopes_cell levels [] [] None st
          = (Return (rows, matrix, Some name), st1)).
Proof.
  split.
  - discriminate.
  - apply (steepest_trial_is_first_with_max_slope tied_slopes_cell).
    discriminate.
Defined.

(** Of the two trials of [tied_slopes_cell] that share the slope 90, the
    first one is reported. *)
Example steepest_trial_of_tied_slopes_cell :
  steepest_trial tied_slopes_cell = Return "Trial 2"%string.
Proof. reflexivity. Qed.

(** C10.  [analyze_cell_uncertainty] and the loop of [Uncertainity.py]
    modify none of their inputs: in the store they leave, the torque levels
    and the regression tables (which hold the cell's trial fits) are what
    they were, and running them again there gives an equal result.  The
    same holds for the loop that calls [analyze_cell_uncertainty] on every
    cell. *)
Theorem analysis_leaves_inputs_unchanged
    (cell_name : string) (d : cell_equations) (levels : list Q)
    (st : store) :
  (let left := snd (Row2.analyze_cell_uncertainty cell_name d st) in
   torque_levels left = torque_levels st
   /\ all_cells_equations left = all_cells_equations st
   /\ fst (Row2.analyze_cell_uncertainty cell_name d left)
      = fst (Row2.analyze_cell_uncertainty cell_name d st))
  /\ (let left := snd (Row2.all_results st) in
      torque_levels left = torque_levels st
      /\ all_cells_equations left = all_cells_equations st
      /\ fst (Row2.all_results left) = fst (Row2.all_results st))
  /\ (let left := snd (Row1.for_torques d levels [] [] None st) in
      torque_levels left = torque_levels st
      /\ all_cells_equations left = all_cells_equations st
      /\ fst (Row1.for_torques d levels [] [] None left)
         = fst (Row1.for_torques d levels [] [] None st))
  /\ (let left := snd (Row1.results_data st) in
      torque_levels left = torque_levels st
      /\ all_cells_equations left = all_cells_equations st
      /\ fst (Row1.results_data left) = fst (Row1.results_data st)).
Proof.
  cbv zeta.
  pose proof (input_pure_rerun _ st
                (input_pure_analyze_cell_uncertainty cell_name d))
    as [[H1 H2] H3].
  pose proof (input_pure_rerun _ st input_pure_all_results) as [[H4 H5] H6].
  pose proof (input_pure_rerun _ st
                (input_pure_row1_for_torques d levels [] [] None))
    as [[H7 H8] H9].
  pose proof (input_pure_rerun _ st input_pure_results_data)
    as [[H10 H11] H12].
  repeat split; solve [assumption | symmetry; assumption].
Qed.

(** * The claims about the rows *)

Lemma Qabs_nonneg_eq (x : Q) : 0 <= x -> Qabs x = x.
Proof.
  destruct x as [n p]. unfold Qle. cbn. intros H. unfold Qabs. f_equal.
  apply Z.abs_eq. lia.
Qed.

(** Where no slope is negative, the steepest slope of the code is the one
    of the specification. *)
Lemma steepest_slope_nonnegative (d : cell_equations) :
  Forall (fun it => 0 <= slope (snd it)) d ->
  spec_steepest_slope d = steepest_slope d.
Proof.
  intros Hpos. unfold spec_steepest_slope, steepest_slope. f_equal.
  unfold values. rewrite !map_map. apply map_ext_in. intros it Hit.
  apply Qabs_nonneg_eq. rewrite Forall_forall in Hpos. apply Hpos. exact Hit.
Qed.

(** C1, on a cell with negative slopes.  For the trials of slopes -2 and -1
    (intercepts 0) and the torque level 45, the Z-heights are -22.5 and -45,
    their range is 22.5, and the steepest slope in absolute value is 2; the
    uncertainty of the row is nevertheless -22.5: the code multiplies the
    range by the largest signed slope, -1, and not by 2. *)
Theorem uncertainty_with_negative_slopes :
  spec_steepest_slope negative_slopes_cell = Return 2
  /\ steepest_slope negative_slopes_cell = Return (-1)
  /\ exists (r : row) (range_val u : Q) (st1 : store),
       Row2.analyze_cell_uncertainty "Cell 1" negative_slopes_cell
         (Store [45] [("Cell 1"%string, negative_slopes_cell)] [])
       = (Return [r], st1)
       /\ row_from_end r 2 = Return (np range_val)
       /\ row_from_end r 1 = Return (np u)
       /\ range_val == 22.5
       /\ u == - 22.5
       /\ ~ u == 2 * range_val.
Proof.
  split; [reflexivity|]. split; [reflexivity|].
  do 4 eexists. split; [reflexivity|].
  split; [reflexivity|]. split; [reflexivity|].
  split; [reflexivity|]. split; [reflexivity|].
  vm_compute. discriminate.
Qed.

(** * The status labels *)

Lemma f64_ltb_fin (a b : Q) : f64_ltb (Fin a) (Fin b) = true <-> a < b.
Proof.
  cbn [f64_ltb]. rewrite negb_true_iff. split.
  - intros H. apply Qnot_le_lt. intros Hle. apply Qle_bool_iff in Hle.
    congruence.
  - intros H. destruct (Qle_bool b a) eqn:Hba; [|reflexivity].
    apply Qle_bool_iff in Hba. apply Qlt_not_le in H. contradiction.
Qed.

Lemma f64_ltb_fin_false (a b : Q) : f64_ltb (Fin a) (Fin b) = false <-> b <= a.
Proof.
  cbn [f64_ltb]. rewrite negb_false_iff. apply Qle_bool_iff.
Qed.

(** C6.  An uncertainty of 0.15 is "LOW" under the labels of
    [Uncertainity.py] (below 0.2 LOW, below 0.5 MEDIUM, else HIGH) and an
    uncertainty of 7.0 is "GOOD" under the labels of [R2_Uncertainity10K.py]
    (below 5 EXCELLENT, below 10 GOOD, below 20 ACCEPTABLE, else NEEDS
    ATTENTION).  Both label a value by the first strict upper threshold it
    falls under; for a number this gives the half-open intervals between the
    thresholds. *)
Theorem status_is_first_threshold :
  Row1.status (np 0.15) = "LOW"%string
  /\ Row2.status (np 7.0) = "GOOD"%string
  /\ (forall u : scalar,
        Row1.status u
        = spec_classify [(0.2, "LOW"); (0.5, "MEDIUM")]%string "HIGH"
                        (value_of u))
  /\ (forall u : scalar,
        Row2.status u
        = spec_classify [(5, "EXCELLENT"); (10, "GOOD"); (20, "ACCEPTABLE")]%string
                        "NEEDS ATTENTION" (value_of u))
  /\ (forall (o : origin) (q : Q),
        (Row1.status (Scalar o (Fin q)) = "LOW"%string <-> q < 0.2)
        /\ (Row1.status (Scalar o (Fin q)) = "MEDIUM"%string
            <-> 0.2 <= q /\ q < 0.5)
        /\ (Row1.status (Scalar o (Fin q)) = "HIGH"%string <-> 0.5 <= q))
  /\ (forall (o : origin) (q : Q),
        (Row2.status (Scalar o (Fin q)) = "EXCELLENT"%string <-> q < 5)
        /\ (Row2.status (Scalar o (Fin q)) = "GOOD"%string
            <-> 5 <= q /\ q < 10)
        /\ (Row2.status (Scalar o (Fin q)) = "ACCEPTABLE"%string
            <-> 10 <= q /\ q < 20)
        /\ (Row2.status (Scalar o (Fin q)) = "NEEDS ATTENTION"%string
            <-> 20 <= q)).
Proof.
  split; [reflexivity|]. split; [reflexivity|].
  split; [intros u; reflexivity|]. split; [intros u; reflexivity|].
  split.
  - intros o q. unfold Row1.status. cbn [value_of].
    destruct (f64_ltb (Fin q) (Fin 0.2)) eqn:H1;
      [apply f64_ltb_fin in H1 | apply f64_ltb_fin_false in H1];
      (destruct (f64_ltb (Fin q) (Fin 0.5)) eqn:H2;
       [apply f64_ltb_fin in H2 | apply f64_ltb_fin_false in H2]);
      repeat split; intros; try discriminate; try reflexivity;
        try lra; try (split; lra).
  - intros o q. unfold Row2.status. cbn [value_of].
    destruct (f64_ltb (Fin q) (Fin 5)) eqn:H1;
      [apply f64_ltb_fin in H1 | apply f64_ltb_fin_false in H1];
      (destruct (f64_ltb (Fin q) (Fin 10)) eqn:H2;
       [apply f64_ltb_fin in H2 | apply f64_ltb_fin_false in H2]);
      (destruct (f64_ltb (Fin q) (Fin 20)) eqn:H3;
       [apply f64_ltb_fin in H3 | apply f64_ltb_fin_false in H3]);
      repeat split; intros; try discriminate; try reflexivity;
        try lra; try (split; lra).
Qed.

(** * The scripts on their own tables *)

(** [R2_Uncertainity10K.py] returns six tables of six rows, one table per
    cell and one row per torque level, and changes none of its inputs. *)
Example all_results_of_the_script :
  exists res st1,
    Row2.all_results Row2.initial_store = (Return res, st1)
    /\ map fst res
       = ["Cell 1"; "Cell 2"; "Cell 3"; "Cell 4"; "Cell 5"; "Cell 6"]%string
    /\ forallb (fun t => Nat.eqb (List.length (snd t)) 6) res = true
    /\ forallb (fun t => forallb spread_ok (snd t)) res = true
    /\ same_inputs Row2.initial_store st1.
Proof.
  do 2 eexists. split; [vm_compute; reflexivity|].
  split; [reflexivity|]. split; [vm_compute; reflexivity|].
  split; [vm_compute; reflexivity|]. split; reflexivity.
Qed.

(** In every cell of both scripts the steepest slope is positive, so it is
    also the steepest slope of the specification. *)
Example steepest_slopes_of_the_tables :
  forallb (fun c =>
             match steepest_slope (snd c), spec_steepest_slope (snd c) with
             | Return a, Return b => Qeq_bool a b && negb (Qle_bool a 0)
             | _, _ => false
             end)
          (Row1.all_cells_equations_literal
           ++ Row2.all_cells_equations_literal)
  = true.
Proof. vm_compute. reflexivity. Qed.

(** * Running the statements of the scripts *)

Lemma runs_ret {A : Type} (st : store) (a : A) : runs st (ret a) (Return a).
Proof. intros st' H. split; [reflexivity | exact H]. Qed.

Lemma runs_lift {A : Type} (st : store) (r : result A) : runs st (lift r) r.
Proof. intros st' H. split; [reflexivity | exact H]. Qed.

Lemma runs_print (st : store) (text : string) (args : list scalar) :
  runs st (print text args) (Return tt).
Proof. intros st' H. split; [reflexivity | exact H]. Qed.

Lemma runs_say (st : store) (text : string) : runs st (say text) (Return tt).
Proof. apply runs_print. Qed.

Lemma runs_read_torque_levels (st : store) :
  runs st read_torque_levels (Return (torque_levels st)).
Proof.
  intros st' H. split; [|exact H]. destruct H as [H1 _].
  cbn. rewrite H1. reflexivity.
Qed.

Lemma runs_read_all_cells_equations (st : store) :
  runs st read_all_cells_equations (Return (all_cells_equations st)).
Proof.
  intros st' H. split; [|exact H]. destruct H as [_ H2].
  cbn. rewrite H2. reflexivity.
Qed.

Lemma runs_bind {A B : Type} (st : store) (c : M A) (k : A -> M B) (a : A)
    (r : result B) :
  runs st c (Return a) -> runs st (k a) r -> runs st (bindM c k) r.
Proof.
  intros Hc Hk st' Hst. destruct (Hc st' Hst) as [Hres Hframe].
  unfold bindM. destruct (c st') as [[a'|e] st1]; cbn in Hres, Hframe;
    [|discriminate Hres].
  injection Hres as ->. exact (Hk st1 Hframe).
Qed.


(** One step of a run: the statement in front is a [print], a read or a
    lifted expression. *)
Ltac run_step :=
  first
    [ eapply runs_bind; [apply runs_say|]
    | eapply runs_bind; [apply runs_print|]
    | eapply runs_bind; [apply runs_read_torque_levels|]
    | eapply runs_bind; [apply runs_read_all_cells_equations|] ].


(** * From runs in one store to results in every store *)

Lemma runs_pair {A : Type} (st st' : store) (c : M A) (r : result A) :
  runs st c r -> same_inputs st st' ->
  exists st2, c st' = (r, st2) /\ same_inputs st st2.
Proof.
  intros Hc Hst. destruct (Hc st' Hst) as [Hres Hframe].
  exists (snd (c st')). split; [|exact Hframe].
  rewrite <- Hres. apply surjective_pairing.
Qed.

Lemma runs_of_run {A : Type} (st : store) (c : M A) (r : result A) :
  (forall st', same_inputs st st' -> exists st1, c st' = (r, st1)) ->
  input_pure c ->
  runs st c r.
Proof.
  intros Hrun Hpure st' Hst. destruct (Hrun st' Hst) as [st1 Heq].
  split; [rewrite Heq; reflexivity|].
  destruct (Hpure st' st' (same_inputs_refl st')) as [_ Hframe].
  apply same_inputs_trans with st'; assumption.
Qed.

Lemma analyze_cell_uncertainty_run (cell_name : string) (d : cell_equations)
    (st : store) :
  runs st (Row2.analyze_cell_uncertainty cell_name d)
       (for_torques d (torque_levels st) []).
Proof.
  unfold Row2.analyze_cell_uncertainty. run_step. run_step. cbv beta.
  apply runs_lift.
Qed.


(** The four statistics at the end of a row of a nonempty cell. *)
Lemma row_stats (d : cell_equations) (torque : Q) (r : row) :
  d <> [] ->
  torque_row d (np torque) = Return r ->
  exists (min_val max_val : scalar) (S : Q),
    np_min (np_array (z_heights torque d)) = Return min_val
    /\ np_max (np_array (z_heights torque d)) = Return max_val
    /\ steepest_slope d = Return S
    /\ r = np torque :: z_heights torque d
           ++ [min_val; max_val; py_sub max_val min_val;
               py_mul (py S) (py_sub max_val min_val)]
    /\ row_from_end r 4 = Return min_val
    /\ row_from_end r 3 = Return max_val
    /\ row_from_end r 2 = Return (py_sub max_val min_val)
    /\ row_from_end r 1 = Return (py_mul (py S) (py_sub max_val min_val)).
Proof.
  intros Hd Hrow.
  destruct (torque_row_nonempty d torque Hd)
    as (mn & mx & S & Hmin & Hmax & HS & Hrow').
  rewrite Hrow' in Hrow. injection Hrow as <-.
  exists mn, mx, S. split; [exact Hmin|]. split; [exact Hmax|].
  split; [exact HS|]. split; [reflexivity|].
  exact (row_from_end_stats (np torque :: z_heights torque d) mn mx
           (py_sub mx mn) (py_mul (py S) (py_sub mx mn))).
Qed.

(** The loop of [Uncertainity.py], as a result in every store. *)
Lemma row1_for_torques_runs (d : cell_equations) (levels : list Q)
    (st : store) :
  d <> [] ->
  exists rows name,
    for_torques d levels [] = Return rows
    /\ steepest_trial d = Return name
    /\ Forall2 (fun t r => torque_row d (np t) = Return r) levels rows
    /\ runs st (Row1.for_torques d levels [] [] None)
            (Return (rows, map (fun t => z_heights t d) levels,
                     match levels with
                     | [] => None
                     | _ :: _ => Some name
                     end)).
Proof.
  intros Hd.
  destruct (row1_for_torques_run d levels Hd) as (name & Hname & Hrun).
  destruct (Hrun [] [] None st) as (rows & st1 & Hloop & Hall & _).
  cbn [app] in Hloop.
  exists rows, name. split; [exact Hloop|]. split; [exact Hname|].
  split; [exact Hall|].
  apply runs_of_run; [|apply input_pure_row1_for_torques].
  intros st' _. destruct (Hrun [] [] None st')
    as (rows' & st1' & Hloop' & _ & Hloop1).
  cbn [app] in Hloop', Hloop1.
  assert (rows' = rows) by congruence. subst rows'.
  exists st1'. exact Hloop1.
Qed.

Lemma Forall2_In_l {A B : Type} (R : A -> B -> Prop) (l : list A)
    (l' : list B) (x : A) :
  Forall2 R l l' -> In x l -> exists y, In y l' /\ R x y.
Proof.
  induction 1 as [|x' y l l' Hxy _ IH]; intros Hin; [contradiction|].
  destruct Hin as [->|Hin].
  - exists y. split; [left; reflexivity | exact Hxy].
  - destruct (IH Hin) as (y' & Hy' & HR). exists y'. split; [right|]; assumption.
Qed.

(** * The per-level lines of the summary *)


Lemma tied_slopes_cell_nonempty : tied_slopes_cell <> [].
Proof. discriminate. Defined.



(** On the first torque level of [Uncertainity.py] the line shows 66.271,
    the largest Z-height, where the range of the level is 0.163. *)
Example z_range_line_of_the_script :
  exists rows matrix trial st1,
    Row1.results_data Row1.initial_store
    = (Return (rows, matrix, trial), st1)
    /\ Row1Summary.level_line rows 0 45
       = Return
           (Print ("  {}%: " ++ plus_minus
                   ++ "{:.3f}% torque (Z-range: {:.3f}mm) - HIGH")
                  [np 45; np 19.103600000; np 66.271])
    /\ (r <- list_index rows 0 ;; row_from_end r 2)%py = Return (np 0.163000).
Proof.
  do 4 eexists. split; [vm_compute; reflexivity|].
  split; reflexivity.
Qed.

(** * Edge cases: no torque level, no trial *)

Lemma analyze_cell_uncertainty_eq (cell_name : string) (d : cell_equations)
    (st : store) :
  Row2.analyze_cell_uncertainty cell_name d st
  = (for_torques d (torque_levels st) [],
     Store (torque_levels st) (all_cells_equations st)
           (stdout st ++ [Print (nl ++ "Analyzing " ++ cell_name ++ "...") []])).
Proof. reflexivity. Qed.

(** X2.  A cell without trials: [analyze_cell_uncertainty] prints its
    "Analyzing" line and then, if there is a torque level, raises
    [ValueError] ([np.min] of an empty array); with no torque level it
    returns an empty table.  The loop of [Uncertainity.py] does the same,
    after printing the line of the first torque level. *)
Theorem analysis_of_a_cell_without_trials
    (cell_name : string) (levels : list Q) (st : store) :
  fst (Row2.analyze_cell_uncertainty cell_name [] st)
  = match torque_levels st with
    | [] => Return []
    | _ :: _ => Raise ValueError
    end
  /\ stdout (snd (Row2.analyze_cell_uncertainty cell_name [] st))
     = stdout st ++ [Print (nl ++ "Analyzing " ++ cell_name ++ "...") []]
  /\ fst (Row1.for_torques [] levels [] [] None st)
     = match levels with
       | [] => Return ([], [], None)
       | _ :: _ => Raise ValueError
       end
  /\ stdout (snd (Row1.for_torques [] levels [] [] None st))
     = stdout st
       ++ match levels with
          | [] => []
          | t :: _ => [Print (nl ++ "Torque = {}%:") [np t]]
          end.
Proof.
  rewrite analyze_cell_uncertainty_eq. cbn [fst snd stdout].
  split; [destruct (torque_levels st); reflexivity|].
  split; [reflexivity|].
  destruct levels as [|t rest]; cbn.
  - rewrite app_nil_r. split; reflexivity.
  - split; reflexivity.
Qed.

(** * The shape of the table *)

Lemma column_names_length (d : cell_equations) :
  List.length (column_names d) = (List.length d + 5)%nat.
Proof.
  unfold column_names, keys. cbn [List.length].
  rewrite length_app, length_map. cbn [List.length]. lia.
Qed.

Lemma column_names_trial (d : cell_equations) (i : nat) (name : string)
    (eq : eq_data) :
  nth_error d i = Some (name, eq) ->
  nth_error (column_names d) (S i) = Some name.
Proof.
  intros Hi. unfold column_names, keys. cbn [nth_error].
  rewrite nth_error_app1.
  - rewrite nth_error_map, Hi. reflexivity.
  - rewrite length_map. apply nth_error_Some. congruence.
Qed.

Lemma z_heights_trial (d : cell_equations) (torque : Q) (i : nat)
    (name : string) (eq : eq_data) :
  nth_error d i = Some (name, eq) ->
  nth_error (z_heights torque d) i = Some (Scalar NumPy (z_value torque eq)).
Proof.
  intros Hi. unfold z_heights, items. rewrite nth_error_map, Hi. reflexivity.
Qed.

(** X1.  For a cell with at least one trial, [analyze_cell_uncertainty]
    returns one row per torque level, in order, and the loop of
    [Uncertainity.py] builds the same rows.  Every row has as many entries
    as [column_names] has names (the number of trials plus 5); its first
    entry is the torque level, and the entry under the name of a trial is
    the Z-height [calculate_z_height] returns for that trial's slope and
    intercept.  Each row of [z_height_matrix] is the run of Z-heights of the
    row of [results_data] at the same place. *)
Theorem rows_line_up_with_column_names
    (cell_name : string) (d : cell_equations) (st : store) :
  d <> [] ->
  exists (rows : list row) (st1 : store) (matrix : list (list scalar))
         (trial : option string) (st2 : store),
    Row2.analyze_cell_uncertainty cell_name d st = (Return rows, st1)
    /\ Row1.for_torques d (torque_levels st) [] [] None st
       = (Return (rows, matrix, trial), st2)
    /\ Forall2
         (fun t r =>
            List.length r = List.length (column_names d)
            /\ nth_error r 0 = Some (np t)
            /\ forall i name eq,
                 nth_error d i = Some (name, eq) ->
                 nth_error (column_names d) (S i) = Some name
                 /\ exists z,
                      calculate_z_height (np t) (py (slope eq))
                                         (py (intercept eq))
                      = Return z
                      /\ nth_error r (S i) = Some z)
         (torque_levels st) rows
    /\ Forall2
         (fun r zs =>
            List.length zs = List.length d
            /\ exists t stats,
                 r = t :: zs ++ stats /\ List.length stats = 4%nat)
         rows matrix.
Proof.
  intros Hd.
  destruct (row1_for_torques_runs d (torque_levels st) st Hd)
    as (rows & name & Hloop & _ & Hall & Hrun).
  destruct (runs_pair st st _ _ Hrun (same_inputs_refl st))
    as (st2 & Hloop1 & _).
  pose proof (analyze_cell_uncertainty_run cell_name d st) as Hrun2.
  rewrite Hloop in Hrun2.
  destruct (runs_pair st st _ _ Hrun2 (same_inputs_refl st))
    as (st1 & Hanalyze & _).
  do 5 eexists. split; [exact Hanalyze|]. split; [exact Hloop1|]. split.
  - eapply Forall2_impl; [|exact Hall]. cbn beta. intros t r Hrow.
    destruct (row_stats d t r Hd Hrow) as (mn & mx & S & _ & _ & _ & -> & _).
    split; [|split].
    + rewrite column_names_length. cbn [List.length].
      rewrite length_app, z_heights_length. cbn [List.length]. lia.
    + reflexivity.
    + intros i nm eq Hi. split; [eapply column_names_trial; exact Hi|].
      exists (Scalar NumPy (z_value t eq)).
      split; [apply calculate_z_height_numpy|].
      cbn [nth_error]. rewrite nth_error_app1.
      * eapply z_heights_trial. exact Hi.
      * rewrite z_heights_length. apply nth_error_Some. congruence.
  - clear Hloop Hloop1 Hanalyze Hrun Hrun2.
    induction Hall as [|t r levels rows Hrow _ IH]; cbn [map].
    + constructor.
    + constructor; [|exact IH].
      destruct (row_stats d t r Hd Hrow) as (mn & mx & S & _ & _ & _ & -> & _).
      split; [apply z_heights_length|]. do 2 eexists.
      split; reflexivity.
Qed.

Lemma rows_line_up_with_column_names_witness :
  exists (rows : list row) (st1 : store) (matrix : list (list scalar))
         (trial : option string) (st2 : store),
    Row2.analyze_cell_uncertainty "Cell 1" tied_slopes_cell sample_store
    = (Return rows, st1)
    /\ Row1.for_torques tied_slopes_cell (torque_levels sample_store) [] []
         None sample_store
       = (Return (rows, matrix, trial), st2)
    /\ Forall2
         (fun t r =>
            List.length r = List.length (column_names tied_slopes_cell)
            /\ nth_error r 0 = Some (np t)
            /\ forall i name eq,
                 nth_error tied_slopes_cell i = Some (name, eq) ->
                 nth_error (column_names tied_slopes_cell) (S i) = Some name
                 /\ exists z,
                      calculate_z_height (np t) (py (slope eq))
                                         (py (intercept eq))
                      = Return z
                      /\ nth_error r (S i) = Some z)
         (torque_levels sample_store) rows
    /\ Forall2
         (fun r zs =>
            List.length zs = List.length tied_slopes_cell
            /\ exists t stats,
                 r = t :: zs ++ stats /\ List.length stats = 4%nat)
         rows matrix.
Proof.
  exact (rows_line_up_with_column_names "Cell 1" tied_slopes_cell sample_store
           tied_slopes_cell_nonempty).
Defined.

(** * The table of every cell *)

Lemma dict_set_fresh {A : Type} (acc : list (string * A)) (k : string)
    (v : A) :
  ~ In k (map fst acc) -> Row2.dict_set acc k v = acc ++ [(k, v)].
Proof.
  induction acc as [|[k' v'] acc IH]; intros Hfresh; [reflexivity|].
  cbn [Row2.dict_set]. destruct (String.eqb k' k) eqn:Hk.
  - apply String.eqb_eq in Hk. exfalso. apply Hfresh. left. exact Hk.
  - cbn [app]. f_equal. apply IH. intros Hin. apply Hfresh. right. exact Hin.
Qed.

Lemma dict_get_In {A : Type} (l : list (string * A)) (k : string) (v : A) :
  NoDup (map fst l) -> In (k, v) l -> Row1.dict_get l k = Return v.
Proof.
  induction l as [|[k' v'] l IH]; intros Hnd Hin; [contradiction|].
  cbn [map fst] in Hnd. inversion Hnd as [|? ? Hfresh Hnd']; subst.
  cbn [Row1.dict_get]. destruct Hin as [Heq|Hin].
  - injection Heq as -> ->. rewrite String.eqb_refl. reflexivity.
  - destruct (String.eqb k' k) eqn:Hk; [|apply IH; assumption].
    apply String.eqb_eq in Hk. subst k'. exfalso. apply Hfresh.
    apply in_map_iff. exists (k, v). split; [reflexivity | exact Hin].
Qed.

Lemma for_cells_runs (st : store) (cells : list (string * cell_equations)) :
  Forall (fun c => snd c <> []) cells ->
  forall acc,
    NoDup (map fst acc ++ map fst cells) ->
    exists res,
      runs st (Row2.for_cells cells acc) (Return (acc ++ res))
      /\ Forall2
           (fun c x =>
              fst x = fst c
              /\ for_torques (snd c) (torque_levels st) [] = Return (snd x))
           cells res.
Proof.
  induction 1 as [|[name d] rest Hd _ IH]; intros acc Hnd.
  - exists []. rewrite app_nil_r. split; [apply runs_ret | constructor].
  - cbn [snd] in Hd. cbn [map fst] in Hnd.
    destruct (for_torques_nonempty d (torque_levels st) Hd [])
      as (rows & Hloop & _). cbn [app] in Hloop.
    assert (Hfresh : ~ In name (map fst acc)).
    { apply NoDup_remove_2 in Hnd. intros Hin. apply Hnd.
      apply in_or_app. left. exact Hin. }
    destruct (IH (acc ++ [(name, rows)])) as (res & Hrun & Hall).
    { rewrite map_app, <- app_assoc. exact Hnd. }
    exists ((name, rows) :: res). split.
    + cbn [Row2.for_cells]. eapply runs_bind.
      * pose proof (analyze_cell_uncertainty_run name d st) as Hrun1.
        rewrite Hloop in Hrun1. exact Hrun1.
      * rewrite dict_set_fresh by exact Hfresh.
        rewrite <- app_assoc in Hrun. exact Hrun.
    + constructor; [|exact Hall]. split; [reflexivity | exact Hloop].
Qed.

Lemma Forall2_same_keys {A B : Type} (P : string * A -> string * B -> Prop)
    (cells : list (string * A)) (res : list (string * B)) :
  Forall2 (fun c x => fst x = fst c /\ P c x) cells res ->
  map fst res = map fst cells.
Proof.
  induction 1 as [|c x cells res [Hfst _] _ IH]; [reflexivity|].
  cbn [map]. rewrite Hfst. f_equal. exact IH.
Qed.

(** X8.  When every cell of [all_cells_equations] has at least one trial,
    the loop that fills [all_results] raises nothing and leaves the inputs
    unchanged; [all_results] has the names of the cells, in the same order,
    and under each name the table that [analyze_cell_uncertainty] returns
    for that cell.  (The names are the keys of a dict, so they are
    distinct.) *)
Theorem all_results_holds_the_table_of_every_cell (st : store) :
  NoDup (map fst (all_cells_equations st)) ->
  Forall (fun c => snd c <> []) (all_cells_equations st) ->
  exists (res : list (string * list row)) (st1 : store),
    Row2.all_results st = (Return res, st1)
    /\ same_inputs st st1
    /\ map fst res = map fst (all_cells_equations st)
    /\ forall name d,
         In (name, d) (all_cells_equations st) ->
         exists rows,
           Row1.dict_get res name = Return rows
           /\ fst (Row2.analyze_cell_uncertainty name d st) = Return rows.
Proof.
  intros Hnd Hcells.
  destruct (for_cells_runs st (all_cells_equations st) Hcells [] Hnd)
    as (res & Hrun & Hall). cbn [app] in Hrun.
  assert (Hall_results : runs st Row2.all_results (Return res)).
  { unfold Row2.all_results. run_step. exact Hrun. }
  destruct (runs_pair st st _ _ Hall_results (same_inputs_refl st))
    as (st1 & Heq & Hframe).
  pose proof (Forall2_same_keys _ _ _ Hall) as Hkeys.
  exists res, st1. split; [exact Heq|]. split; [exact Hframe|].
  split; [exact Hkeys|]. intros name d Hin.
  destruct (Forall2_In_l _ _ _ _ Hall Hin) as ([name' rows] & Hx & Hfst & Hloop).
  cbn [fst snd] in Hfst, Hloop. subst name'.
  exists rows. split.
  - apply dict_get_In; [rewrite Hkeys; exact Hnd | exact Hx].
  - rewrite analyze_cell_uncertainty_eq. exact Hloop.
Qed.

Lemma all_results_holds_the_table_of_every_cell_witness :
  exists (res : list (string * list row)) (st1 : store),
    Row2.all_results Row2.initial_store = (Return res, st1)
    /\ same_inputs Row2.initial_store st1
    /\ map fst res = map fst (all_cells_equations Row2.initial_store)
    /\ forall name d,
         In (name, d) (all_cells_equations Row2.initial_store) ->
         exists rows,
           Row1.dict_get res name = Return rows
           /\ fst (Row2.analyze_cell_uncertainty name d Row2.initial_store)
              = Return rows.
Proof.
  apply (all_results_holds_the_table_of_every_cell Row2.initial_store).
  - cbn. repeat constructor; cbn; intuition discriminate.
  - repeat constructor; discriminate.
Defined.

Lemma for_cells_stops (st : store) (name : string)
    (after : list (string * cell_equations)) :
  torque_levels st <> [] ->
  forall before,
    Forall (fun c => snd c <> []) before ->
    forall acc out,
      Row2.for_cells (before ++ (name, []) :: after) acc
        (Store (torque_levels st) (all_cells_equations st) out)
      = (Raise ValueError,
         Store (torque_levels st) (all_cells_equations st)
               (out ++ map (fun c => Print (nl ++ "Analyzing " ++ fst c
                                            ++ "...") [])
                           (before ++ [(name, [])]))).
Proof.
  intros Hlevels. induction 1 as [|[nm d] before Hd _ IH]; intros acc out.
  - cbn [app Row2.for_cells]. unfold bindM.
    rewrite analyze_cell_uncertainty_eq. cbn [torque_levels].
    destruct (torque_levels st) as [|t rest]; [congruence|]. reflexivity.
  - cbn [app Row2.for_cells]. unfold bindM.
    rewrite analyze_cell_uncertainty_eq. cbn [torque_levels snd] in *.
    destruct (for_torques_nonempty d (torque_levels st) Hd [])
      as (rows & Hloop & _). cbn [app] in Hloop. rewrite Hloop.
    cbn [all_cells_equations stdout]. rewrite IH. cbn [map fst].
    rewrite <- app_assoc. reflexivity.
Qed.

(** X11.  When a cell of [all_cells_equations] has no trial and there is a
    torque level, the loop that fills [all_results] raises [ValueError] at
    that cell: the cells before it have been analysed, the cells after it
    are never reached (nothing is printed for them). *)
Theorem all_results_stops_at_a_cell_without_trials
    (st : store) (before after : list (string * cell_equations))
    (name : string) :
  all_cells_equations st = before ++ (name, []) :: after ->
  Forall (fun c => snd c <> []) before ->
  torque_levels st <> [] ->
  exists st1,
    Row2.all_results st = (Raise ValueError, st1)
    /\ same_inputs st st1
    /\ stdout st1
       = stdout st
         ++ map (fun c => Print (nl ++ "Analyzing " ++ fst c ++ "...") [])
                (before ++ [(name, [])]).
Proof.
  intros Hcells Hbefore Hlevels. destruct st as [levels cells out].
  cbn [torque_levels all_cells_equations stdout] in *. subst cells.
  pose proof (for_cells_stops
                (Store levels (before ++ (name, []) :: after) out)
                name after Hlevels before Hbefore [] out) as Hstop.
  cbn [torque_levels all_cells_equations] in Hstop.
  eexists. split; [exact Hstop|].
  split; [split; reflexivity | reflexivity].
Qed.

Lemma all_results_stops_at_a_cell_without_trials_witness :
  exists st1,
    Row2.all_results
      (Store [45] [("Cell 1"%string, tied_slopes_cell);
                   ("Cell 2"%string, []);
                   ("Cell 3"%string, tied_slopes_cell)] [])
    = (Raise ValueError, st1)
    /\ same_inputs
         (Store [45] [("Cell 1"%string, tied_slopes_cell);
                      ("Cell 2"%string, []);
                      ("Cell 3"%string, tied_slopes_cell)] [])
         st1
    /\ stdout st1
       = [] ++ map (fun c => Print (nl ++ "Analyzing " ++ fst c ++ "...") [])
                   ([("Cell 1"%string, tied_slopes_cell)]
                    ++ [("Cell 2"%string, [])]).
Proof.
  apply (all_results_stops_at_a_cell_without_trials
           (Store [45] [("Cell 1"%string, tied_slopes_cell);
                        ("Cell 2"%string, []);
                        ("Cell 3"%string, tied_slopes_cell)] [])
           [("Cell 1"%string, tied_slopes_cell)]
           [("Cell 3"%string, tied_slopes_cell)] "Cell 2").
  - reflexivity.
  - repeat constructor; discriminate.
  - discriminate.
Defined.

(** * The formats of the display table *)

Lemma formats_by_index (uf : cell_format) (r : row) :
  forall k,
    map fst (map (fun iv => format_cell uf (fst iv) (snd iv))
                 (enumerate_from k r))
    = map (fun i => fst (format_cell uf i (np 0))) (seq k (List.length r)).
Proof.
  induction r as [|v r IH]; intros k; [reflexivity|].
  cbn [enumerate_from map List.length seq fst snd]. f_equal.
  - unfold format_cell. destruct (Nat.eqb k 0); [reflexivity|].
    destruct (Nat.leb k 4); [reflexivity|].
    destruct (existsb (Nat.eqb k) [5; 6; 7]%nat); reflexivity.
  - apply IH.
Qed.

Lemma formatted_values (uf : cell_format) (r : row) :
  forall k,
    map snd (map (fun iv => format_cell uf (fst iv) (snd iv))
                 (enumerate_from k r))
    = r.
Proof.
  induction r as [|v r IH]; intros k; [reflexivity|].
  cbn [enumerate_from map fst snd]. f_equal.
  - unfold format_cell. destruct (Nat.eqb k 0); [reflexivity|].
    destruct (Nat.leb k 4); [reflexivity|].
    destruct (existsb (Nat.eqb k) [5; 6; 7]%nat); reflexivity.
  - apply IH.
Qed.

(** X9.  The display loops choose the format of an entry by its position
    alone (0: no decimals; 1 to 7: three decimals; from 8 on: the
    plus-minus format of the uncertainty) and keep the values in order.  So
    a row of a cell with [n] trials, which has [n + 5] entries, is shown
    with the torque without decimals, the uncertainty in the plus-minus
    format and everything between with three decimals exactly when
    [n = 4]. *)
Theorem display_formats_need_four_trials
    (uf : cell_format) (r : row) (n : nat) :
  List.length r = (n + 5)%nat ->
  uf = PlusMinus1 \/ uf = PlusMinus1Percent ->
  (map fst (formatted_row uf r) = Fixed0 :: repeat Fixed3 (n + 3) ++ [uf]
   <-> n = 4%nat)
  /\ map snd (formatted_row uf r) = r.
Proof.
  intros Hlen Huf. split; [|apply formatted_values].
  unfold formatted_row. rewrite formats_by_index, Hlen.
  rewrite (Nat.add_comm n 5), (Nat.add_comm n 3). split.
  - intros Heq.
    destruct n as [|[|[|[|[|m]]]]]; try reflexivity; exfalso.
    + destruct Huf as [-> | ->]; cbn in Heq; discriminate Heq.
    + destruct Huf as [-> | ->]; cbn in Heq; discriminate Heq.
    + destruct Huf as [-> | ->]; cbn in Heq; discriminate Heq.
    + destruct Huf as [-> | ->]; cbn in Heq; discriminate Heq.
    + apply (f_equal (fun l => nth_error l 8)) in Heq.
      destruct Huf as [-> | ->]; cbn in Heq; discriminate Heq.
  - intros ->. reflexivity.
Qed.

Lemma display_formats_need_four_trials_witness :
  (map fst (formatted_row PlusMinus1
              [np 45; np 1; np 2; np 3; np 4; np 1; np 4; np 3; np 270])
   = Fixed0 :: repeat Fixed3 (4 + 3) ++ [PlusMinus1]
   <-> 4%nat = 4%nat)
  /\ map snd (formatted_row PlusMinus1
                [np 45; np 1; np 2; np 3; np 4; np 1; np 4; np 3; np 270])
     = [np 45; np 1; np 2; np 3; np 4; np 1; np 4; np 3; np 270].
Proof.
  apply (display_formats_need_four_trials PlusMinus1
           [np 45; np 1; np 2; np 3; np 4; np 1; np 4; np 3; np 270] 4).
  - reflexivity.
  - left. reflexivity.
Defined.

(** * The rows the fit keeps *)

Lemma bindM_returns {A B : Type} (c : M A) (k : A -> M B) (st : store)
    (b : B) :
  fst (bindM c k st) = Return b ->
  exists a st', c st = (Return a, st') /\ fst (k a st') = Return b.
Proof.
  unfold bindM. destruct (c st) as [[a|e] st']; cbn.
  - intros H. exists a, st'. split; [reflexivity | exact H].
  - discriminate.
Qed.

Lemma in_range_iff (v : f64) :
  in_range v = true <-> exists q, v = Fin q /\ 42 <= q /\ q <= 57.
Proof.
  unfold in_range. destruct v as [q| | |]; cbn.
  - rewrite andb_true_iff, !Qle_bool_iff. split.
    + intros [H1 H2]. exists q. auto.
    + intros [q' [Heq [H1 H2]]]. injection Heq as <-. auto.
  - split; [discriminate | intros [q [H _]]; discriminate].
  - split; [discriminate | intros [q [H _]]; discriminate].
  - split; [discriminate | intros [q [H _]]; discriminate].
Qed.

Lemma mask_values (s : Fit.series) :
  Fit.and_ (Fit.and_ (Fit.notna s) (Fit.ge s 42)) (Fit.le s 57)
  = map in_range s.
Proof.
  induction s as [|v s IH]; [reflexivity|].
  cbn. f_equal. exact IH.
Qed.

Lemma mask_of_column (df : Fit.dataframe) (column : string) :
  Fit.mask df column
  = match Fit.column_of df column with
    | Return s => Return (map in_range s)
    | Raise e => Raise e
    end.
Proof.
  unfold Fit.mask. destruct (Fit.column_of df column) as [s|e]; cbn.
  - rewrite mask_values. reflexivity.
  - reflexivity.
Qed.

Lemma any_mask (s : Fit.series) :
  Fit.any (map in_range s) = existsb in_range s.
Proof.
  unfold Fit.any. induction s as [|v s IH]; [reflexivity|].
  cbn. rewrite IH. reflexivity.
Qed.

Lemma select_same (s : Fit.series) :
  Fit.select (map in_range s) s = filter in_range s.
Proof.
  induction s as [|v s IH]; [reflexivity|].
  cbn. destruct (in_range v); rewrite IH; reflexivity.
Qed.

Lemma select_rows (s z : Fit.series) :
  combine (Fit.mul (Fit.select (map in_range s) z) (-1))
          (Fit.select (map in_range s) s)
  = map (fun p => (f64_mul (fst p) (Fin (-1)), snd p))
        (filter (fun p => in_range (snd p)) (combine z s)).
Proof.
  unfold Fit.mul. revert z. induction s as [|v s IH]; intros z.
  - destruct z; reflexivity.
  - destruct z as [|w z]; [reflexivity|].
    cbn. destruct (in_range v); cbn; rewrite IH; reflexivity.
Qed.

Lemma select_length (s z : Fit.series) :
  List.length z = List.length s ->
  List.length (Fit.mul (Fit.select (map in_range s) z) (-1))
  = List.length (Fit.select (map in_range s) s).
Proof.
  unfold Fit.mul. revert z. induction s as [|v s IH]; intros z Hlen.
  - destruct z; reflexivity.
  - destruct z as [|w z]; [discriminate|].
    cbn in Hlen. injection Hlen as Hlen.
    cbn. destruct (in_range v); cbn; rewrite (IH z Hlen); reflexivity.
Qed.

Lemma column_of_raises (df : Fit.dataframe) (column : string) (e : exn) :
  Fit.column_of df column = Raise e -> e = KeyError.
Proof.
  unfold Fit.column_of. induction df as [|[k v] df IH]; cbn.
  - intros H. injection H as <-. reflexivity.
  - destruct (String.eqb k column); [discriminate | exact IH].
Qed.

Lemma set_item_fresh {A : Type} (d : list (nat * A)) (k : nat) (v : A) :
  Forall (fun kv => (fst kv < k)%nat) d ->
  Fit.set_item d k v = d ++ [(k, v)].
Proof.
  induction 1 as [|[k' v'] d Hlt _ IH]; [reflexivity|].
  cbn in *. destruct (Nat.eqb_spec k' k) as [->|_]; [lia|].
  rewrite IH. reflexivity.
Qed.

Lemma for_columns_invariant (indent : string) (df : Fit.dataframe)
    (columns : list string) :
  forall (i : nat) (has_data : bool) (cell_data : list (nat * Fit.points))
         (st : store) (has_data' : bool)
         (cell_data' : list (nat * Fit.points)),
    (forall j c, nth_error columns j = Some c ->
                 nth_error Fit.torque_columns (i + j) = Some c) ->
    Forall (fun kv => (fst kv < i)%nat) cell_data ->
    (has_data = true <-> cell_data <> []) ->
    fst (Fit.for_columns indent df columns i has_data cell_data st)
    = Return (has_data', cell_data') ->
    (has_data' = true <-> cell_data' <> [])
    /\ (exists added,
          cell_data' = cell_data ++ added
          /\ Forall (fun kv => (i <= fst kv)%nat /\ kept df (fst kv) (snd kv))
                    added
          /\ forall j c, nth_error columns j = Some c ->
               (has_points df c = true
                <-> exists data, In ((i + j)%nat, data) added)).
Proof.
  induction columns as [|column rest IH];
    intros i has_data cell_data st has_data' cell_data' Hcols Hkeys Hhas Hrun.
  - cbn in Hrun. injection Hrun as <- <-. split; [exact Hhas|].
    exists []. rewrite app_nil_r. split; [reflexivity|]. split; [constructor|].
    intros j c Hj. destruct j; discriminate.
  - cbn [Fit.for_columns] in Hrun.
    apply bindM_returns in Hrun. destruct Hrun as [m [st1 [Hm Hrun]]].
    unfold lift in Hm. injection Hm as Hm <-.
    rewrite mask_of_column in Hm.
    destruct (Fit.column_of df column) as [s|e] eqn:Hs; [|discriminate].
    injection Hm as <-.
    assert (Hcol : nth_error Fit.torque_columns i = Some column).
    { rewrite <- (Nat.add_0_r i). apply Hcols. reflexivity. }
    assert (Hrest : forall j c, nth_error rest j = Some c ->
                nth_error Fit.torque_columns (S i + j) = Some c).
    { intros j c Hj. replace (S i + j)%nat with (i + S j)%nat by lia.
      apply Hcols. exact Hj. }
    rewrite any_mask in Hrun.
    destruct (existsb in_range s) eqn:Hany.
    + apply bindM_returns in Hrun. destruct Hrun as [z [st2 [Hz Hrun]]].
      unfold lift in Hz. injection Hz as Hz <-.
      unfold Fit.loc in Hz.
      destruct (Fit.column_of df "Z-Height") as [zs|e] eqn:Hzs;
        [|discriminate].
      cbn in Hz. injection Hz as <-.
      apply bindM_returns in Hrun. destruct Hrun as [t [st3 [Ht Hrun]]].
      unfold lift in Ht. injection Ht as Ht <-.
      unfold Fit.loc in Ht. rewrite Hs in Ht. cbn in Ht. injection Ht as <-.
      apply bindM_returns in Hrun. destruct Hrun as [c0 [st4 [Hc Hrun]]].
      unfold lift in Hc. injection Hc as _ <-.
      apply bindM_returns in Hrun. destruct Hrun as [u [st5 [_ Hrun]]].
      rewrite (set_item_fresh _ _ _ Hkeys) in Hrun.
      apply IH in Hrun; [| exact Hrest | |].
      * destruct Hrun as [Hhas' [added [Heq [Hadded Hiff]]]].
        split; [exact Hhas'|].
        eexists. split; [rewrite Heq, <- app_assoc; reflexivity|].
        split.
        -- constructor.
           ++ cbn. split; [lia|]. split; [exact Hcol|].
              exists s, zs. cbn. rewrite select_same. auto.
           ++ eapply Forall_impl; [|exact Hadded].
              intros kv [Hle Hk]. split; [lia | exact Hk].
        -- intros j c Hj. destruct j as [|j].
           ++ cbn in Hj. injection Hj as <-.
              unfold has_points. rewrite Hs, Hany. split; [|reflexivity].
              intros _. eexists. left. rewrite Nat.add_0_r. reflexivity.
           ++ cbn in Hj. rewrite (Hiff j c Hj).
              replace (i + S j)%nat with (S i + j)%nat by lia.
              split.
              ** intros [data Hin]. exists data. right. exact Hin.
              ** intros [data [Heq'|Hin]]; [|exists data; exact Hin].
                 injection Heq' as Heq' _. lia.
      * apply Forall_app. split.
        -- eapply Forall_impl; [|exact Hkeys]. cbn. intros kv Hlt. lia.
        -- constructor; [cbn; lia | constructor].
      * split; [|reflexivity]. intros _. destruct cell_data; discriminate.
    + apply bindM_returns in Hrun. destruct Hrun as [u [st2 [_ Hrun]]].
      apply IH in Hrun; [| exact Hrest | | exact Hhas].
      * destruct Hrun as [Hhas' [added [Heq [Hadded Hiff]]]].
        split; [exact Hhas'|].
        exists added. split; [exact Heq|]. split.
        -- eapply Forall_impl; [|exact Hadded].
           intros kv [Hle Hk]. split; [lia | exact Hk].
        -- intros j c Hj. destruct j as [|j].
           ++ cbn in Hj. injection Hj as <-.
              unfold has_points. rewrite Hs, Hany. split; [discriminate|].
              intros [data Hin]. rewrite Forall_forall in Hadded.
              apply Hadded in Hin. cbn in Hin. lia.
           ++ cbn in Hj. rewrite (Hiff j c Hj).
              replace (i + S j)%nat with (S i + j)%nat by lia. reflexivity.
      * eapply Forall_impl; [|exact Hkeys]. cbn. intros kv Hlt. lia.
Qed.

Lemma for_columns_keys (indent : string) (df : Fit.dataframe) (st : store)
    (has_data : bool) (cell_data : list (nat * Fit.points)) :
  fst (Fit.for_columns indent df Fit.torque_columns 0 false [] st)
  = Return (has_data, cell_data) ->
  (has_data = true <-> cell_data <> [])
  /\ (forall i c,
        nth_error Fit.torque_columns i = Some c ->
        (has_points df c = true <-> exists data, In (i, data) cell_data))
  /\ Forall (fun kv => kept df (fst kv) (snd kv)) cell_data.
Proof.
  intros Hrun.
  apply for_columns_invariant in Hrun.
  - destruct Hrun as [Hhas [added [Heq [Hadded Hiff]]]].
    cbn [app] in Heq. subst added.
    split; [exact Hhas|]. split.
    + intros i c Hi. exact (Hiff i c Hi).
    + eapply Forall_impl; [|exact Hadded]. intros kv [_ Hk]. exact Hk.
  - intros j c Hj. exact Hj.
  - constructor.
  - split; [discriminate | intros H; contradiction H; reflexivity].
Qed.

(** X12.  When the loop over the torque columns of [fit_all.py] and
    [curvefit.py] ends, [has_data] is set exactly when something was stored;
    a column has an entry in [cell_data] exactly when one of its values is
    in the range; and an entry holds the rows of the sheet whose torque is a
    number from 42 to 57 (no missing value, no infinity), in the order of
    the sheet, with the Z-height negated: at least one row, and as many
    Z-heights as torques. *)
Theorem fitted_points_lie_in_the_torque_range (indent : string)
    (df : Fit.dataframe) (st : store) (has_data : bool)
    (cell_data : list (nat * Fit.points)) :
  fst (Fit.for_columns indent df Fit.torque_columns 0 false [] st)
  = Return (has_data, cell_data) ->
  (has_data = true <-> cell_data <> [])
  /\ (forall i c,
        nth_error Fit.torque_columns i = Some c ->
        (has_points df c = true <-> exists data, In (i, data) cell_data))
  /\ forall i data,
       In (i, data) cell_data ->
       nth_error Fit.torque_columns i = Some (Fit.column data)
       /\ Fit.torque data <> []
       /\ Forall (fun v => exists q, v = Fin q /\ 42 <= q /\ q <= 57)
                 (Fit.torque data)
       /\ exists s z,
            Fit.column_of df (Fit.column data) = Return s
            /\ Fit.column_of df "Z-Height" = Return z
            /\ Fit.torque data = filter in_range s
            /\ combine (Fit.z_height data) (Fit.torque data)
               = map (fun p => (f64_mul (fst p) (Fin (-1)), snd p))
                     (filter (fun p => in_range (snd p)) (combine z s))
            /\ (List.length z = List.length s ->
                List.length (Fit.z_height data)
                = List.length (Fit.torque data)).
Proof.
  intros Hrun.
  apply for_columns_keys in Hrun. destruct Hrun as [Hhas [Hiff Hkept]].
  split; [exact Hhas|]. split; [exact Hiff|].
  intros i data Hin. rewrite Forall_forall in Hkept.
  destruct (Hkept _ Hin) as [Hcol [s [z [Hs [Hz [Ht [Hzh Hany]]]]]]].
  cbn [fst snd] in *.
  split; [exact Hcol|]. split.
  - rewrite Ht. intros Hnil.
    apply existsb_exists in Hany. destruct Hany as [v [Hv Hr]].
    assert (Hf : In v (filter in_range s))
      by (apply filter_In; split; assumption).
    rewrite Hnil in Hf. exact Hf.
  - split.
    + rewrite Ht. apply Forall_forall. intros v Hv.
      apply filter_In in Hv. apply in_range_iff. apply Hv.
    + exists s, z. split; [exact Hs|]. split; [exact Hz|].
      split; [exact Ht|]. split.
      * rewrite Hzh, Ht, <- select_same. apply select_rows.
      * intros Hlen. rewrite Hzh, Ht, <- select_same.
        apply select_length. exact Hlen.
Qed.

Lemma fitted_points_lie_in_the_torque_range_witness :
  exists has_data cell_data,
    fst (Fit.for_columns "  " sample_frame Fit.torque_columns 0 false []
                         sample_store)
    = Return (has_data, cell_data)
    /\ List.length cell_data = 3%nat
    /\ (has_data = true <-> cell_data <> [])
    /\ (forall i c,
          nth_error Fit.torque_columns i = Some c ->
          (has_points sample_frame c = true
           <-> exists data, In (i, data) cell_data))
    /\ forall i data,
         In (i, data) cell_data ->
         nth_error Fit.torque_columns i = Some (Fit.column data)
         /\ Fit.torque data <> []
         /\ Forall (fun v => exists q, v = Fin q /\ 42 <= q /\ q <= 57)
                   (Fit.torque data)
         /\ exists s z,
              Fit.column_of sample_frame (Fit.column data) = Return s
              /\ Fit.column_of sample_frame "Z-Height" = Return z
              /\ Fit.torque data = filter in_range s
              /\ combine (Fit.z_height data) (Fit.torque data)
                 = map (fun p => (f64_mul (fst p) (Fin (-1)), snd p))
                       (filter (fun p => in_range (snd p)) (combine z s))
              /\ (List.length z = List.length s ->
                  List.length (Fit.z_height data)
                  = List.length (Fit.torque data)).
Proof.
  eexists. eexists. split; [vm_compute; reflexivity|].
  split; [reflexivity|].
  apply (fitted_points_lie_in_the_torque_range "  " sample_frame sample_store).
  vm_compute. reflexivity.
Defined.

(** * Where the filter fails *)

Lemma bindM_lift_return {A B : Type} (a : A) (k : A -> M B) (st : store) :
  bindM (lift (Return a)) k st = k a st.
Proof. reflexivity. Qed.

Lemma bindM_lift_raise {A B : Type} (e : exn) (k : A -> M B) (st : store) :
  bindM (lift (Raise e)) k st = (Raise e, st).
Proof. reflexivity. Qed.

Lemma bindM_print {B : Type} (text : string) (args : list scalar)
    (k : unit -> M B) (st : store) :
  bindM (print text args) k st
  = k tt (Store (torque_levels st) (all_cells_equations st)
                (stdout st ++ [Print text args])).
Proof. reflexivity. Qed.

Lemma color_of_column (i : nat) :
  (i < 6)%nat -> exists c, list_index Fit.colors i = Return c.
Proof.
  intros Hi.
  do 6 (destruct i as [|i]; [eexists; reflexivity|]). lia.
Qed.

Lemma for_columns_result (indent : string) (df : Fit.dataframe)
    (columns : list string) :
  forall (i : nat) (has_data : bool) (cell_data : list (nat * Fit.points))
         (st : store) (r : result (bool * list (nat * Fit.points))),
    (i + List.length columns <= 6)%nat ->
    fst (Fit.for_columns indent df columns i has_data cell_data st) = r ->
    (r = Raise KeyError \/ exists v, r = Return v)
    /\ ((exists v, r = Return v)
        <-> (Forall (fun c => exists s, Fit.column_of df c = Return s) columns
             /\ ((exists z, Fit.column_of df "Z-Height" = Return z)
                 \/ Forall (fun c => has_points df c = false) columns))).
Proof.
  induction columns as [|column rest IH];
    intros i has_data cell_data st r Hlen Hr.
  - cbn in Hr. subst r. split; [right; eexists; reflexivity|].
    split; [|intros _; eexists; reflexivity].
    intros _. split; [constructor | right; constructor].
  - cbn [Fit.for_columns] in Hr. cbn [List.length] in Hlen.
    rewrite mask_of_column in Hr.
    destruct (Fit.column_of df column) as [s|e] eqn:Hs.
    + rewrite bindM_lift_return, any_mask in Hr.
      destruct (existsb in_range s) eqn:Hany.
      * unfold Fit.loc at 1 in Hr.
        destruct (Fit.column_of df "Z-Height") as [zs|e] eqn:Hz.
        -- cbn [bind] in Hr. rewrite bindM_lift_return in Hr.
           unfold Fit.loc at 1 in Hr. rewrite Hs in Hr. cbn [bind] in Hr.
           rewrite bindM_lift_return in Hr.
           destruct (color_of_column i) as [c0 Hc0]; [lia|].
           rewrite Hc0, bindM_lift_return, bindM_print in Hr.
           apply IH in Hr; [|lia]. destruct Hr as [IH1 IH2].
           split; [exact IH1|]. rewrite IH2. split.
           ++ intros [Hall _]. split.
              ** constructor; [exists s; exact Hs | exact Hall].
              ** left. exists zs. reflexivity.
           ++ intros [Hall _]. inversion Hall; subst. split; [assumption|].
              left. exists zs. reflexivity.
        -- cbn [bind] in Hr. rewrite bindM_lift_raise in Hr. cbn [fst] in Hr.
           apply column_of_raises in Hz as He. subst e r.
           split; [left; reflexivity|]. split.
           ++ intros [v Hv]. discriminate.
           ++ intros [_ [[z Hz']|Hnone]]; [discriminate|].
              inversion Hnone as [|? ? Hp _]; subst.
              unfold has_points in Hp. rewrite Hs, Hany in Hp. discriminate.
      * unfold say in Hr. rewrite bindM_print in Hr.
        apply IH in Hr; [|lia]. destruct Hr as [IH1 IH2].
        split; [exact IH1|]. rewrite IH2. split.
        -- intros [Hall Hz]. split.
           ++ constructor; [exists s; exact Hs | exact Hall].
           ++ destruct Hz as [Hz|Hnone]; [left; exact Hz|].
              right. constructor; [|exact Hnone].
              unfold has_points. rewrite Hs. exact Hany.
        -- intros [Hall Hz]. inversion Hall; subst. split; [assumption|].
           destruct Hz as [Hz|Hnone]; [left; exact Hz|].
           right. inversion Hnone; subst. assumption.
    + rewrite bindM_lift_raise in Hr. cbn [fst] in Hr.
      apply column_of_raises in Hs as He. subst e r.
      split; [left; reflexivity|]. split.
      * intros [v Hv]. discriminate.
      * intros [Hall _]. inversion Hall as [|? ? [s' Hs'] _]; subst.
        rewrite Hs in Hs'. discriminate.
Qed.

(** X13.  On a sheet whose columns hold numbers, the loop over the torque
    columns either ends or raises [KeyError]; the subscript [colors[i]]
    never fails.  It ends exactly when
    the sheet has the six torque columns and, unless no torque at all is in
    the range, the column [Z-Height]: a sheet without Z-heights passes when
    it has nothing to fit. *)
Theorem filter_fails_only_on_a_missing_column (indent : string)
    (df : Fit.dataframe) (st : store) :
  (fst (Fit.for_columns indent df Fit.torque_columns 0 false [] st)
   = Raise KeyError
   \/ exists v,
        fst (Fit.for_columns indent df Fit.torque_columns 0 false [] st)
        = Return v)
  /\ ((exists v,
         fst (Fit.for_columns indent df Fit.torque_columns 0 false [] st)
         = Return v)
      <-> (Forall (fun c => exists s, Fit.column_of df c = Return s)
                  Fit.torque_columns
           /\ ((exists z, Fit.column_of df "Z-Height" = Return z)
               \/ Forall (fun c => has_points df c = false)
                         Fit.torque_columns))).
Proof.
  apply (for_columns_result indent df Fit.torque_columns 0 false [] st);
    [cbn; lia | reflexivity].
Qed.

(** * Loading the sheets *)

Lemma load_result (read_excel : string -> result Fit.dataframe)
    (trial_data : list (nat * Fit.dataframe)) (trial_num : nat)
    (filename path : string) (st : store) :
  Forall (fun kv => (fst kv < trial_num)%nat) trial_data ->
  exists this st1,
    Fit.load read_excel trial_data trial_num filename path st
    = (Return (trial_data ++ this), st1)
    /\ List.length (stdout st1) = S (List.length (stdout st))
    /\ match read_excel path with
       | Return df => this = [(trial_num, df)]
       | Raise _ => this = []
       end.
Proof.
  intros Hkeys. unfold Fit.load.
  destruct (read_excel path) as [df|e].
  - rewrite (set_item_fresh _ _ _ Hkeys).
    eexists. eexists. split; [reflexivity|]. split; [|reflexivity].
    cbn. rewrite length_app. cbn. lia.
  - exists [], (Store (torque_levels st) (all_cells_equations st)
                      (stdout st ++ [Print ("Error loading " ++ filename
                                              ++ ": {}") []])).
    rewrite app_nil_r. split; [reflexivity|]. split; [|reflexivity].
    cbn. rewrite length_app. cbn. lia.
Qed.

Lemma for_files_result (script_dir : string)
    (path_join : string -> string -> string) (path_exists : string -> bool)
    (read_excel : string -> result Fit.dataframe) (files : list string) :
  forall (i : nat) (trial_data : list (nat * Fit.dataframe)) (st : store),
    Forall (fun kv => (fst kv <= i)%nat) trial_data ->
    exists added st',
      Fit.for_files script_dir path_join path_exists read_excel files i
                    trial_data st
      = (Return (trial_data ++ added), st')
      /\ List.length (stdout st')
         = (List.length (stdout st) + List.length files)%nat
      /\ StronglySorted lt (map fst added)
      /\ Forall (fun kv => (i < fst kv)%nat) added
      /\ forall n df,
           In (n, df) added
           <-> exists j filename,
                 n = (i + j + 1)%nat
                 /\ nth_error files j = Some filename
                 /\ loads script_dir path_join path_exists read_excel
                          filename df.
Proof.
  induction files as [|filename rest IH]; intros i trial_data st Hkeys.
  - exists [], st. cbn. rewrite app_nil_r. split; [reflexivity|].
    split; [lia|]. split; [constructor|]. split; [constructor|].
    intros n df. split; [contradiction|].
    intros [j [f [_ [Hj _]]]]. destruct j; discriminate.
  - cbn [Fit.for_files].
    assert (Hkeys1 : Forall (fun kv => (fst kv < i + 1)%nat) trial_data).
    { eapply Forall_impl; [|exact Hkeys]. cbn. intros kv Hle. lia. }
    assert (Hbody : exists this st1,
      (if path_exists (path_join script_dir filename)
       then Fit.load read_excel trial_data (i + 1) filename
                     (path_join script_dir filename)
       else if path_exists filename
            then Fit.load read_excel trial_data (i + 1) filename filename
            else (say ("Warning: " ++ filename ++ " not found, skipping...") ;;
                  ret trial_data)%M) st
      = (Return (trial_data ++ this), st1)
      /\ List.length (stdout st1) = S (List.length (stdout st))
      /\ (forall df, this = [((i + 1)%nat, df)]
                     <-> loads script_dir path_join path_exists read_excel
                               filename df)
      /\ (this = [] \/ exists df, this = [((i + 1)%nat, df)])).
    { unfold loads.
      destruct (path_exists (path_join script_dir filename)) eqn:Hdir.
      - destruct (load_result read_excel trial_data (i + 1) filename
                    (path_join script_dir filename) st Hkeys1)
          as [this [st1 [Hrun [Hout Hthis]]]].
        exists this, st1. split; [exact Hrun|]. split; [exact Hout|].
        destruct (read_excel (path_join script_dir filename)) as [df0|e];
          subst this.
        + split; [|right; exists df0; reflexivity].
          intros df. split.
          * intros Heq. injection Heq as <-. left. auto.
          * intros [[_ Heq]|[Hf _]]; [|discriminate].
            injection Heq as <-. reflexivity.
        + split; [|left; reflexivity].
          intros df. split; [discriminate|].
          intros [[_ Heq]|[Hf _]]; discriminate.
      - destruct (path_exists filename) eqn:Hcwd.
        + destruct (load_result read_excel trial_data (i + 1) filename
                      filename st Hkeys1)
            as [this [st1 [Hrun [Hout Hthis]]]].
          exists this, st1. split; [exact Hrun|]. split; [exact Hout|].
          destruct (read_excel filename) as [df0|e]; subst this.
          * split; [|right; exists df0; reflexivity].
            intros df. split.
            -- intros Heq. injection Heq as <-. right. auto.
            -- intros [[Hf _]|[_ [_ Heq]]]; [discriminate|].
               injection Heq as <-. reflexivity.
          * split; [|left; reflexivity].
            intros df. split; [discriminate|].
            intros [[Hf _]|[_ [_ Heq]]]; discriminate.
        + eexists [], _. rewrite app_nil_r. split; [reflexivity|].
          split; [cbn; rewrite length_app; cbn; lia|].
          split; [|left; reflexivity].
          intros df. split; [discriminate|].
          intros [[Hf _]|[_ [Hf _]]]; discriminate. }
    destruct Hbody as [this [st1 [Hrun [Hout [Hloads Hshape]]]]].
    unfold bindM at 1. rewrite Hrun.
    destruct (IH (S i) (trial_data ++ this) st1) as
      [added [st' [Hrest [Hout' [Hsorted [Hbound Hiff]]]]]].
    { apply Forall_app. split.
      - eapply Forall_impl; [|exact Hkeys]. cbn. intros kv Hle. lia.
      - destruct Hshape as [->|[df ->]]; [constructor|].
        constructor; [cbn; lia | constructor]. }
    exists (this ++ added), st'. rewrite app_assoc.
    split; [exact Hrest|]. split; [rewrite Hout', Hout; cbn; lia|].
    split.
    { destruct Hshape as [->|[df ->]]; [exact Hsorted|].
      cbn. constructor; [exact Hsorted|].
      apply Forall_map. eapply Forall_impl; [|exact Hbound].
      cbn. intros kv Hlt. lia. }
    split.
    { apply Forall_app. split.
      - destruct Hshape as [->|[df ->]]; [constructor|].
        constructor; [cbn; lia | constructor].
      - eapply Forall_impl; [|exact Hbound]. cbn. intros kv Hlt. lia. }
    intros n df. rewrite in_app_iff, Hiff. split.
    + intros [Hin|[j [f [Hn [Hj Hl]]]]].
      * exists 0%nat, filename. cbn.
        destruct Hshape as [->|[df0 ->]]; [contradiction|].
        destruct Hin as [Heq|[]]. injection Heq as <- <-.
        split; [lia|]. split; [reflexivity|].
        apply Hloads. reflexivity.
      * exists (S j), f. split; [lia|]. split; [exact Hj | exact Hl].
    + intros [j [f [Hn [Hj Hl]]]]. destruct j as [|j].
      * cbn in Hj. injection Hj as <-. left.
        apply Hloads in Hl. rewrite Hl, Hn.
        left. f_equal. lia.
      * right. exists j, f. split; [lia|]. split; [exact Hj | exact Hl].
Qed.

(** X14.  The loading loop of [fit_all.py] never fails and prints one line
    for each of the four files.  The trial [n] is in [trial_data], with the
    frame [df], exactly when [df] is read from the first place where the
    [n]-th file exists: next to the script, else in the working directory.
    A file next to the script that cannot be read is not looked for in the
    working directory.  The trial numbers are in increasing order. *)
Theorem loaded_trials_come_from_the_first_path_found (script_dir : string)
    (path_join : string -> string -> string) (path_exists : string -> bool)
    (read_excel : string -> result Fit.dataframe) (st : store) :
  exists trial_data st',
    Fit.for_files script_dir path_join path_exists read_excel
                  Fit.trial_files 0 [] st
    = (Return trial_data, st')
    /\ List.length (stdout st') = (List.length (stdout st) + 4)%nat
    /\ StronglySorted lt (map fst trial_data)
    /\ forall n df,
         In (n, df) trial_data
         <-> exists filename,
               (1 <= n)%nat
               /\ nth_error Fit.trial_files (n - 1) = Some filename
               /\ loads script_dir path_join path_exists read_excel
                        filename df.
Proof.
  destruct (for_files_result script_dir path_join path_exists read_excel
              Fit.trial_files 0 [] st)
    as [added [st' [Hrun [Hout [Hsorted [_ Hiff]]]]]]; [constructor|].
  exists added, st'. split; [exact Hrun|]. split; [exact Hout|].
  split; [exact Hsorted|].
  intros n df. rewrite Hiff. split.
  - intros [j [f [Hn [Hj Hl]]]]. exists f. subst n.
    split; [lia|]. split; [|exact Hl].
    replace (0 + j + 1 - 1)%nat with j by lia. exact Hj.
  - intros [f [Hn [Hj Hl]]]. exists (n - 1)%nat, f.
    split; [lia|]. split; [exact Hj | exact Hl].
Qed.

(** * The equations of a trial *)

Lemma str_of_nat_inj (n m : nat) : str_of_nat n = str_of_nat m -> n = m.
Proof.
  unfold str_of_nat. intros H.
  apply DecimalNat.Unsigned.to_uint_inj.
  apply (f_equal DecimalString.NilEmpty.uint_of_string) in H.
  rewrite !DecimalString.NilEmpty.usu in H. injection H as H. exact H.
Qed.

Lemma cell_name_eqb (i j : nat) :
  String.eqb (cell_name i) (cell_name j) = Nat.eqb i j.
Proof.
  destruct (Nat.eqb_spec i j) as [->|Hne].
  - apply String.eqb_refl.
  - apply String.eqb_neq. unfold cell_name. intros H.
    apply Hne.
    assert (Hs : str_of_nat (i + 1) = str_of_nat (j + 1)).
    { cbn in H. congruence. }
    apply str_of_nat_inj in Hs. lia.
Qed.

Lemma contains_dict_set {A : Type} (d : list (string * A)) (k k' : string)
    (v : A) :
  Fit.contains (Row2.dict_set d k v) k'
  = Fit.contains d k' || String.eqb k k'.
Proof.
  unfold Fit.contains. induction d as [|[k0 v0] d IH]; cbn.
  - rewrite orb_false_r. reflexivity.
  - destruct (String.eqb_spec k0 k) as [->|Hne]; cbn.
    + destruct (String.eqb k k'); cbn; [reflexivity|].
      rewrite orb_false_r. reflexivity.
    + rewrite IH. rewrite orb_assoc. reflexivity.
Qed.

Lemma dict_set_Forall {A : Type} (P : string * A -> Prop)
    (d : list (string * A)) (k : string) (v : A) :
  (forall k0, P (k0, v)) -> Forall P d -> Forall P (Row2.dict_set d k v).
Proof.
  intros Hv. induction 1 as [|[k0 v0] d H0 Hd IH]; cbn.
  - constructor; [apply Hv | constructor].
  - destruct (String.eqb k0 k).
    + constructor; [apply Hv | assumption].
    + constructor; assumption.
Qed.

Lemma for_fits_returns (linregress : Fit.series -> Fit.series
                                    -> result Fit.regression)
    (fmt3 : f64 -> string) (items : list (nat * Fit.points)) :
  forall (acc : list (string * Fit.equation)) (st : store)
         (eqs : list (string * Fit.equation)),
    equations acc ->
    fst (Fit.for_fits linregress fmt3 items acc st) = Return eqs ->
    (forall k, Fit.contains eqs k
               = Fit.contains acc k
                 || existsb (fun i => String.eqb (cell_name i) k)
                            (map fst items))
    /\ equations eqs.
Proof.
  induction items as [|[i data] items IH]; intros acc st eqs Hacc Hrun.
  - cbn in Hrun. injection Hrun as <-. split; [|exact Hacc].
    intros k. cbn. rewrite orb_false_r. reflexivity.
  - cbn [Fit.for_fits] in Hrun.
    apply bindM_returns in Hrun. destruct Hrun as [fit [st1 [_ Hrun]]].
    apply bindM_returns in Hrun. destruct Hrun as [u [st2 [_ Hrun]]].
    apply bindM_returns in Hrun. destruct Hrun as [u' [st3 [_ Hrun]]].
    apply IH in Hrun.
    + destruct Hrun as [Hc Hall]. split; [|exact Hall].
      intros k. rewrite Hc, contains_dict_set. cbn.
      rewrite orb_assoc. reflexivity.
    + apply dict_set_Forall; [|exact Hacc].
      intros k0. cbn. eexists. reflexivity.
Qed.

Lemma existsb_key (i : nat) (items : list (nat * Fit.points)) :
  existsb (fun j => String.eqb (cell_name j) (cell_name i)) (map fst items)
  = true
  <-> exists data, In (i, data) items.
Proof.
  rewrite existsb_exists. split.
  - intros [j [Hin Heq]]. rewrite cell_name_eqb in Heq.
    apply Nat.eqb_eq in Heq. subst j.
    apply in_map_iff in Hin. destruct Hin as [[i' data] [Hi Hin]].
    cbn in Hi. subst i'. exists data. exact Hin.
  - intros [data Hin]. exists i. split.
    + apply in_map_iff. exists (i, data). split; [reflexivity | exact Hin].
    + rewrite cell_name_eqb. apply Nat.eqb_refl.
Qed.

Lemma bool_eq_iff (a b : bool) : (a = true <-> b = true) -> a = b.
Proof. destruct a, b; intros [H1 H2]; auto; try (symmetry; auto). Qed.

Lemma set_item_new {A : Type} (d : list (nat * A)) (k : nat) (v : A) :
  ~ In k (map fst d) -> Fit.set_item d k v = d ++ [(k, v)].
Proof.
  induction d as [|[k' v'] d IH]; intros Hnot; [reflexivity|].
  cbn in *. destruct (Nat.eqb_spec k' k) as [->|_].
  - contradiction Hnot. left. reflexivity.
  - rewrite IH; [reflexivity|]. intros Hin. apply Hnot. right. exact Hin.
Qed.

(** * The equations of every trial *)

Lemma for_trials_returns (linregress : Fit.series -> Fit.series
                                      -> result Fit.regression)
    (fmt3 : f64 -> string) (items : list (nat * Fit.dataframe)) :
  forall (acc : list (nat * list (string * Fit.equation))) (st : store)
         (all_equations : list (nat * list (string * Fit.equation))),
    NoDup (map fst items) ->
    (forall n, In n (map fst items) -> ~ In n (map fst acc)) ->
    fst (Fit.for_trials linregress fmt3 items acc st) = Return all_equations ->
    exists added,
      all_equations = acc ++ added
      /\ Forall2 (fun item entry =>
                    fst entry = fst item
                    /\ equations_of (snd item) (snd entry)) items added.
Proof.
  induction items as [|[trial_num df] items IH];
    intros acc st all_equations Hnd Hfresh Hrun.
  - cbn in Hrun. injection Hrun as <-. exists []. rewrite app_nil_r.
    split; [reflexivity | constructor].
  - cbn [Fit.for_trials] in Hrun.
    apply bindM_returns in Hrun. destruct Hrun as [ax [st1 [_ Hrun]]].
    apply bindM_returns in Hrun. destruct Hrun as [u [st2 [_ Hrun]]].
    apply bindM_returns in Hrun. destruct Hrun as [[has cd] [st3 [Hcols Hrun]]].
    apply bindM_returns in Hrun. destruct Hrun as [eqs [st4 [Hfit Hrun]]].
    cbn [fst snd] in *.
    assert (Hcols' : fst (Fit.for_columns "  " df Fit.torque_columns 0 false
                                           [] st2) = Return (has, cd))
      by (rewrite Hcols; reflexivity).
    apply for_columns_keys in Hcols'.
    destruct Hcols' as [Hhas [Hkeys _]].
    assert (Heqs : equations_of df eqs).
    { destruct has.
      - apply (f_equal fst) in Hfit. cbn [fst] in Hfit.
        apply bindM_returns in Hfit. destruct Hfit as [u1 [st5 [_ Hfit]]].
        apply for_fits_returns in Hfit; [|constructor].
        destruct Hfit as [Hc Hall]. split; [|exact Hall].
        intros i c Hi. rewrite Hc. cbn [Fit.contains existsb orb].
        apply bool_eq_iff. rewrite existsb_key. symmetry. apply Hkeys.
        exact Hi.
      - cbn in Hfit. injection Hfit as <- _. split; [|constructor].
        intros i c Hi. cbn. symmetry.
        destruct (has_points df c) eqn:Hp; [|reflexivity].
        apply (Hkeys i c Hi) in Hp. destruct Hp as [data Hin].
        assert (Hnil : cd = []).
        { destruct cd; [reflexivity|].
          assert (Hf : false = true) by (apply Hhas; discriminate).
          discriminate. }
        subst cd. contradiction. }
    rewrite set_item_new in Hrun.
    2:{ apply Hfresh. left. reflexivity. }
    inversion Hnd as [|? ? Hnotin Hnd']; subst.
    apply IH in Hrun; [|exact Hnd'|].
    + destruct Hrun as [added [Heq Hall]].
      exists ((trial_num, eqs) :: added). split.
      * rewrite Heq, <- app_assoc. reflexivity.
      * constructor; [|exact Hall]. cbn. split; [reflexivity | exact Heqs].
    + intros n Hn Hin. rewrite map_app, in_app_iff in Hin.
      destruct Hin as [Hin|[Heq|[]]].
      * apply (Hfresh n); [right; exact Hn | exact Hin].
      * cbn in Heq. subst n. contradiction.
Qed.

(** * The table of the equations *)

Lemma get_item_first {A : Type} (d : list (nat * A)) (k : nat) :
  In k (map fst d) -> exists v, Fit.get_item d k = Return v /\ In (k, v) d.
Proof.
  induction d as [|[k' v'] d IH]; cbn; [contradiction|].
  intros Hin. destruct (Nat.eqb_spec k' k) as [->|Hne].
  - exists v'. split; [reflexivity | left; reflexivity].
  - destruct Hin as [Heq|Hin]; [contradiction|].
    destruct (IH Hin) as [v [Hget Hv]]. exists v. split; [exact Hget|].
    right. exact Hv.
Qed.

Lemma get_item_In {A : Type} (d : list (nat * A)) (k : nat) (v : A) :
  NoDup (map fst d) -> In (k, v) d -> Fit.get_item d k = Return v.
Proof.
  induction d as [|[k' v'] d IH]; cbn; [contradiction|].
  intros Hnd Hin. inversion Hnd as [|? ? Hnot Hnd']; subst.
  destruct Hin as [Heq|Hin].
  - injection Heq as -> ->. rewrite Nat.eqb_refl. reflexivity.
  - destruct (Nat.eqb_spec k' k) as [->|Hne].
    + contradiction Hnot. apply in_map_iff. exists (k, v). auto.
    + apply IH; assumption.
Qed.

Lemma dict_get_contains {A : Type} (d : list (string * A)) (k : string) :
  Fit.contains d k = true ->
  exists v, Row1.dict_get d k = Return v /\ In v (map snd d).
Proof.
  unfold Fit.contains. induction d as [|[k' v'] d IH]; cbn; [discriminate|].
  destruct (String.eqb k' k).
  - intros _. exists v'. split; [reflexivity | left; reflexivity].
  - cbn. intros H. destruct (IH H) as [v [Hget Hin]].
    exists v. split; [exact Hget | right; exact Hin].
Qed.

Lemma cell_text_returns
    (all_equations : list (nat * list (string * Fit.equation)))
    (cell : string) (trial_num : nat) (eqs : list (string * Fit.equation)) :
  Fit.get_item all_equations trial_num = Return eqs ->
  equations eqs ->
  exists text,
    Fit.cell_text all_equations cell trial_num = Return text
    /\ (text = Fit.no_data <-> Fit.contains eqs cell = false).
Proof.
  intros Hget Heqs. unfold Fit.cell_text. rewrite Hget. cbn [bind].
  destruct (Fit.contains eqs cell) eqn:Hc.
  - destruct (dict_get_contains eqs cell Hc) as [eq [Hd Hin]].
    rewrite Hd. cbn [bind]. eexists. split; [reflexivity|].
    split; [|discriminate].
    apply in_map_iff in Hin. destruct Hin as [kv [Hsnd Hin]].
    unfold equations in Heqs. rewrite Forall_forall in Heqs.
    destruct (Heqs kv Hin) as [t Ht]. rewrite Hsnd in Ht. rewrite Ht.
    cbn. discriminate.
  - exists Fit.no_data. split; [reflexivity|]. split; reflexivity.
Qed.

Lemma for_entries_returns
    (all_equations : list (nat * list (string * Fit.equation)))
    (cell : string) (trial_nums : list nat) :
  forall row,
    Forall (fun n => exists eqs, Fit.get_item all_equations n = Return eqs
                                 /\ equations eqs) trial_nums ->
    exists texts,
      Fit.for_entries all_equations cell trial_nums row
      = Return (row ++ texts)
      /\ Forall2 (fun n text =>
                    Fit.cell_text all_equations cell n = Return text)
                 trial_nums texts.
Proof.
  induction trial_nums as [|n rest IH]; intros row Hall.
  - exists []. rewrite app_nil_r. split; [reflexivity | constructor].
  - inversion Hall as [|? ? [eqs [Hget Heqs]] Hrest]; subst.
    destruct (cell_text_returns all_equations cell n eqs Hget Heqs)
      as [text [Htext _]].
    destruct (IH (row ++ [text]) Hrest) as [texts [Hrun Htexts]].
    exists (text :: texts). cbn [Fit.for_entries]. rewrite Htext. cbn [bind].
    rewrite Hrun, <- app_assoc. split; [reflexivity|].
    constructor; assumption.
Qed.

Lemma for_rows_returns
    (all_equations : list (nat * list (string * Fit.equation)))
    (cells : list string) :
  forall table_data,
    Forall (fun n => exists eqs, Fit.get_item all_equations n = Return eqs
                                 /\ equations eqs)
           (sorted (map fst all_equations)) ->
    exists rows,
      Fit.for_rows all_equations cells table_data = Return (table_data ++ rows)
      /\ Forall2 (fun cell row =>
                    exists texts,
                      row = cell :: texts
                      /\ Forall2 (fun n text =>
                                    Fit.cell_text all_equations cell n
                                    = Return text)
                                 (sorted (map fst all_equations)) texts)
                 cells rows.
Proof.
  induction cells as [|cell rest IH]; intros table_data Hall.
  - exists []. rewrite app_nil_r. split; [reflexivity | constructor].
  - destruct (for_entries_returns all_equations cell _ [cell] Hall)
      as [texts [Hrow Htexts]].
    destruct (IH (table_data ++ [[cell] ++ texts]) Hall)
      as [rows [Hrun Hrows]].
    exists (([cell] ++ texts) :: rows). cbn [Fit.for_rows].
    rewrite Hrow. cbn [bind]. rewrite Hrun, <- app_assoc.
    split; [reflexivity|]. constructor; [|exact Hrows].
    exists texts. split; [reflexivity | exact Htexts].
Qed.

Lemma insert_sorted_In (k n : nat) (l : list nat) :
  In n (insert_sorted k l) <-> n = k \/ In n l.
Proof.
  induction l as [|x l IH]; cbn.
  - intuition.
  - destruct (k <=? x)%nat; cbn; [intuition|]. rewrite IH. intuition.
Qed.

Lemma sorted_In (n : nat) (l : list nat) : In n (sorted l) <-> In n l.
Proof.
  induction l as [|x l IH]; [reflexivity|].
  change (sorted (x :: l)) with (insert_sorted x (sorted l)).
  rewrite insert_sorted_In, IH. cbn. intuition.
Qed.

Lemma insert_sorted_length (k : nat) (l : list nat) :
  List.length (insert_sorted k l) = S (List.length l).
Proof.
  induction l as [|x l IH]; cbn; [reflexivity|].
  destruct (k <=? x)%nat; cbn; [reflexivity|]. rewrite IH. reflexivity.
Qed.

Lemma sorted_length (l : list nat) : List.length (sorted l) = List.length l.
Proof.
  induction l as [|x l IH]; [reflexivity|].
  change (sorted (x :: l)) with (insert_sorted x (sorted l)).
  rewrite insert_sorted_length, IH. reflexivity.
Qed.

Lemma sorted_increasing (l : list nat) : StronglySorted lt l -> sorted l = l.
Proof.
  induction 1 as [|x l Hs IH Hx]; [reflexivity|].
  change (sorted (x :: l)) with (insert_sorted x (sorted l)).
  rewrite IH. destruct l as [|y l]; [reflexivity|].
  cbn. inversion Hx; subst.
  destruct (Nat.leb_spec x y); [reflexivity | lia].
Qed.

Lemma increasing_NoDup (l : list nat) : StronglySorted lt l -> NoDup l.
Proof.
  induction 1 as [|x l Hs IH Hx]; constructor; [|exact IH].
  intros Hin. rewrite Forall_forall in Hx. apply Hx in Hin. lia.
Qed.

Lemma Forall2_keys {A B : Type} (R : A -> B -> Prop)
    (l : list (nat * A)) (l' : list (nat * B)) :
  Forall2 (fun item entry => fst entry = fst item
                             /\ R (snd item) (snd entry)) l l' ->
  map fst l' = map fst l.
Proof.
  induction 1 as [|x y l l' [Hk _] _ IH]; [reflexivity|].
  cbn. rewrite Hk, IH. reflexivity.
Qed.

Lemma Forall2_nth {A B : Type} (R : A -> B -> Prop) (l : list A)
    (l' : list B) (j : nat) (a : A) :
  Forall2 R l l' -> nth_error l j = Some a ->
  exists b, nth_error l' j = Some b /\ R a b.
Proof.
  intros H. revert j. induction H as [|x y l l' Hxy _ IH]; intros j Hj.
  - destruct j; discriminate.
  - destruct j as [|j]; cbn in *.
    + injection Hj as <-. exists y. auto.
    + apply IH. exact Hj.
Qed.

(** The table of a run of the trials: every entry of [all_equations] has
    the equations of its trial. *)
Lemma trials_then_table (linregress : Fit.series -> Fit.series
                                      -> result Fit.regression)
    (fmt3 : f64 -> string) (trial_data : list (nat * Fit.dataframe))
    (st : store) (all_equations : list (nat * list (string * Fit.equation))) :
  NoDup (map fst trial_data) ->
  fst (Fit.for_trials linregress fmt3 trial_data [] st) = Return all_equations ->
  map fst all_equations = map fst trial_data
  /\ Forall2 (fun item entry =>
                fst entry = fst item /\ equations_of (snd item) (snd entry))
             trial_data all_equations
  /\ exists table,
       Fit.table_data all_equations = Return table
       /\ Forall2 (fun cell row =>
                     exists texts,
                       row = cell :: texts
                       /\ Forall2 (fun n text =>
                                     Fit.cell_text all_equations cell n
                                     = Return text)
                                  (sorted (map fst all_equations)) texts)
                  Fit.cells table.
Proof.
  intros Hnd Hrun.
  apply for_trials_returns in Hrun; [|exact Hnd|intros n _ []].
  destruct Hrun as [added [Heq Hall]]. cbn [app] in Heq. subst added.
  pose proof (Forall2_keys _ _ _ Hall) as Hkeys.
  split; [exact Hkeys|]. split; [exact Hall|].
  destruct (for_rows_returns all_equations Fit.cells []) as [rows [Hrun Hrows]].
  - apply Forall_forall. intros n Hn. rewrite sorted_In in Hn.
    destruct (get_item_first all_equations n Hn) as [eqs [Hget Hin]].
    exists eqs. split; [exact Hget|].
    apply In_nth_error in Hin. destruct Hin as [j Hj].
    assert (Hflip : Forall2 (fun entry item =>
                       fst entry = fst item
                       /\ equations_of (snd item) (snd entry))
                      all_equations trial_data).
    { clear -Hall. induction Hall; constructor; assumption. }
    destruct (Forall2_nth _ _ _ j _ Hflip Hj) as [item [_ [_ [_ Hy]]]].
    exact Hy.
  - exists rows. split; [exact Hrun | exact Hrows].
Qed.

(** * Properties of the table *)

Lemma cells_names (i : nat) (cell : string) :
  nth_error Fit.cells i = Some cell -> cell = cell_name i.
Proof.
  intros H.
  do 6 (destruct i as [|i]; [cbn in H; injection H as <-; reflexivity|]).
  destruct i; discriminate.
Qed.

Lemma nth_error_seq_lt (a len j : nat) :
  (j < len)%nat -> nth_error (seq a len) j = Some (a + j)%nat.
Proof.
  revert a j. induction len as [|len IH]; intros a j Hlt; [lia|].
  destruct j as [|j]; cbn.
  - f_equal. lia.
  - rewrite IH by lia. f_equal. lia.
Qed.

Lemma header_of_column {A : Type} (trial_data : list (nat * A)) (j : nat) :
  (j < List.length trial_data)%nat ->
  nth_error (Fit.headers trial_data) (S j)
  = Some ("Trial " ++ str_of_nat (S j))%string.
Proof.
  intros Hlt. unfold Fit.headers, Fit.trial_cols. cbn [nth_error].
  rewrite nth_error_map, nth_error_seq_lt by exact Hlt. reflexivity.
Qed.

(** X16.  When the loop over the trials of [fit_all.py] ends,
    [all_equations] has the trials of [trial_data] as its keys, and the
    table is built without an exception: one row for each of the six cells,
    starting with the name of the cell, and as long as [headers]. *)
Theorem summary_table_is_rectangular
    (linregress : Fit.series -> Fit.series -> result Fit.regression)
    (fmt3 : f64 -> string) (trial_data : list (nat * Fit.dataframe))
    (st : store) (all_equations : list (nat * list (string * Fit.equation))) :
  NoDup (map fst trial_data) ->
  fst (Fit.for_trials linregress fmt3 trial_data [] st) = Return all_equations ->
  map fst all_equations = map fst trial_data
  /\ exists table,
       Fit.table_data all_equations = Return table
       /\ map (@hd_error string) table = map Some Fit.cells
       /\ Forall (fun row => List.length row
                             = List.length (Fit.headers trial_data)) table.
Proof.
  intros Hnd Hrun.
  destruct (trials_then_table _ _ _ _ _ Hnd Hrun)
    as [Hkeys [_ [table [Htable Hrows]]]].
  split; [exact Hkeys|]. exists table. split; [exact Htable|].
  assert (Hlen : forall texts : list string,
             List.length texts
             = List.length (sorted (map fst all_equations)) ->
             List.length (EmptyString :: texts)
             = List.length (Fit.headers trial_data)).
  { intros texts Ht. unfold Fit.headers, Fit.trial_cols. cbn [List.length].
    rewrite Ht, sorted_length, Hkeys, !length_map, length_seq. reflexivity. }
  clear Htable Hrun. induction Hrows as [|cell row cs rows [texts [-> Ht]] _ IH].
  - split; constructor.
  - destruct IH as [IH1 IH2]. split.
    + cbn. rewrite IH1. reflexivity.
    + constructor; [|exact IH2].
      apply (Hlen texts). symmetry. eapply Forall2_length. exact Ht.
Qed.

Lemma summary_table_is_rectangular_witness :
  exists all_equations,
    fst (Fit.for_trials sample_linregress sample_fmt3 sample_trials []
                        sample_store) = Return all_equations
    /\ map fst all_equations = map fst sample_trials
    /\ exists table,
         Fit.table_data all_equations = Return table
         /\ map (@hd_error string) table = map Some Fit.cells
         /\ Forall (fun row => List.length row
                               = List.length (Fit.headers sample_trials))
                   table.
Proof.
  eexists. split; [vm_compute; reflexivity|].
  match goal with
  | |- map fst ?a = _ /\ _ =>
      apply (summary_table_is_rectangular sample_linregress sample_fmt3
               sample_trials sample_store a)
  end.
  - repeat constructor; cbn; intuition discriminate.
  - vm_compute. reflexivity.
Defined.

(** X17.  In the table of [fit_all.py], the entry of the cell [i] in the
    column [j + 1] comes from the [j]-th loaded trial, in the order of the
    trial numbers: it is the text "No data / in range" exactly when the
    sheet of that trial has no torque of the cell in the range.  The column
    is headed "Trial j+1", whichever trial that is. *)
Theorem table_entry_says_no_data_iff_no_point_in_range
    (linregress : Fit.series -> Fit.series -> result Fit.regression)
    (fmt3 : f64 -> string) (trial_data : list (nat * Fit.dataframe))
    (st : store) (all_equations : list (nat * list (string * Fit.equation)))
    (table : list (list string)) :
  StronglySorted lt (map fst trial_data) ->
  fst (Fit.for_trials linregress fmt3 trial_data [] st) = Return all_equations ->
  Fit.table_data all_equations = Return table ->
  forall i j cell column trial_num df,
    nth_error Fit.cells i = Some cell ->
    nth_error Fit.torque_columns i = Some column ->
    nth_error trial_data j = Some (trial_num, df) ->
    exists row text,
      nth_error table i = Some row
      /\ hd_error row = Some cell
      /\ nth_error row (S j) = Some text
      /\ (text = Fit.no_data <-> has_points df column = false)
      /\ nth_error (Fit.headers trial_data) (S j)
         = Some ("Trial " ++ str_of_nat (S j))%string.
Proof.
  intros Hsorted Hrun Htable i j cell column trial_num df Hcell Hcol Hj.
  pose proof (increasing_NoDup _ Hsorted) as Hnd.
  destruct (trials_then_table _ _ _ _ _ Hnd Hrun)
    as [Hkeys [Hall [table' [Htable' Hrows]]]].
  rewrite Htable in Htable'. injection Htable' as <-.
  destruct (Forall2_nth _ _ _ i cell Hrows Hcell)
    as [row [Hrow [texts [-> Htexts]]]].
  rewrite Hkeys, (sorted_increasing _ Hsorted) in Htexts.
  assert (Hn : nth_error (map fst trial_data) j = Some trial_num)
    by (rewrite nth_error_map, Hj; reflexivity).
  destruct (Forall2_nth _ _ _ j trial_num Htexts Hn) as [text [Htext Hcell_text]].
  destruct (Forall2_nth _ _ _ j _ Hall Hj) as [[n eqs] [Hentry [Hk Heqs]]].
  cbn [fst snd] in Hk, Heqs. subst n.
  assert (Hget : Fit.get_item all_equations trial_num = Return eqs).
  { apply get_item_In.
    - rewrite Hkeys. exact Hnd.
    - eapply nth_error_In. exact Hentry. }
  destruct (cell_text_returns all_equations cell trial_num eqs Hget
              (proj2 Heqs)) as [text' [Htext' Hiff]].
  rewrite Hcell_text in Htext'. injection Htext' as <-.
  exists (cell :: texts), text. split; [exact Hrow|].
  split; [reflexivity|]. split; [exact Htext|]. split.
  - rewrite Hiff. rewrite (cells_names i cell Hcell).
    rewrite (proj1 Heqs i column Hcol). reflexivity.
  - apply header_of_column. apply nth_error_Some. rewrite Hj. discriminate.
Qed.

Lemma table_entry_says_no_data_iff_no_point_in_range_witness :
  exists all_equations table,
    fst (Fit.for_trials sample_linregress sample_fmt3 sample_trials []
                        sample_store) = Return all_equations
    /\ Fit.table_data all_equations = Return table
    /\ forall i j cell column trial_num df,
         nth_error Fit.cells i = Some cell ->
         nth_error Fit.torque_columns i = Some column ->
         nth_error sample_trials j = Some (trial_num, df) ->
         exists row text,
           nth_error table i = Some row
           /\ hd_error row = Some cell
           /\ nth_error row (S j) = Some text
           /\ (text = Fit.no_data <-> has_points df column = false)
           /\ nth_error (Fit.headers sample_trials) (S j)
              = Some ("Trial " ++ str_of_nat (S j))%string.
Proof.
  eexists. eexists. split; [vm_compute; reflexivity|].
  split; [vm_compute; reflexivity|].
  eapply (table_entry_says_no_data_iff_no_point_in_range sample_linregress
            sample_fmt3 sample_trials sample_store).
  - repeat constructor.
  - vm_compute. reflexivity.
  - vm_compute. reflexivity.
Defined.

(** X18.  The headers of the table name the trial of every column exactly
    when the loaded trials are the first ones, 1 to [len(trial_data)]: with
    a sheet missing before the last loaded one, a later trial stands under
    the name of an earlier one. *)
Theorem headers_match_the_trials_iff_no_gap {A : Type}
    (trial_data : list (nat * A)) :
  (forall j n df,
     nth_error trial_data j = Some (n, df) ->
     nth_error (Fit.headers trial_data) (S j)
     = Some ("Trial " ++ str_of_nat n)%string)
  <-> map fst trial_data = seq 1 (List.length trial_data).
Proof.
  split.
  - intros H. apply nth_error_ext. intros j.
    destruct (nth_error trial_data j) as [[n df]|] eqn:Hj.
    + assert (Hlt : (j < List.length trial_data)%nat)
        by (apply nth_error_Some; rewrite Hj; discriminate).
      specialize (H j n df Hj). rewrite header_of_column in H by exact Hlt.
      injection H as H. apply str_of_nat_inj in H.
      rewrite nth_error_map, Hj, nth_error_seq_lt by exact Hlt.
      cbn. f_equal. lia.
    + rewrite nth_error_map, Hj. cbn. symmetry.
      apply nth_error_None. rewrite length_seq.
      apply nth_error_None. exact Hj.
  - intros Hkeys j n df Hj.
    assert (Hlt : (j < List.length trial_data)%nat)
      by (apply nth_error_Some; rewrite Hj; discriminate).
    rewrite header_of_column by exact Hlt.
    assert (Hn : nth_error (map fst trial_data) j = Some n)
      by (rewrite nth_error_map, Hj; reflexivity).
    rewrite Hkeys, nth_error_seq_lt in Hn by exact Hlt.
    injection Hn as <-. reflexivity.
Qed.

(** * The script as a whole *)

(** X15.  [fit_all.py] leaves through [exit()] exactly when none of the
    four files can be loaded. *)
Theorem script_exits_iff_no_sheet_loads (script_dir : string)
    (path_join : string -> string -> string) (path_exists : string -> bool)
    (read_excel : string -> result Fit.dataframe)
    (linregress : Fit.series -> Fit.series -> result Fit.regression)
    (fmt3 : f64 -> string) (st : store) :
  fst (Fit.main script_dir path_join path_exists read_excel linregress fmt3 st)
  = Return None
  <-> forall filename df,
        In filename Fit.trial_files ->
        ~ loads script_dir path_join path_exists read_excel filename df.
Proof.
  unfold Fit.main, say at 1. rewrite bindM_print. unfold bindM at 1.
  match goal with
  | |- context [Fit.for_files _ _ _ _ _ _ _ ?st1] =>
      destruct (for_files_result script_dir path_join path_exists read_excel
                  Fit.trial_files 0 [] st1 (Forall_nil _))
        as [added [st' [Hrun [_ [_ [_ Hiff]]]]]]
  end.
  cbn [app] in Hrun. rewrite Hrun.
  destruct added as [|[n df] added].
  - split; [|intros _; reflexivity].
    intros _ filename df Hin Hl.
    apply In_nth_error in Hin. destruct Hin as [j Hj].
    assert (Hin : In ((0 + j + 1)%nat, df) (@nil (nat * Fit.dataframe))).
    { apply Hiff. exists j, filename. auto. }
    contradiction.
  - split.
    + intros H. apply bindM_returns in H. destruct H as [a [st1 [_ H]]].
      apply bindM_returns in H. destruct H as [t [st2 [_ H]]].
      discriminate.
    + intros H. exfalso.
      destruct (proj1 (Hiff n df) (or_introl eq_refl)) as [j [f [_ [Hf Hl]]]].
      apply (H f df); [|exact Hl]. eapply nth_error_In. exact Hf.
Qed.


(** In the sample place the trials 1 and 3 are loaded, and the sheet of
    trial 3 stands in the column headed "Trial 2". *)
Lemma sample_headers_misname_a_trial :
  exists trial_data st',
    Fit.for_files "/data" sample_join sample_exists sample_read
                  Fit.trial_files 0 [] sample_store
    = (Return trial_data, st')
    /\ trial_data = sample_trials
    /\ Fit.headers trial_data = ["Cell"; "Trial 1"; "Trial 2"]%string.
Proof.
  eexists. eexists. split; [vm_compute; reflexivity|].
  split; reflexivity.
Qed.

(** * Binary64 rounding *)

Lemma pow2_pos (e : Z) : 0 < 2 ^ e.
Proof. apply Qpower_0_lt. reflexivity. Qed.

Lemma pow2_succ (e : Z) : 2 ^ (e + 1) == 2 * 2 ^ e.
Proof.
  rewrite Qpower_plus by discriminate. change (2 ^ 1) with 2. lra.
Qed.

Lemma pow2_pred (e : Z) : 2 ^ (e - 1) == 2 ^ e * (1 # 2).
Proof.
  pose proof (pow2_succ (e - 1)) as H.
  replace (e - 1 + 1)%Z with e in H by lia. lra.
Qed.

Lemma pow2_le (n m : Z) : (n <= m)%Z -> 2 ^ n <= 2 ^ m.
Proof. intros H. apply Qpower_le_compat_l; [exact H | discriminate]. Qed.


Lemma pow2_inject (a : Z) : (0 <= a)%Z -> inject_Z (2 ^ a) == 2 ^ a.
Proof. intros H. apply (Zpower_Qpower 2 a H). Qed.

Lemma div_lt_div (n d A B : Q) :
  0 < d -> 0 < B -> n * B < A * d -> n / d < A / B.
Proof.
  intros Hd HB H. apply Qlt_shift_div_r; [exact Hd|].
  setoid_replace (A / B * d) with (A * d / B) by (field; lra).
  apply Qlt_shift_div_l; [exact HB | exact H].
Qed.

Lemma div_le_div (n d A B : Q) :
  0 < d -> 0 < B -> A * d <= n * B -> A / B <= n / d.
Proof.
  intros Hd HB H. apply Qle_shift_div_l; [exact Hd|].
  setoid_replace (A / B * d) with (A * d / B) by (field; lra).
  apply Qle_shift_div_r; [exact HB | exact H].
Qed.

Lemma floor_log2_spec (q : Q) :
  ~ q == 0 ->
  2 ^ Binary64.floor_log2 q <= Qabs q
  /\ Qabs q < 2 ^ (Binary64.floor_log2 q + 1).
Proof.
  intros Hq. unfold Binary64.floor_log2.
  set (n := Z.abs (Qnum q)). set (d := Zpos (Qden q)).
  assert (Hn : (0 < n)%Z).
  { unfold n. assert (Qnum q <> 0)%Z; [|lia].
    intros H0. apply Hq. unfold Qeq. rewrite H0. reflexivity. }
  assert (Hd : (0 < d)%Z) by (unfold d; lia).
  destruct (Z.log2_spec n Hn) as [Hn1 Hn2].
  destruct (Z.log2_spec d Hd) as [Hd1 Hd2].
  pose proof (Z.log2_nonneg n) as Ha0. pose proof (Z.log2_nonneg d) as Hb0.
  set (a := Z.log2 n) in *. set (b := Z.log2 d) in *.
  assert (Habs : Qabs q == inject_Z n / inject_Z d).
  { unfold n, d. destruct q as [qn qd]. cbn. apply Qmake_Qdiv. }
  assert (HnA : 2 ^ a <= inject_Z n).
  { rewrite <- pow2_inject by exact Ha0. rewrite <- Zle_Qle. exact Hn1. }
  assert (HnA' : inject_Z n < 2 * 2 ^ a).
  { rewrite <- pow2_succ, <- pow2_inject by lia. rewrite <- Zlt_Qlt.
    exact Hn2. }
  assert (HdB : 2 ^ b <= inject_Z d).
  { rewrite <- pow2_inject by exact Hb0. rewrite <- Zle_Qle. exact Hd1. }
  assert (HdB' : inject_Z d < 2 * 2 ^ b).
  { rewrite <- pow2_succ, <- pow2_inject by lia. rewrite <- Zlt_Qlt.
    exact Hd2. }
  pose proof (pow2_pos a) as HA. pose proof (pow2_pos b) as HB.
  assert (Hk : 2 ^ (a - b) == 2 ^ a / 2 ^ b)
    by (apply Qpower_minus; discriminate).
  assert (Hd' : 0 < inject_Z d) by lra.
  destruct (Qle_bool (2 ^ (a - b)) (Qabs q)) eqn:Hc.
  - split; [apply Qle_bool_iff; exact Hc|].
    rewrite pow2_succ, Hk, Habs.
    setoid_replace (2 * (2 ^ a / 2 ^ b)) with (2 * 2 ^ a / 2 ^ b)
      by (field; lra).
    apply div_lt_div; [exact Hd' | exact HB | nra].
  - split.
    + rewrite pow2_pred, Hk, Habs.
      setoid_replace (2 ^ a / 2 ^ b * (1 # 2)) with (2 ^ a / (2 * 2 ^ b))
        by (field; lra).
      apply div_le_div; [exact Hd' | lra | nra].
    + replace (a - b - 1 + 1)%Z with (a - b)%Z by lia.
      apply Qnot_le_lt. intros Hle. apply Qle_bool_iff in Hle.
      rewrite Hle in Hc. discriminate.
Qed.

Lemma round_half_even_nonneg (x : Q) : 0 <= x -> (0 <= round_half_even x)%Z.
Proof.
  intros Hx. unfold round_half_even.
  assert (H0 : (0 <= Qfloor x)%Z).
  { change 0%Z with (Qfloor 0). apply Qfloor_resp_le. exact Hx. }
  destruct (Qcompare (x - inject_Z (Qfloor x)) (1 # 2)); [|lia|lia].
  destruct (Z.even (Qfloor x)); lia.
Qed.


Lemma ulp_exponent_cases (q : Q) :
  (Binary64.ulp_exponent q = -1074)%Z
  \/ Binary64.ulp_exponent q = (Binary64.floor_log2 q - 52)%Z.
Proof. unfold Binary64.ulp_exponent. lia. Qed.

(** Half a unit in the last place of [q] is at most [2^-53 |q|], or
    [2^-1075] in the subnormal range. *)
Lemma half_ulp_bound (q : Q) :
  ~ q == 0 ->
  2 ^ Binary64.ulp_exponent q * (1 # 2)
  <= 2 ^ (-53) * Qabs q + 2 ^ (-1075).
Proof.
  intros Hq. destruct (floor_log2_spec q Hq) as [Hlo _].
  pose proof (Qabs_nonneg q) as Hq0.
  pose proof (pow2_pos (-53)) as Hu. pose proof (pow2_pos (-1075)) as Heta.
  destruct (ulp_exponent_cases q) as [He|He]; rewrite He.
  - rewrite <- pow2_pred. change (-1074 - 1)%Z with (-1075)%Z.
    assert (0 <= 2 ^ (-53) * Qabs q) by (apply Qmult_le_0_compat; lra).
    lra.
  - rewrite <- pow2_pred.
    replace (Binary64.floor_log2 q - 52 - 1)%Z
      with (-53 + Binary64.floor_log2 q)%Z by lia.
    rewrite Qpower_plus by discriminate.
    assert (2 ^ (-53) * 2 ^ Binary64.floor_log2 q <= 2 ^ (-53) * Qabs q).
    { rewrite !(Qmult_comm (2 ^ (-53))).
      apply Qmult_le_compat_r; [exact Hlo | lra]. }
    lra.
Qed.

(** The distance of [q] to its rounding on the grid of its last place. *)
Lemma grid_rounding (q : Q) (e : Z) :
  Qabs (inject_Z (round_half_even (q / 2 ^ e)) * 2 ^ e - q)
  <= 2 ^ e * (1 # 2).
Proof.
  pose proof (pow2_pos e) as HP.
  pose proof (round_half_even_near (q / 2 ^ e)) as Hnear.
  setoid_replace (inject_Z (round_half_even (q / 2 ^ e)) * 2 ^ e - q)
    with ((inject_Z (round_half_even (q / 2 ^ e)) - q / 2 ^ e) * 2 ^ e)
    by (field; lra).
  rewrite Qabs_Qmult, (Qabs_pos (2 ^ e)) by lra.
  rewrite (Qmult_comm (2 ^ e)).
  apply Qmult_le_compat_r; [exact Hnear | lra].
Qed.

(** A nonzero [q] below [2^1023] in magnitude is rounded to a number, on the
    grid of its last place. *)
Lemma double_grid (q : Q) :
  ~ q == 0 ->
  Qabs q < 2 ^ 1023 ->
  exists r,
    Binary64.double q = Fin r
    /\ Qabs (r - q) <= 2 ^ Binary64.ulp_exponent q * (1 # 2).
Proof.
  intros Hz Hsmall. unfold Binary64.double.
  pose proof (Qabs_nonneg q) as Hq0.
  pose proof Hz as Hz'. apply Qis_zero_false in Hz'. rewrite Hz'.
  destruct (floor_log2_spec q Hz) as [Hlo Hhi].
  set (e := Binary64.ulp_exponent q).
  set (r := inject_Z (round_half_even (q / 2 ^ e)) * 2 ^ e).
  pose proof (grid_rounding q e) as Hgrid. fold r in Hgrid.
  assert (Hk : (Binary64.floor_log2 q < 1023)%Z).
  { destruct (Z_lt_le_dec (Binary64.floor_log2 q) 1023) as [H|H];
      [exact H|].
    exfalso. pose proof (pow2_le 1023 _ H). lra. }
  assert (He : (e <= 970)%Z).
  { unfold e. destruct (ulp_exponent_cases q) as [H|H]; rewrite H; lia. }
  assert (HP : 2 ^ e <= 2 ^ 1023) by (apply pow2_le; lia).
  assert (Htop : 2 ^ 1024 == 2 * 2 ^ 1023) by (apply (pow2_succ 1023)).
  assert (Hr : Qabs r < 2 ^ 1024).
  { assert (Hr' : Qabs r <= Qabs q + 2 ^ e * (1 # 2)).
    { setoid_replace r with (q + (r - q)) at 1 by ring.
      eapply Qle_trans; [apply Qabs_triangle|]. lra. }
    pose proof (pow2_pos e). lra. }
  destruct (Qle_bool (2 ^ 1024) (Qabs r)) eqn:Hover.
  - exfalso. apply Qle_bool_iff in Hover. lra.
  - exists (Qred r). split; [reflexivity|].
    rewrite Qred_correct. exact Hgrid.
Qed.

Lemma double_error (q : Q) :
  Qabs q < 2 ^ 1023 ->
  exists r,
    Binary64.double q = Fin r
    /\ Qabs (r - q) <= 2 ^ (-53) * Qabs q + 2 ^ (-1075).
Proof.
  intros Hsmall.
  pose proof (pow2_pos (-53)) as Hu. pose proof (pow2_pos (-1075)) as Heta.
  pose proof (Qabs_nonneg q) as Hq0.
  destruct (Qis_zero q) eqn:Hz.
  - unfold Binary64.double. rewrite Hz.
    apply Qis_zero_true in Hz. exists 0. split; [reflexivity|].
    assert (Hd : Qabs (0 - q) == 0).
    { rewrite Hz. reflexivity. }
    rewrite Hd.
    assert (0 <= 2 ^ (-53) * Qabs q) by (apply Qmult_le_0_compat; lra).
    lra.
  - apply Qis_zero_false in Hz.
    destruct (double_grid q Hz Hsmall) as [r [Hr Hgrid]].
    pose proof (half_ulp_bound q Hz) as Hhalf.
    exists r. split; [exact Hr | lra].
Qed.

(** In the normal range the error is relative. *)
Lemma double_error_normal (q : Q) :
  2 ^ (-1022) <= Qabs q ->
  Qabs q < 2 ^ 1023 ->
  exists r,
    Binary64.double q = Fin r /\ Qabs (r - q) <= 2 ^ (-53) * Qabs q.
Proof.
  intros Hbig Hsmall.
  assert (Hz : ~ q == 0).
  { intros H0. pose proof (pow2_pos (-1022)).
    assert (Qabs q == 0) by (rewrite H0; reflexivity). lra. }
  destruct (double_grid q Hz Hsmall) as [r [Hr Hgrid]].
  destruct (floor_log2_spec q Hz) as [Hlo Hhi].
  assert (Hk : (-1022 <= Binary64.floor_log2 q)%Z).
  { destruct (Z_lt_le_dec (Binary64.floor_log2 q) (-1022)) as [H|H];
      [|exact H].
    exfalso.
    assert (H' : (Binary64.floor_log2 q + 1 <= -1022)%Z) by lia.
    pose proof (pow2_le _ _ H'). lra. }
  assert (He : Binary64.ulp_exponent q = (Binary64.floor_log2 q - 52)%Z)
    by (unfold Binary64.ulp_exponent; lia).
  exists r. split; [exact Hr|].
  eapply Qle_trans; [exact Hgrid|].
  rewrite He, <- pow2_pred.
  replace (Binary64.floor_log2 q - 52 - 1)%Z
    with (-53 + Binary64.floor_log2 q)%Z by lia.
  rewrite Qpower_plus by discriminate.
  rewrite !(Qmult_comm (2 ^ (-53))).
  apply Qmult_le_compat_r; [exact Hlo|].
  pose proof (pow2_pos (-53)). lra.
Qed.

Lemma double_nonneg (q : Q) :
  0 <= q ->
  Binary64.double q = PInf
  \/ exists r, Binary64.double q = Fin r /\ 0 <= r.
Proof.
  intros Hq. unfold Binary64.double.
  destruct (Qis_zero q); [right; exists 0; split; [reflexivity | lra]|].
  set (e := Binary64.ulp_exponent q).
  destruct (Qle_bool _ _).
  - left. unfold Qsign_pos.
    apply Qle_bool_iff in Hq. rewrite Hq. reflexivity.
  - right. eexists. split; [reflexivity|]. rewrite Qred_correct.
    pose proof (pow2_pos e) as HP.
    apply Qmult_le_0_compat; [|lra].
    change 0 with (inject_Z 0). rewrite <- Zle_Qle.
    apply round_half_even_nonneg.
    apply Qle_shift_div_l; [exact HP | lra].
Qed.

(** * The error of the inverted Z-height *)

Lemma pow2_m53 : 2 ^ (-53) == 1 # 9007199254740992.
Proof. reflexivity. Qed.

Lemma pow2_m50 : 2 ^ (-50) == 1 # 1125899906842624.
Proof. reflexivity. Qed.

Lemma eta_small : 0 < 2 ^ (-1075) /\ 2 ^ (-1075) <= 1 # 1208925819614629174706176.
Proof.
  split; [apply pow2_pos|].
  assert (H : 2 ^ (-80) == 1 # 1208925819614629174706176) by reflexivity.
  rewrite <- H. apply pow2_le. lia.
Qed.

Lemma eta_scaled : 2 ^ (-1075) * 2 ^ 1000 == 1 # 37778931862957161709568.
Proof.
  rewrite <- Qpower_plus by discriminate. reflexivity.
Qed.

Lemma big_bounds :
  1 <= 2 ^ 1000 /\ 2 ^ 1023 == 8388608 * 2 ^ 1000.
Proof.
  split.
  - change 1 with (2 ^ 0). apply pow2_le. lia.
  - change 1023%Z with (23 + 1000)%Z. rewrite Qpower_plus by discriminate.
    reflexivity.
Qed.

Lemma sub_finite (t i : Q) :
  Binary64.sub (Fin t) (Fin i) = Binary64.double (t - i).
Proof. reflexivity. Qed.

Lemma mul_finite (a b : Q) :
  Binary64.mul (Fin a) (Fin b) = Binary64.double (a * b).
Proof. reflexivity. Qed.

Lemma div_finite (a s : Q) :
  ~ s == 0 -> Binary64.div (Fin a) (Fin s) = Binary64.double (a / s).
Proof.
  intros Hs. unfold Binary64.div, f64_div.
  apply Qis_zero_false in Hs. rewrite Hs. reflexivity.
Qed.

(** The binary64 quotient of the binary64 difference. *)
Lemma quotient_error (t s i : Q) :
  ~ s == 0 ->
  Qabs (t - i) <= 2 ^ 1000 ->
  2 ^ (-1000) <= Qabs s ->
  Qabs ((t - i) / s) <= 2 ^ 1000 ->
  exists b,
    Binary64.div (Binary64.sub (Fin t) (Fin i)) (Fin s) = Fin b
    /\ Qabs (b - (t - i) / s)
       <= 3 * 2 ^ (-53) * Qabs ((t - i) / s) + 2 ^ (-74).
Proof.
  intros Hs Hdiff Hslope Hq.
  destruct big_bounds as [HT1 HT23]. destruct eta_small as [Heta0 Heta].
  pose proof eta_scaled as HetaT.
  assert (H74 : 2 ^ (-74) == 1 # 18889465931478580854784) by reflexivity.
  destruct (double_error (t - i)) as [a [Ha Herr_a]]; [lra|].
  rewrite sub_finite, Ha, div_finite by exact Hs.
  (* the error of the difference, divided by the slope *)
  set (q := (t - i) / s) in *.
  assert (Hw : Qabs (/ s) <= 2 ^ 1000).
  { rewrite Qabs_Qinv.
    assert (Hs0 : 0 < Qabs s) by (pose proof (pow2_pos (-1000)); lra).
    apply Qle_shift_inv_r; [exact Hs0|].
    assert (Hone : 2 ^ (-1000) * 2 ^ 1000 == 1).
    { rewrite <- Qpower_plus by discriminate. reflexivity. }
    assert (2 ^ (-1000) * 2 ^ 1000 <= Qabs s * 2 ^ 1000)
      by (apply Qmult_le_compat_r; lra).
    rewrite (Qmult_comm (2 ^ 1000)). lra. }
  assert (Hqabs : Qabs q == Qabs (t - i) * Qabs (/ s)).
  { unfold q, Qdiv. apply Qabs_Qmult. }
  assert (Hstep : Qabs (a / s - q)
                  <= 2 ^ (-53) * Qabs q + (1 # 37778931862957161709568)).
  { setoid_replace (a / s - q) with ((a - (t - i)) * / s)
      by (unfold q; field; exact Hs).
    rewrite Qabs_Qmult.
    pose proof (Qabs_nonneg (/ s)) as Hw0.
    pose proof (Qabs_nonneg (t - i)) as Hd0.
    eapply Qle_trans.
    { apply Qmult_le_compat_r; [exact Herr_a | exact Hw0]. }
    rewrite Hqabs.
    assert (2 ^ (-1075) * Qabs (/ s) <= 2 ^ (-1075) * 2 ^ 1000).
    { rewrite !(Qmult_comm (2 ^ (-1075))).
      apply Qmult_le_compat_r; lra. }
    rewrite pow2_m53 in *. lra. }
  pose proof (Qabs_nonneg q) as Hq0.
  assert (Has : Qabs (a / s)
                <= Qabs q + 2 ^ (-53) * Qabs q
                   + (1 # 37778931862957161709568)).
  { setoid_replace (a / s) with (q + (a / s - q)) by ring.
    eapply Qle_trans; [apply Qabs_triangle|]. lra. }
  rewrite pow2_m53 in *.
  destruct (double_error (a / s)) as [b [Hb Herr_b]]; [lra|].
  exists b. split; [exact Hb|].
  setoid_replace (b - q) with ((b - a / s) + (a / s - q)) by ring.
  eapply Qle_trans; [apply Qabs_triangle|].
  rewrite pow2_m53 in *. lra.
Qed.

(** Python's rounding of a built-in float to three places. *)
Lemma python_round_error (b : Q) :
  Qabs b <= 2 ^ 1001 ->
  exists z,
    Binary64.double (Qround_digits b 3) = Fin z
    /\ Qabs (z - b)
       <= (5 # 10000) + 3 * 2 ^ (-53) * Qabs b + 2 ^ (-60).
Proof.
  intros Hb.
  destruct big_bounds as [HT1 HT23]. destruct eta_small as [Heta0 Heta].
  assert (HT : 2 ^ 1001 == 2 * 2 ^ 1000) by (apply (pow2_succ 1000)).
  assert (H60 : 2 ^ (-60) == 1 # 1152921504606846976) by reflexivity.
  pose proof (Qround_digits_3_near b) as Hnear.
  pose proof (Qabs_nonneg b) as Hb0.
  assert (HR : Qabs (Qround_digits b 3) <= Qabs b + (5 # 10000)).
  { setoid_replace (Qround_digits b 3) with (b + (Qround_digits b 3 - b))
      at 1 by ring.
    eapply Qle_trans; [apply Qabs_triangle|]. lra. }
  destruct (double_error (Qround_digits b 3)) as [z [Hz Herr]]; [lra|].
  exists z. split; [exact Hz|].
  setoid_replace (z - b)
    with ((z - Qround_digits b 3) + (Qround_digits b 3 - b)) by ring.
  eapply Qle_trans; [apply Qabs_triangle|].
  rewrite pow2_m53 in *. lra.
Qed.

(** NumPy's rounding of a float to three places: multiply, round to an
    integer, divide. *)
Lemma numpy_round_error (b : Q) :
  Qabs b <= 2 ^ 1001 ->
  exists z,
    Binary64.div (Binary64.rint (Binary64.mul (Fin b) (Fin 1000))) (Fin 1000)
    = Fin z
    /\ Qabs (z - b)
       <= (5 # 10000) + 3 * 2 ^ (-53) * Qabs b + 2 ^ (-60).
Proof.
  intros Hb.
  destruct big_bounds as [HT1 HT23]. destruct eta_small as [Heta0 Heta].
  assert (HT : 2 ^ 1001 == 2 * 2 ^ 1000) by (apply (pow2_succ 1000)).
  assert (H60 : 2 ^ (-60) == 1 # 1152921504606846976) by reflexivity.
  pose proof (Qabs_nonneg b) as Hb0.
  assert (Hbs : Qabs (b * 1000) == 1000 * Qabs b).
  { rewrite Qabs_Qmult. change (Qabs 1000) with 1000. ring. }
  destruct (double_error (b * 1000)) as [c [Hc Herr_c]]; [lra|].
  rewrite mul_finite. change (inject_Z (10 ^ Z.of_nat 3)) with 1000 in *.
  rewrite Hc. cbn [Binary64.rint].
  set (d := inject_Z (round_half_even c)).
  pose proof (round_half_even_near c) as Hd. fold d in Hd.
  rewrite div_finite by discriminate.
  assert (Hcabs : Qabs c <= 1000 * Qabs b + 2 ^ (-53) * (1000 * Qabs b)
                           + 2 ^ (-1075)).
  { setoid_replace c with (b * 1000 + (c - b * 1000)) at 1 by ring.
    eapply Qle_trans; [apply Qabs_triangle|]. lra. }
  assert (Hdabs : Qabs d <= Qabs c + (1 # 2)).
  { setoid_replace d with (c + (d - c)) at 1 by ring.
    eapply Qle_trans; [apply Qabs_triangle|]. lra. }
  assert (Hquot : Qabs (d / 1000) == Qabs d * (1 # 1000)).
  { unfold Qdiv. rewrite Qabs_Qmult. reflexivity. }
  rewrite pow2_m53 in *.
  destruct (double_error (d / 1000)) as [z [Hz Herr_z]]; [lra|].
  exists z. split; [exact Hz|].
  assert (Hmid : Qabs (d / 1000 - b) <= (Qabs (d - c) + Qabs (c - b * 1000))
                                        * (1 # 1000)).
  { setoid_replace (d / 1000 - b)
      with (((d - c) + (c - b * 1000)) * (1 # 1000)) by field.
    rewrite Qabs_Qmult. change (Qabs (1 # 1000)) with (1 # 1000).
    apply Qmult_le_compat_r; [apply Qabs_triangle | discriminate]. }
  setoid_replace (z - b) with ((z - d / 1000) + (d / 1000 - b)) by ring.
  eapply Qle_trans; [apply Qabs_triangle|].
  rewrite pow2_m53 in *. lra.
Qed.

(** The value of a scalar after [round(_, 3)], by origin: the binary64
    number nearest to a multiple of 0.001. *)
Lemma py_round_finite (o : origin) (b : Q) :
  Qabs b <= 2 ^ 1001 ->
  exists z,
    Binary64.py_round (Scalar o (Fin b)) 3 = Scalar o (Fin z)
    /\ Qabs (z - b)
       <= (5 # 10000) + 3 * 2 ^ (-53) * Qabs b + 2 ^ (-60)
    /\ exists (k : Z) (x : Q), x == k # 1000 /\ Binary64.double x = Fin z.
Proof.
  intros Hb. destruct o.
  - destruct (python_round_error b Hb) as [z [Hz Herr]].
    exists z. unfold Binary64.py_round. cbn [origin_of value_of].
    rewrite Hz. split; [reflexivity|]. split; [exact Herr|].
    exists (round_half_even (b * 1000)), (Qround_digits b 3).
    split; [rewrite Qround_digits_3; reflexivity | exact Hz].
  - destruct (numpy_round_error b Hb) as [z [Hz Herr]].
    exists z. unfold Binary64.py_round. cbn [origin_of value_of].
    change (inject_Z (10 ^ Z.of_nat 3)) with 1000.
    rewrite Hz. split; [reflexivity|]. split; [exact Herr|].
    revert Hz. rewrite mul_finite.
    destruct (Binary64.double (b * 1000)) as [c| | |] eqn:Hc;
      cbn [Binary64.rint]; intros Hz; try discriminate.
    exists (round_half_even c), (inject_Z (round_half_even c) / 1000).
    split.
    + symmetry. apply (Qmake_Qdiv (round_half_even c) 1000).
    + rewrite <- div_finite by discriminate. exact Hz.
Qed.

(** The inverted Z-height in binary64: its value and its distance to the
    exact quotient. *)
Lemma z_height_error (ot os oc : origin) (t s i : Q) :
  ~ s == 0 ->
  Qabs (t - i) <= 2 ^ 1000 ->
  2 ^ (-1000) <= Qabs s ->
  Qabs ((t - i) / s) <= 2 ^ 1000 ->
  exists z,
    Binary64.calculate_z_height (Scalar ot (Fin t)) (Scalar os (Fin s))
                                (Scalar oc (Fin i))
    = Return (Scalar (join (join ot oc) os) (Fin z))
    /\ (exists (k : Z) (x : Q), x == k # 1000 /\ Binary64.double x = Fin z)
    /\ Qabs (z - (t - i) / s)
       <= (5 # 10000) + 2 ^ (-50) * (Qabs ((t - i) / s) + 1).
Proof.
  intros Hs Hdiff Hslope Hq.
  destruct (quotient_error t s i Hs Hdiff Hslope Hq) as [b [Hb Herr_b]].
  destruct big_bounds as [HT1 HT23].
  assert (HT : 2 ^ 1001 == 2 * 2 ^ 1000) by (apply (pow2_succ 1000)).
  assert (H74 : 2 ^ (-74) == 1 # 18889465931478580854784) by reflexivity.
  assert (H60 : 2 ^ (-60) == 1 # 1152921504606846976) by reflexivity.
  set (q := (t - i) / s) in *.
  pose proof (Qabs_nonneg q) as Hq0.
  assert (Hbabs : Qabs b <= Qabs q + 3 * 2 ^ (-53) * Qabs q + 2 ^ (-74)).
  { setoid_replace b with (q + (b - q)) at 1 by ring.
    eapply Qle_trans; [apply Qabs_triangle|]. lra. }
  rewrite pow2_m53 in *.
  destruct (py_round_finite (join (join ot oc) os) b) as [z [Hz [Herr_z Hk]]];
    [lra|].
  exists z. split.
  - unfold Binary64.calculate_z_height, Binary64.py_sub, Binary64.py_truediv.
    cbn [origin_of value_of].
    apply Qis_zero_false in Hs.
    destruct (join (join ot oc) os) eqn:Ho; rewrite ?Hs; cbn [bind];
      rewrite Hb, Hz; reflexivity.
  - split; [exact Hk|].
    setoid_replace (z - q) with ((z - b) + (b - q)) by ring.
    eapply Qle_trans; [apply Qabs_triangle|].
    rewrite pow2_m53, pow2_m50 in *. lra.
Qed.

(** * The rows in binary64 *)

Lemma b64_calculate_z_height_level (v : f64) (eq : eq_data) :
  Binary64.calculate_z_height (Scalar NumPy v) (Binary64.lit (slope eq))
                              (Binary64.lit (intercept eq))
  = Return (Binary64.z_height_of (Scalar NumPy v) eq).
Proof.
  unfold Binary64.calculate_z_height, Binary64.py_truediv, Binary64.py_sub,
    Binary64.z_height_of, Binary64.lit.
  cbn [origin_of value_of join].
  destruct (Binary64.double (slope eq)); reflexivity.
Qed.

Lemma b64_for_trials_run (v : f64) (its : list (string * eq_data)) :
  forall row_data zs,
    Binary64.for_trials (Scalar NumPy v) its row_data zs
    = Return (row_data ++ Binary64.z_heights (Scalar NumPy v) its,
              zs ++ Binary64.z_heights (Scalar NumPy v) its).
Proof.
  induction its as [|[name eq] rest IH]; intros row_data zs.
  - cbn. rewrite !app_nil_r. reflexivity.
  - cbn [Binary64.for_trials]. rewrite b64_calculate_z_height_level.
    cbn [bind]. rewrite IH. unfold Binary64.z_heights, items.
    cbn [map snd]. rewrite <- !app_assoc. reflexivity.
Qed.

Lemma b64_steepest_slope_nonempty (d : cell_equations) :
  d <> [] ->
  exists S, Binary64.steepest_slope d = Return S /\ origin_of S = Builtin
            /\ In S (map (fun it => Binary64.lit (slope (snd it))) (items d)).
Proof.
  intros Hd. destruct d as [|[name eq] rest]; [contradiction|].
  unfold Binary64.steepest_slope, values, items, py_max_scalar. cbn [map snd].
  eexists. split; [reflexivity|].
  set (l := map (fun eq0 => Binary64.lit (slope eq0)) (map snd rest)).
  assert (Hl : map (fun it => Binary64.lit (slope (snd it))) rest = l)
    by (unfold l; rewrite map_map; reflexivity).
  rewrite Hl. clear Hl.
  assert (Hgen : forall l x,
             origin_of x = Builtin ->
             Forall (fun y => origin_of y = Builtin) l ->
             origin_of (fold_left max_scalar_step l x) = Builtin
             /\ In (fold_left max_scalar_step l x) (x :: l)).
  { clear. induction l as [|y l IH]; intros x Hx Hall.
    - split; [exact Hx | left; reflexivity].
    - inversion Hall as [|? ? Hy Hrest]; subst. cbn [fold_left].
      unfold max_scalar_step at 2 4.
      destruct (f64_ltb (value_of x) (value_of y)).
      + destruct (IH y Hy Hrest) as [Ho Hin].
        split; [exact Ho|]. right. exact Hin.
      + destruct (IH x Hx Hrest) as [Ho Hin].
        split; [exact Ho|]. destruct Hin as [Hin|Hin]; [left; exact Hin|].
        right. right. exact Hin. }
  apply Hgen; [reflexivity|].
  unfold l. apply Forall_forall. intros y Hy.
  apply in_map_iff in Hy. destruct Hy as [e [<- _]]. reflexivity.
Qed.

Lemma b64_np_min_max_nonempty (zs : list scalar) :
  zs <> [] ->
  exists min_val max_val,
    np_min (np_array zs) = Return min_val
    /\ np_max (np_array zs) = Return max_val.
Proof.
  destruct zs as [|z zs]; [contradiction|]. intros _.
  eexists. eexists. split; reflexivity.
Qed.

Lemma b64_z_heights_nonempty (torque : scalar) (d : cell_equations) :
  d <> [] -> Binary64.z_heights torque d <> [].
Proof. destruct d; [contradiction | discriminate]. Qed.

Lemma b64_torque_row_run (d : cell_equations) (v : f64) :
  d <> [] ->
  exists (min_val max_val S : scalar),
    np_min (np_array (Binary64.z_heights (Scalar NumPy v) d)) = Return min_val
    /\ np_max (np_array (Binary64.z_heights (Scalar NumPy v) d))
       = Return max_val
    /\ Binary64.steepest_slope d = Return S
    /\ Binary64.torque_row d (Scalar NumPy v)
       = Return (Scalar NumPy v :: Binary64.z_heights (Scalar NumPy v) d
                 ++ [min_val; max_val; Binary64.py_sub max_val min_val;
                     Binary64.py_mul S (Binary64.py_sub max_val min_val)]).
Proof.
  intros Hd.
  destruct (b64_np_min_max_nonempty _ (b64_z_heights_nonempty (Scalar NumPy v) d Hd))
    as (mn & mx & Hmin & Hmax).
  destruct (b64_steepest_slope_nonempty d Hd) as (S & HS & _).
  exists mn, mx, S. split; [exact Hmin|]. split; [exact Hmax|].
  split; [exact HS|].
  unfold Binary64.torque_row. rewrite b64_for_trials_run. cbn [bind fst snd app].
  change (items d) with d. rewrite Hmin, Hmax. cbn [bind]. rewrite HS.
  cbn [bind]. reflexivity.
Qed.

Lemma b64_for_torques_run (d : cell_equations) (levels : list Q) :
  d <> [] ->
  forall acc,
  exists rows,
    Binary64.for_torques d levels acc = Return (acc ++ rows)
    /\ Forall2 (fun t r => Binary64.torque_row d (Binary64.level t) = Return r)
               levels rows.
Proof.
  intros Hd. induction levels as [|t rest IH]; intros acc.
  - exists []. rewrite app_nil_r. split; [reflexivity | constructor].
  - destruct (b64_torque_row_run d (Binary64.double t) Hd)
      as (mn & mx & S & _ & _ & _ & Hrow).
    destruct (IH (acc ++ [Scalar NumPy (Binary64.double t)
                            :: Binary64.z_heights
                                 (Scalar NumPy (Binary64.double t)) d
                            ++ [mn; mx; Binary64.py_sub mx mn;
                                Binary64.py_mul S (Binary64.py_sub mx mn)]]))
      as (rows & Hloop & Hall).
    eexists (_ :: rows). split.
    + cbn [Binary64.for_torques]. unfold Binary64.level at 1.
      rewrite Hrow. cbn [bind]. rewrite <- app_assoc in Hloop. exact Hloop.
    + constructor; [exact Hrow | exact Hall].
Qed.

Lemma b64_analyze_run (cell_name : string) (d : cell_equations) (st : store) :
  d <> [] ->
  exists rows,
    Binary64.analyze_cell_uncertainty cell_name d st
    = (Return rows,
       Store (torque_levels st) (all_cells_equations st)
             (stdout st ++ [Print (nl ++ "Analyzing " ++ cell_name ++ "...")
                                  []]))
    /\ Forall2 (fun t r => Binary64.torque_row d (Binary64.level t) = Return r)
               (torque_levels st) rows.
Proof.
  intros Hd.
  destruct (b64_for_torques_run d (torque_levels st) Hd []) as (rows & Hloop & Hall).
  exists rows. split; [|exact Hall].
  unfold Binary64.analyze_cell_uncertainty, bindM, print, read_torque_levels,
    lift.
  cbn [torque_levels]. rewrite Hloop. reflexivity.
Qed.

(** * The inversion in binary64: the claims *)

(** C2, as stated, fails in binary64: for torque 1, slope 1 and intercept
    -10^16 the difference 1 - (-10^16) is rounded to 10^16, and the function
    returns 10^16, which is 1 away from the quotient 10^16 + 1 (itself
    its own rounding to three decimal places). *)
Lemma z_height_far_from_the_quotient :
  Binary64.calculate_z_height (Binary64.lit 1) (Binary64.lit 1)
                              (Binary64.lit (- 10000000000000000))
  = Return (Scalar Builtin (Fin 10000000000000000))
  /\ Binary64.lit 1 = Scalar Builtin (Fin 1)
  /\ Binary64.lit (- 10000000000000000)
     = Scalar Builtin (Fin (- 10000000000000000))
  /\ Qround_digits ((1 - - 10000000000000000) / 1) 3 == 10000000000000001
  /\ ~ Qabs (10000000000000000 - (1 - - 10000000000000000) / 1)
       <= 5 # 10000.
Proof.
  split; [vm_compute; reflexivity|].
  split; [vm_compute; reflexivity|].
  split; [vm_compute; reflexivity|].
  split; [vm_compute; reflexivity|].
  intros H. vm_compute in H. apply H. reflexivity.
Qed.

(** C2, amended.  For binary64 numbers, a nonzero slope gives no exception:
    the function returns [round(_, 3)] of the binary64 quotient of the
    binary64 difference.  When the difference is at most [2^1000] in
    magnitude, the slope at least [2^-1000] and the exact quotient [q] at
    most [2^1000], the result is the binary64 number nearest to a multiple
    of 0.001 and is at most [0.0005 + 2^-50 (|q| + 1)] away from [q]. *)
Theorem z_height_is_the_rounded_binary64_quotient
    (ot os oc : origin) (torque slope intercept : Q) :
  ~ slope == 0 ->
  Binary64.calculate_z_height (Scalar ot (Fin torque)) (Scalar os (Fin slope))
                              (Scalar oc (Fin intercept))
  = Return
      (Binary64.py_round
         (Scalar (join (join ot oc) os)
                 (Binary64.div (Binary64.sub (Fin torque) (Fin intercept))
                               (Fin slope)))
         3)
  /\ (Qabs (torque - intercept) <= 2 ^ 1000 ->
      2 ^ (-1000) <= Qabs slope ->
      Qabs ((torque - intercept) / slope) <= 2 ^ 1000 ->
      exists z : Q,
        Binary64.calculate_z_height (Scalar ot (Fin torque))
                                    (Scalar os (Fin slope))
                                    (Scalar oc (Fin intercept))
        = Return (Scalar (join (join ot oc) os) (Fin z))
        /\ (exists (k : Z) (x : Q),
              x == k # 1000 /\ Binary64.double x = Fin z)
        /\ Qabs (z - (torque - intercept) / slope)
           <= (5 # 10000)
              + 2 ^ (-50) * (Qabs ((torque - intercept) / slope) + 1)).
Proof.
  intros Hs. split.
  - unfold Binary64.calculate_z_height, Binary64.py_sub, Binary64.py_truediv.
    cbn [origin_of value_of].
    apply Qis_zero_false in Hs.
    destruct (join (join ot oc) os); rewrite ?Hs; reflexivity.
  - intros Hdiff Hslope Hq.
    exact (z_height_error ot os oc torque slope intercept Hs Hdiff Hslope Hq).
Qed.

Lemma small_numbers_fit :
  ~ 117.25 == 0
  /\ Qabs (45 - - 7722.5) <= 2 ^ 1000
  /\ 2 ^ (-1000) <= Qabs 117.25
  /\ Qabs ((45 - - 7722.5) / 117.25) <= 2 ^ 1000.
Proof.
  split; [discriminate|].
  split; [apply Qle_bool_iff; vm_compute; reflexivity|].
  split; apply Qle_bool_iff; vm_compute; reflexivity.
Defined.

Lemma z_height_is_the_rounded_binary64_quotient_witness :
  exists z : Q,
    Binary64.calculate_z_height (Scalar NumPy (Fin 45))
                                (Scalar Builtin (Fin 117.25))
                                (Scalar Builtin (Fin (- 7722.5)))
    = Return (Scalar NumPy (Fin z))
    /\ (exists (k : Z) (x : Q), x == k # 1000 /\ Binary64.double x = Fin z)
    /\ Qabs (z - (45 - - 7722.5) / 117.25)
       <= (5 # 10000) + 2 ^ (-50) * (Qabs ((45 - - 7722.5) / 117.25) + 1).
Proof.
  destruct small_numbers_fit as [Hs [Hd [Hl Hq]]].
  exact (proj2 (z_height_is_the_rounded_binary64_quotient
                  NumPy Builtin Builtin 45 117.25 (- 7722.5) Hs)
               Hd Hl Hq).
Defined.

(** C4, as stated, fails in binary64: for torque 1, slope 1 and intercept
    -10^16 the function returns 10^16, and putting it back into the line
    gives 10^16 - 10^16 = 0, not 1: the residual is 1, and the tolerance
    [|slope| * 0.0005] is 0.0005. *)
Lemma round_trip_residual_of_one :
  Binary64.calculate_z_height (Binary64.lit 1) (Binary64.lit 1)
                              (Binary64.lit (- 10000000000000000))
  = Return (Scalar Builtin (Fin 10000000000000000))
  /\ ~ Qabs (1 * 10000000000000000 + - 10000000000000000 - 1)
       <= Qabs 1 * (5 # 10000).
Proof.
  split; [vm_compute; reflexivity|].
  intros H. vm_compute in H. apply H. reflexivity.
Qed.

(** C4, amended.  For binary64 numbers with a nonzero slope, a difference
    [torque - intercept] of at most [2^1000] in magnitude, a slope of at
    least [2^-1000] and an exact quotient [q] of at most [2^1000], the
    inverted Z-height put back into the line gives the torque up to the
    rounding of the Z-height and of the binary64 operations: the residual
    [slope * z + intercept - torque] is at most
    [|slope| * (0.0005 + 2^-50 (|q| + 1))]. *)
Theorem z_height_round_trip_in_binary64
    (ot os oc : origin) (torque slope intercept : Q) :
  ~ slope == 0 ->
  Qabs (torque - intercept) <= 2 ^ 1000 ->
  2 ^ (-1000) <= Qabs slope ->
  Qabs ((torque - intercept) / slope) <= 2 ^ 1000 ->
  exists z : Q,
    Binary64.calculate_z_height (Scalar ot (Fin torque)) (Scalar os (Fin slope))
                                (Scalar oc (Fin intercept))
    = Return (Scalar (join (join ot oc) os) (Fin z))
    /\ Qabs (slope * z + intercept - torque)
       <= Qabs slope
          * ((5 # 10000)
             + 2 ^ (-50) * (Qabs ((torque - intercept) / slope) + 1)).
Proof.
  intros Hs Hdiff Hslope Hq.
  destruct (z_height_error ot os oc torque slope intercept Hs Hdiff Hslope Hq)
    as [z [Hcall [_ Herr]]].
  exists z. split; [exact Hcall|].
  setoid_replace (slope * z + intercept - torque)
    with (slope * (z - (torque - intercept) / slope)) by (field; exact Hs).
  rewrite Qabs_Qmult. rewrite !(Qmult_comm (Qabs slope)).
  apply Qmult_le_compat_r; [exact Herr | apply Qabs_nonneg].
Qed.

Lemma z_height_round_trip_in_binary64_witness :
  exists z : Q,
    Binary64.calculate_z_height (Scalar NumPy (Fin 45))
                                (Scalar Builtin (Fin 117.25))
                                (Scalar Builtin (Fin (- 7722.5)))
    = Return (Scalar NumPy (Fin z))
    /\ Qabs (117.25 * z + - 7722.5 - 45)
       <= Qabs 117.25
          * ((5 # 10000)
             + 2 ^ (-50) * (Qabs ((45 - - 7722.5) / 117.25) + 1)).
Proof.
  apply (z_height_round_trip_in_binary64 NumPy Builtin Builtin 45 117.25
           (- 7722.5)).
  - discriminate.
  - apply Qle_bool_iff. vm_compute. reflexivity.
  - apply Qle_bool_iff. vm_compute. reflexivity.
  - apply Qle_bool_iff. vm_compute. reflexivity.
Defined.

Lemma double_not_nan (q : Q) : Binary64.double q <> NaN.
Proof.
  unfold Binary64.double. destruct (Qis_zero q); [discriminate|].
  destruct (Qle_bool _ _); [|discriminate].
  destruct (Qsign_pos q); discriminate.
Qed.

Lemma numpy_round_not_finite (x : f64) :
  is_finite x = false ->
  exists y, Binary64.py_round (Scalar NumPy x) 3 = Scalar NumPy y
            /\ is_finite y = false.
Proof.
  destruct x as [a| | |]; [discriminate| | |]; intros _;
    eexists; (split; [vm_compute; reflexivity | reflexivity]).
Qed.

Lemma zero_divisor_not_finite (v : f64) (s : Q) :
  s == 0 -> is_finite (Binary64.div v (Fin s)) = false.
Proof.
  intros Hs. apply Qis_zero_true in Hs.
  unfold Binary64.div, f64_div.
  destruct v as [a| | |]; rewrite ?Hs; try reflexivity.
  - unfold inf_of_sign. destruct (Qis_zero a); [reflexivity|].
    destruct (Qsign_pos a); reflexivity.
  - destruct (Qsign_pos s); reflexivity.
  - destruct (Qsign_pos s); reflexivity.
Qed.

(** C7, as stated, fails: the torque levels of both scripts are elements of
    a NumPy array, and with such a torque a zero slope does not raise; the
    inversion returns an infinity. *)
Lemma zero_slope_returns_infinity_in_binary64 :
  Binary64.calculate_z_height (Binary64.level 45) (Binary64.lit 0)
                              (Binary64.lit (- 7722.002))
  = Return (Scalar NumPy PInf)
  /\ Binary64.calculate_z_height (Binary64.level 45) (Binary64.lit 0)
                                 (Binary64.lit (- 7722.002))
     <> Raise ZeroDivisionError.
Proof.
  split; [vm_compute; reflexivity|].
  intros H. vm_compute in H. discriminate.
Qed.

(** C7, amended.  With a zero slope the inversion raises
    [ZeroDivisionError] when torque, slope and intercept are all built-in
    floats; when one of them is a NumPy scalar it raises nothing and returns
    a value that is not finite (an infinity or NaN).  With a nonzero slope
    no exception is raised and a value is returned; the value is a number
    when the difference [torque - intercept] is at most [2^1000] in
    magnitude, the slope at least [2^-1000] and the quotient at most
    [2^1000], but not always: for the torque level 45, the intercept 0 and
    the slope [1e-320], a binary64 number that is not zero, the quotient is
    beyond the largest binary64 number and the value returned is an
    infinity. *)
Theorem zero_slope_behaviour_in_binary64
    (ot os oc : origin) (torque slope intercept : Q) :
  let call :=
    Binary64.calculate_z_height (Scalar ot (Fin torque)) (Scalar os (Fin slope))
                                (Scalar oc (Fin intercept)) in
  (slope == 0 -> join (join ot oc) os = Builtin ->
   call = Raise ZeroDivisionError)
  /\ (slope == 0 -> join (join ot oc) os = NumPy ->
      exists x : f64, call = Return (Scalar NumPy x) /\ is_finite x = false)
  /\ (~ slope == 0 ->
      exists x : f64, call = Return (Scalar (join (join ot oc) os) x))
  /\ (~ slope == 0 ->
      Qabs (torque - intercept) <= 2 ^ 1000 ->
      2 ^ (-1000) <= Qabs slope ->
      Qabs ((torque - intercept) / slope) <= 2 ^ 1000 ->
      exists z : Q, call = Return (Scalar (join (join ot oc) os) (Fin z)))
  /\ (exists tiny : Q,
        Binary64.lit (1 # 10 ^ 320) = Scalar Builtin (Fin tiny)
        /\ 0 < tiny
        /\ Binary64.calculate_z_height (Binary64.level 45)
                                       (Scalar Builtin (Fin tiny))
                                       (Binary64.lit 0)
           = Return (Scalar NumPy PInf)).
Proof.
  intros call. unfold call. clear call.
  unfold Binary64.calculate_z_height, Binary64.py_sub, Binary64.py_truediv.
  cbn [origin_of value_of].
  split; [|split; [|split; [|split]]].
  - intros Hs Ho. rewrite Ho. apply Qis_zero_true in Hs. rewrite Hs.
    reflexivity.
  - intros Hs Ho. rewrite Ho. cbn [bind].
    destruct (numpy_round_not_finite
                (Binary64.div (Binary64.sub (Fin torque) (Fin intercept))
                              (Fin slope)))
      as [y [Hy Hfin]].
    { apply zero_divisor_not_finite. exact Hs. }
    exists y. rewrite Hy. split; [reflexivity | exact Hfin].
  - intros Hs. apply Qis_zero_false in Hs.
    destruct (join (join ot oc) os) eqn:Ho; rewrite ?Hs; cbn [bind];
      eexists; unfold Binary64.py_round; cbn [origin_of]; reflexivity.
  - intros Hs Hdiff Hslope Hq.
    destruct (z_height_error ot os oc torque slope intercept Hs Hdiff Hslope
                             Hq) as [z [Hcall _]].
    exists z.
    unfold Binary64.calculate_z_height, Binary64.py_sub, Binary64.py_truediv
      in Hcall.
    cbn [origin_of value_of] in Hcall. exact Hcall.
  - eexists. split; [vm_compute; reflexivity|].
    split; [reflexivity | vm_compute; reflexivity].
Qed.

Lemma zero_slope_behaviour_in_binary64_witness :
  Binary64.calculate_z_height (Scalar Builtin (Fin 45)) (Scalar Builtin (Fin 0))
                              (Scalar Builtin (Fin 1))
  = Raise ZeroDivisionError
  /\ exists z : Q,
       Binary64.calculate_z_height (Scalar NumPy (Fin 45))
                                   (Scalar Builtin (Fin 117.25))
                                   (Scalar Builtin (Fin (- 7722.5)))
       = Return (Scalar NumPy (Fin z)).
Proof.
  split.
  - apply (proj1 (zero_slope_behaviour_in_binary64 Builtin Builtin Builtin
                    45 0 1)); reflexivity.
  - apply (proj1 (proj2 (proj2 (proj2
             (zero_slope_behaviour_in_binary64 NumPy Builtin Builtin
                45 117.25 (- 7722.5)))))).
    + discriminate.
    + apply Qle_bool_iff. vm_compute. reflexivity.
    + apply Qle_bool_iff. vm_compute. reflexivity.
    + apply Qle_bool_iff. vm_compute. reflexivity.
Defined.

(** * The loop of [Uncertainity.py] in binary64 *)

Lemma f64_eqb_refl (x : f64) : x <> NaN -> f64_eqb x x = true.
Proof.
  destruct x as [a| | |]; intros H; try reflexivity.
  - cbn. apply Qeq_bool_iff. reflexivity.
  - contradiction H. reflexivity.
Qed.

Lemma b64_steepest_trial_nonempty (d : cell_equations) :
  d <> [] ->
  exists (S : scalar) (name : string),
    Binary64.steepest_slope d = Return S
    /\ Binary64.Row1.steepest_trial_of d S = Return name.
Proof.
  intros Hd. destruct (b64_steepest_slope_nonempty d Hd) as (S & HS & _ & Hin).
  exists S. apply in_map_iff in Hin. destruct Hin as [it [Hit Hin]].
  unfold Binary64.Row1.steepest_trial_of.
  destruct (filter _ (items d)) as [|it0 rest] eqn:Hf.
  - exfalso.
    assert (Hmem : In it (filter
                     (fun it => f64_eqb (Binary64.double (slope (snd it)))
                                        (value_of S)) (items d))).
    { apply filter_In. split; [exact Hin|].
      rewrite <- Hit. cbn [Binary64.lit value_of].
      apply f64_eqb_refl. apply double_not_nan. }
    rewrite Hf in Hmem. exact Hmem.
  - exists (fst it0). split; [exact HS | reflexivity].
Qed.

Lemma b64_row1_for_trials_run (v : f64) (its : list (string * eq_data)) :
  forall row_data zs st,
  exists st1,
    Binary64.Row1.for_trials (Scalar NumPy v) its row_data zs st
    = (Return (row_data ++ Binary64.z_heights (Scalar NumPy v) its,
               zs ++ Binary64.z_heights (Scalar NumPy v) its),
       st1)
    /\ same_inputs st st1.
Proof.
  induction its as [|[name eq] rest IH]; intros row_data zs st.
  - exists st. cbn. rewrite !app_nil_r. split; [reflexivity|].
    split; reflexivity.
  - cbn [Binary64.Row1.for_trials]. unfold bindM at 1, lift.
    rewrite b64_calculate_z_height_level. unfold bindM at 1, print.
    match goal with
    | |- context [Binary64.Row1.for_trials _ rest ?r ?z ?s] =>
        destruct (IH r z s) as [st1 [Hrun Hsame]]
    end.
    exists st1. rewrite Hrun. unfold Binary64.z_heights, items.
    cbn [map snd]. rewrite <- !app_assoc. split; [reflexivity|].
    destruct Hsame as [H1 H2]. split; [exact H1 | exact H2].
Qed.

Lemma b64_row1_torque_iteration_run (d : cell_equations) (v : f64) :
  d <> [] ->
  exists (r : row) (name : string),
    Binary64.torque_row d (Scalar NumPy v) = Return r
    /\ forall st, exists st1,
         Binary64.Row1.torque_iteration d (Scalar NumPy v) st
         = (Return (r, Binary64.z_heights (Scalar NumPy v) d, name), st1)
         /\ same_inputs st st1.
Proof.
  intros Hd.
  destruct (b64_torque_row_run d v Hd) as (mn & mx & S & Hmin & Hmax & HS & Hrow).
  destruct (b64_steepest_trial_nonempty d Hd) as (S' & name & HS' & Htrial).
  assert (S' = S) by congruence. subst S'.
  eexists _, name. split; [exact Hrow|]. intros st.
  unfold Binary64.Row1.torque_iteration. unfold bindM at 1. unfold print at 1.
  unfold bindM at 1.
  match goal with
  | |- context [Binary64.Row1.for_trials _ _ ?r ?z ?s] =>
      destruct (b64_row1_for_trials_run v (items d) r z s)
        as [st1 [Hrun Hsame]]
  end.
  rewrite Hrun. cbn [fst snd app]. change (items d) with d.
  unfold bindM, lift, print, ret. rewrite Hmin, Hmax, HS, Htrial.
  eexists. split; [reflexivity|].
  destruct Hsame as [H1 H2]. cbn in H1, H2. split; cbn; assumption.
Qed.

(** The loop of the script returns the rows of the loop of
    [analyze_cell_uncertainty]. *)
Lemma b64_row1_for_torques_run (d : cell_equations) (levels : list Q) :
  d <> [] ->
  forall acc matrix trial st,
  exists rows matrix1 trial1 st1,
    Binary64.for_torques d levels acc = Return (acc ++ rows)
    /\ Forall2 (fun t r => Binary64.torque_row d (Binary64.level t) = Return r)
               levels rows
    /\ Binary64.Row1.for_torques d levels acc matrix trial st
       = (Return (acc ++ rows, matrix1, trial1), st1)
    /\ same_inputs st st1.
Proof.
  intros Hd.
  induction levels as [|t rest IH]; intros acc matrix trial st.
  - exists [], matrix, trial, st. rewrite !app_nil_r.
    split; [reflexivity|]. split; [constructor|].
    split; [reflexivity | split; reflexivity].
  - destruct (b64_row1_torque_iteration_run d (Binary64.double t) Hd)
      as (r & name & Hrow & Hrun).
    destruct (Hrun st) as [st1 [Hit Hsame1]].
    destruct (IH (acc ++ [r])
                 (matrix ++ [Binary64.z_heights
                               (Scalar NumPy (Binary64.double t)) d])
                 (Some name) st1)
      as (rows & matrix1 & trial1 & st2 & Hloop & Hall & Hloop1 & Hsame2).
    exists (r :: rows), matrix1, trial1, st2. split; [|split; [|split]].
    + cbn [Binary64.for_torques]. unfold Binary64.level at 1.
      rewrite Hrow. cbn [bind].
      rewrite <- app_assoc in Hloop. exact Hloop.
    + constructor; assumption.
    + cbn [Binary64.Row1.for_torques]. unfold bindM at 1.
      unfold Binary64.level at 1. rewrite Hit.
      cbn [fst snd]. rewrite <- app_assoc in Hloop1. exact Hloop1.
    + destruct Hsame1 as [A1 A2]. destruct Hsame2 as [B1 B2].
      split; congruence.
Qed.

(** * The spread of the Z-heights in binary64 *)

Lemma finite_scalars (zs : list scalar) :
  Forall (fun z => origin_of z = NumPy) zs ->
  Forall (fun z => is_finite (value_of z) = true) zs ->
  exists qs, zs = map np qs.
Proof.
  induction zs as [|[o v] zs IH]; intros Ho Hf.
  - exists []. reflexivity.
  - inversion Ho as [|? ? Ho1 Ho2]; subst.
    inversion Hf as [|? ? Hf1 Hf2]; subst.
    destruct (IH Ho2 Hf2) as [qs ->].
    cbn in Ho1, Hf1. subst o. destruct v as [q| | |]; try discriminate.
    exists (q :: qs). reflexivity.
Qed.

Lemma b64_z_heights_numpy (torque : scalar) (d : cell_equations) :
  Forall (fun z => origin_of z = NumPy) (Binary64.z_heights torque d).
Proof.
  unfold Binary64.z_heights. apply Forall_forall. intros z Hz.
  apply in_map_iff in Hz. destruct Hz as [it [<- _]]. reflexivity.
Qed.

Lemma np_array_numbers (qs : list Q) : np_array (map np qs) = map Fin qs.
Proof.
  unfold np_array. rewrite map_map. apply map_ext. reflexivity.
Qed.

Lemma range_not_negative (m M : Q) :
  m <= M -> f64_leb (Fin 0) (Binary64.sub (Fin M) (Fin m)) = true.
Proof.
  intros H. rewrite sub_finite.
  destruct (double_nonneg (M - m)) as [Hinf|[r [Hr Hr0]]]; [lra| |].
  - rewrite Hinf. reflexivity.
  - rewrite Hr. cbn. apply Qle_bool_iff. exact Hr0.
Qed.

(** The statistics of a row whose Z-heights are numbers. *)
Lemma b64_finite_row_spread (d : cell_equations) (v : f64) (r : row) :
  d <> [] ->
  Binary64.torque_row d (Scalar NumPy v) = Return r ->
  exists (min_val max_val range_val u : scalar),
    r = Scalar NumPy v :: Binary64.z_heights (Scalar NumPy v) d
        ++ [min_val; max_val; range_val; u]
    /\ (Forall (fun z => is_finite (value_of z) = true)
               (Binary64.z_heights (Scalar NumPy v) d) ->
        In min_val (Binary64.z_heights (Scalar NumPy v) d)
        /\ In max_val (Binary64.z_heights (Scalar NumPy v) d)
        /\ Forall (fun z =>
                     f64_leb (value_of min_val) (value_of z) = true
                     /\ f64_leb (value_of z) (value_of max_val) = true)
                  (Binary64.z_heights (Scalar NumPy v) d)
        /\ f64_leb (value_of min_val) (value_of max_val) = true
        /\ f64_leb (Fin 0) (value_of range_val) = true
        /\ spread_ok r = true).
Proof.
  intros Hd Hrow.
  destruct (b64_torque_row_run d v Hd) as (mn & mx & S & Hmin & Hmax & HS & Hrow').
  rewrite Hrow in Hrow'. injection Hrow' as ->.
  exists mn, mx, (Binary64.py_sub mx mn),
         (Binary64.py_mul S (Binary64.py_sub mx mn)).
  split; [reflexivity|]. intros Hfin.
  destruct (finite_scalars _ (b64_z_heights_numpy (Scalar NumPy v) d) Hfin)
    as [qs Hqs].
  rewrite Hqs in *.
  destruct qs as [|x qs].
  { exfalso. apply (b64_z_heights_nonempty (Scalar NumPy v) d Hd).
    exact Hqs. }
  rewrite np_array_numbers in Hmin, Hmax.
  cbn [map np_min np_max] in Hmin, Hmax.
  destruct (fold_minimum_finite qs x) as (m & Hm & Hinm & Hallm).
  destruct (fold_maximum_finite qs x) as (M & HM & HinM & HallM).
  rewrite Hm in Hmin. rewrite HM in Hmax.
  injection Hmin as <-. injection Hmax as <-.
  assert (HmM : m <= M).
  { inversion Hallm; subst. inversion HallM; subst. lra. }
  split; [apply (in_map np) in Hinm; exact Hinm|].
  split; [apply (in_map np) in HinM; exact HinM|].
  split.
  { apply Forall_forall. intros z Hz. apply in_map_iff in Hz.
    destruct Hz as [q [<- Hq]]. rewrite Forall_forall in Hallm, HallM.
    cbn. split; apply Qle_bool_iff; [apply Hallm | apply HallM]; exact Hq. }
  split; [cbn; apply Qle_bool_iff; exact HmM|].
  split; [cbn; apply range_not_negative; exact HmM|].
  unfold spread_ok.
  rewrite app_comm_cons.
  destruct (row_from_end_stats
              (Scalar NumPy v :: map np (x :: qs))
              (Scalar NumPy (Fin m)) (Scalar NumPy (Fin M))
              (Binary64.py_sub (Scalar NumPy (Fin M)) (Scalar NumPy (Fin m)))
              (Binary64.py_mul S (Binary64.py_sub (Scalar NumPy (Fin M))
                                                  (Scalar NumPy (Fin m)))))
    as (E4 & E3 & E2 & _).
  rewrite E4, E3, E2. cbn [value_of Binary64.py_sub].
  rewrite range_not_negative by exact HmM. cbn.
  apply Qle_bool_iff. exact HmM.
Qed.

(** C5, as stated, fails: a cell with two trials of slope [1e-320], a
    binary64 number that is not zero.  Both Z-heights at torque 45 are
    beyond the largest binary64 number, hence infinite, so the range, their
    difference, is NaN, and [range >= 0] is false. *)
Lemma tiny_slopes_cell_spread_fails :
  (2 <= List.length tiny_slopes_cell)%nat
  /\ Forall (fun it =>
               exists s, Binary64.lit (slope (snd it)) = Scalar Builtin (Fin s)
                         /\ 0 < s)
            tiny_slopes_cell
  /\ exists (r : row) (st1 : store),
       Binary64.analyze_cell_uncertainty "Cell 1" tiny_slopes_cell
         (Store [45] [("Cell 1"%string, tiny_slopes_cell)] [])
       = (Return [r], st1)
       /\ row_from_end r 4 = Return (Scalar NumPy PInf)
       /\ row_from_end r 3 = Return (Scalar NumPy PInf)
       /\ row_from_end r 2 = Return (Scalar NumPy NaN)
       /\ spread_ok r = false.
Proof.
  split; [cbn; lia|]. split.
  - repeat constructor;
      (eexists; split; [vm_compute; reflexivity | reflexivity]).
  - eexists. eexists. split; [vm_compute; reflexivity|].
    repeat split; vm_compute; reflexivity.
Qed.

(** C5, amended.  For every cell with at least one trial (so also with at
    least 2), [analyze_cell_uncertainty] returns one row per torque level,
    and the loop of [Uncertainity.py] returns the same rows.  In every row
    whose Z-heights are all numbers (finite: no Z-height beyond the binary64
    range, no division by a zero slope), the minimum and the maximum are
    Z-heights of the row that bound all of them, [max >= min], and the
    range, their binary64 difference, is [>= 0]. *)
Theorem spread_is_ordered_for_finite_z_heights
    (cell_name : string) (d : cell_equations) (st : store) :
  d <> [] ->
  exists (rows : list row) (st1 : store),
    Binary64.analyze_cell_uncertainty cell_name d st = (Return rows, st1)
    /\ (exists matrix trial st2,
          Binary64.Row1.for_torques d (torque_levels st) [] [] None st
          = (Return (rows, matrix, trial), st2))
    /\ Forall2
         (fun torque r =>
            let zs := Binary64.z_heights (Binary64.level torque) d in
            exists min_val max_val range_val u : scalar,
              r = Binary64.level torque :: zs
                  ++ [min_val; max_val; range_val; u]
              /\ (Forall (fun z => is_finite (value_of z) = true) zs ->
                  In min_val zs /\ In max_val zs
                  /\ Forall (fun z =>
                               f64_leb (value_of min_val) (value_of z) = true
                               /\ f64_leb (value_of z) (value_of max_val)
                                  = true) zs
                  /\ f64_leb (value_of min_val) (value_of max_val) = true
                  /\ f64_leb (Fin 0) (value_of range_val) = true
                  /\ spread_ok r = true))
         (torque_levels st) rows.
Proof.
  intros Hd.
  destruct (b64_analyze_run cell_name d st Hd) as (rows & Hrun & Hall).
  destruct (b64_row1_for_torques_run d (torque_levels st) Hd [] [] None st)
    as (rows' & matrix & trial & st2 & Hloop & Hall' & Hloop1 & _).
  assert (Hsame : rows' = rows).
  { unfold Binary64.analyze_cell_uncertainty, bindM, print,
      read_torque_levels, lift in Hrun.
    cbn [torque_levels] in Hrun. rewrite Hloop in Hrun.
    cbn [app] in Hrun. congruence. }
  subst rows'. cbn [app] in Hloop1.
  exists rows. eexists. split; [exact Hrun|].
  split; [exists matrix, trial, st2; exact Hloop1|].
  clear Hrun Hloop Hloop1 Hall'.
  induction Hall as [|t r levels rows Hrow _ IH]; constructor; [|exact IH].
  cbv zeta. unfold Binary64.level in *.
  exact (b64_finite_row_spread d (Binary64.double t) r Hd Hrow).
Qed.

Lemma spread_is_ordered_for_finite_z_heights_witness :
  exists (rows : list row) (st1 : store),
    Binary64.analyze_cell_uncertainty "Cell 1" tied_slopes_cell sample_store
    = (Return rows, st1)
    /\ Forall2
         (fun torque r =>
            Forall (fun z => is_finite (value_of z) = true)
                   (Binary64.z_heights (Binary64.level torque)
                                       tied_slopes_cell)
            /\ spread_ok r = true)
         (torque_levels sample_store) rows.
Proof.
  destruct (spread_is_ordered_for_finite_z_heights
              "Cell 1" tied_slopes_cell sample_store)
    as (rows & st1 & Hrun & _ & Hall); [discriminate|].
  exists rows, st1. split; [exact Hrun|].
  change (torque_levels sample_store) with [45; 47] in *.
  inversion Hall as [|t1 r1 l1 l1' (? & ? & ? & ? & _ & H1) Hrest]; subst.
  inversion Hrest as [|t2 r2 l2 l2' (? & ? & ? & ? & _ & H2) Hnil]; subst.
  inversion Hnil; subst.
  assert (F1 : Forall (fun z => is_finite (value_of z) = true)
                 (Binary64.z_heights (Binary64.level 45) tied_slopes_cell))
    by (vm_compute; repeat constructor).
  assert (F2 : Forall (fun z => is_finite (value_of z) = true)
                 (Binary64.z_heights (Binary64.level 47) tied_slopes_cell))
    by (vm_compute; repeat constructor).
  constructor; [split; [exact F1 | apply H1; exact F1]|].
  constructor; [split; [exact F2 | apply H2; exact F2]|].
  constructor.
Defined.

(** * The uncertainty and the range in binary64 *)

(** Two products with the same factor, each rounded with a relative error
    of at most [2^-53]: their ratio is the ratio of the other factors up to
    a relative error of [2^-51]. *)
Lemma ratio_error (A B x y : Q) :
  ~ A == 0 -> ~ B == 0 ->
  Qabs (x - A) <= 2 ^ (-53) * Qabs A ->
  Qabs (y - B) <= 2 ^ (-53) * Qabs B ->
  ~ y == 0 /\ Qabs (x / y - A / B) <= 2 ^ (-51) * Qabs (A / B).
Proof.
  intros HA HB Hx Hy.
  assert (H51 : 2 ^ (-51) == 1 # 2251799813685248) by reflexivity.
  rewrite pow2_m53 in *. rewrite H51.
  assert (Ha : 0 < Qabs A).
  { destruct (Qlt_le_dec 0 (Qabs A)) as [H|H]; [exact H|].
    exfalso. apply HA. pose proof (Qabs_nonneg A).
    apply Qabs_Qle_condition in H. lra. }
  assert (Hb : 0 < Qabs B).
  { destruct (Qlt_le_dec 0 (Qabs B)) as [H|H]; [exact H|].
    exfalso. apply HB. pose proof (Qabs_nonneg B).
    apply Qabs_Qle_condition in H. lra. }
  assert (Hylow : Qabs B <= 2 * Qabs y).
  { assert (Qabs B <= Qabs y + Qabs (y - B)).
    { setoid_replace B with (y + (B - y)) at 1 by ring.
      eapply Qle_trans; [apply Qabs_triangle|].
      rewrite (Qabs_Qminus B y). lra. }
    lra. }
  assert (Hy0 : ~ y == 0).
  { intros H0. assert (Qabs y == 0) by (rewrite H0; reflexivity). lra. }
  split; [exact Hy0|].
  assert (Hypos : 0 < Qabs y) by lra.
  set (N := (x - A) * B - (y - B) * A).
  assert (HN : Qabs N <= 2 * (1 # 9007199254740992) * (Qabs A * Qabs B)).
  { unfold N.
    assert (H1 : Qabs ((x - A) * B) <= (1 # 9007199254740992) * Qabs A * Qabs B).
    { rewrite Qabs_Qmult. apply Qmult_le_compat_r; [exact Hx | lra]. }
    assert (H2 : Qabs ((y - B) * A) <= (1 # 9007199254740992) * Qabs B * Qabs A).
    { rewrite Qabs_Qmult. apply Qmult_le_compat_r; [exact Hy | lra]. }
    setoid_replace ((x - A) * B - (y - B) * A)
      with ((x - A) * B + - ((y - B) * A)) by ring.
    eapply Qle_trans; [apply Qabs_triangle|].
    rewrite Qabs_opp. lra. }
  setoid_replace (x / y - A / B) with (N / (y * B))
    by (unfold N; field; split; assumption).
  assert (Hquot : Qabs (N / (y * B)) == Qabs N / (Qabs y * Qabs B)).
  { unfold Qdiv. rewrite Qabs_Qmult, Qabs_Qinv, Qabs_Qmult. reflexivity. }
  assert (HAB : Qabs (A / B) == Qabs A / Qabs B).
  { unfold Qdiv. rewrite Qabs_Qmult, Qabs_Qinv. reflexivity. }
  rewrite Hquot, HAB.
  assert (Hden : 0 < Qabs y * Qabs B) by (apply Qmult_lt_0_compat; lra).
  apply Qle_shift_div_r; [exact Hden|].
  setoid_replace ((1 # 2251799813685248) * (Qabs A / Qabs B)
                  * (Qabs y * Qabs B))
    with ((1 # 2251799813685248) * (Qabs A * Qabs y)) by (field; lra).
  assert (Hprod : Qabs A * Qabs B <= Qabs A * (2 * Qabs y)).
  { rewrite !(Qmult_comm (Qabs A)).
    apply Qmult_le_compat_r; [exact Hylow | lra]. }
  lra.
Qed.

Lemma Forall2_rows {A B : Type} (R : A -> B -> Prop) (l : list A)
    (l' : list B) (y : B) :
  Forall2 R l l' -> In y l' -> exists x, In x l /\ R x y.
Proof.
  induction 1 as [|a b l l' Hab _ IH]; intros Hin; [contradiction|].
  destruct Hin as [<-|Hin].
  - exists a. split; [left; reflexivity | exact Hab].
  - destruct (IH Hin) as [x [Hx Hr]]. exists x. split; [right|]; assumption.
Qed.

(** C9, as stated, fails in binary64 on the numbers of [Uncertainity.py]
    itself: at the torque levels 45 and 49 of Cell 1 the ranges are
    0.1629999999999967 and 0.1530000000000058 and the uncertainties
    19.103599999999613 and 17.93160000000068; the ratio of the uncertainties
    is not the ratio of the ranges, neither as exact quotients nor as
    binary64 quotients. *)
Lemma uncertainty_ratios_differ_in_the_script :
  exists (d : cell_equations) (rows : list row) (matrix : list (list scalar))
         (trial : option string) (st0 st1 : store) (r1 r2 : row)
         (a b x y : Q),
    Row1.cell_1_equations Row1.initial_store = (Return d, st0)
    /\ Binary64.Row1.for_torques d (torque_levels Row1.initial_store)
                                 [] [] None Row1.initial_store
       = (Return (rows, matrix, trial), st1)
    /\ nth_error rows 0 = Some r1 /\ nth_error rows 2 = Some r2
    /\ row_from_end r1 2 = Return (Scalar NumPy (Fin a))
    /\ row_from_end r1 1 = Return (Scalar NumPy (Fin x))
    /\ row_from_end r2 2 = Return (Scalar NumPy (Fin b))
    /\ row_from_end r2 1 = Return (Scalar NumPy (Fin y))
    /\ a == 11470105300959 # 70368744177664
    /\ b == 10766417859183 # 70368744177664
    /\ ~ a == 0 /\ ~ b == 0
    /\ ~ x / y == a / b
    /\ Binary64.div (Fin x) (Fin y) <> Binary64.div (Fin a) (Fin b).
Proof.
  do 12 eexists.
  split; [vm_compute; reflexivity|].
  split; [vm_compute; reflexivity|].
  split; [reflexivity|]. split; [reflexivity|].
  split; [vm_compute; reflexivity|].
  split; [vm_compute; reflexivity|].
  split; [vm_compute; reflexivity|].
  split; [vm_compute; reflexivity|].
  split; [reflexivity|]. split; [reflexivity|].
  split; [discriminate|]. split; [discriminate|].
  split.
  - intros H. vm_compute in H. discriminate.
  - intros H. vm_compute in H. discriminate.
Qed.

(** C9, amended.  Within one cell the steepest slope used for the
    uncertainty is the same for every torque level: every row's uncertainty
    is the binary64 product of that one slope and the row's range, in the
    rows of [analyze_cell_uncertainty] and of the loop of [Uncertainity.py]
    alike.  So for two rows whose products slope times range lie in the
    normal range of binary64 (between [2^-1022] and [2^1023] in magnitude,
    which makes the ranges nonzero), the ratio of the uncertainties is the
    ratio of the ranges up to the rounding of the two products: a relative
    error of at most [2^-51]. *)
Theorem uncertainty_ratio_is_nearly_the_range_ratio
    (cell_name : string) (d : cell_equations) (st : store) :
  d <> [] ->
  exists (rows : list row) (st1 : store) (S : scalar),
    Binary64.analyze_cell_uncertainty cell_name d st = (Return rows, st1)
    /\ (exists matrix trial st2,
          Binary64.Row1.for_torques d (torque_levels st) [] [] None st
          = (Return (rows, matrix, trial), st2))
    /\ List.length rows = List.length (torque_levels st)
    /\ Binary64.steepest_slope d = Return S
    /\ (forall r, In r rows ->
        exists range_val,
          row_from_end r 2 = Return range_val
          /\ row_from_end r 1 = Return (Binary64.py_mul S range_val))
    /\ (forall r1 r2 range1 range2 sigma a b,
          In r1 rows -> In r2 rows ->
          row_from_end r1 2 = Return range1 ->
          row_from_end r2 2 = Return range2 ->
          value_of S = Fin sigma ->
          value_of range1 = Fin a -> value_of range2 = Fin b ->
          2 ^ (-1022) <= Qabs (sigma * a) -> Qabs (sigma * a) < 2 ^ 1023 ->
          2 ^ (-1022) <= Qabs (sigma * b) -> Qabs (sigma * b) < 2 ^ 1023 ->
          exists x y,
            row_from_end r1 1
            = Return (Scalar (join (origin_of S) (origin_of range1)) (Fin x))
            /\ row_from_end r2 1
               = Return (Scalar (join (origin_of S) (origin_of range2))
                                (Fin y))
            /\ ~ y == 0
            /\ Qabs (x / y - a / b) <= 2 ^ (-51) * Qabs (a / b)).
Proof.
  intros Hd.
  destruct (b64_analyze_run cell_name d st Hd) as (rows & Hrun & Hall).
  destruct (b64_row1_for_torques_run d (torque_levels st) Hd [] [] None st)
    as (rows' & matrix & trial & st2 & Hloop & Hall' & Hloop1 & _).
  assert (Hsame : rows' = rows).
  { unfold Binary64.analyze_cell_uncertainty, bindM, print,
      read_torque_levels, lift in Hrun.
    cbn [torque_levels] in Hrun. rewrite Hloop in Hrun.
    cbn [app] in Hrun. congruence. }
  subst rows'. cbn [app] in Hloop1.
  destruct (b64_steepest_slope_nonempty d Hd) as (S & HS & _ & _).
  exists rows. eexists. exists S. split; [exact Hrun|].
  split; [exists matrix, trial, st2; exact Hloop1|].
  split; [symmetry; eapply Forall2_length; exact Hall|].
  split; [exact HS|].
  assert (Hrows : forall r, In r rows ->
            exists range_val,
              row_from_end r 2 = Return range_val
              /\ row_from_end r 1 = Return (Binary64.py_mul S range_val)).
  { intros r Hr. destruct (Forall2_rows _ _ _ r Hall Hr) as [t [_ Hrow]].
    unfold Binary64.level in Hrow.
    destruct (b64_torque_row_run d (Binary64.double t) Hd)
      as (mn & mx & S' & _ & _ & HS' & Hrow').
    assert (S' = S) by congruence. subst S'.
    rewrite Hrow in Hrow'. injection Hrow' as ->.
    rewrite app_comm_cons.
    destruct (row_from_end_stats
                (Scalar NumPy (Binary64.double t)
                 :: Binary64.z_heights (Scalar NumPy (Binary64.double t)) d)
                mn mx (Binary64.py_sub mx mn)
                (Binary64.py_mul S (Binary64.py_sub mx mn)))
      as (_ & _ & E2 & E1).
    exists (Binary64.py_sub mx mn). split; [exact E2 | exact E1]. }
  split; [exact Hrows|].
  intros r1 r2 range1 range2 sigma a b Hr1 Hr2 E1 E2 Hsigma Ha Hb
         Ha1 Ha2 Hb1 Hb2.
  destruct (Hrows r1 Hr1) as [range1' [E1' U1]].
  destruct (Hrows r2 Hr2) as [range2' [E2' U2]].
  assert (range1' = range1) by congruence.
  assert (range2' = range2) by congruence. subst range1' range2'.
  destruct (double_error_normal (sigma * a) Ha1 Ha2) as [x [Hx Herrx]].
  destruct (double_error_normal (sigma * b) Hb1 Hb2) as [y [Hy Herry]].
  assert (HA : ~ sigma * a == 0).
  { intros H0. pose proof (pow2_pos (-1022)).
    assert (Qabs (sigma * a) == 0) by (rewrite H0; reflexivity). lra. }
  assert (HB : ~ sigma * b == 0).
  { intros H0. pose proof (pow2_pos (-1022)).
    assert (Qabs (sigma * b) == 0) by (rewrite H0; reflexivity). lra. }
  destruct (ratio_error (sigma * a) (sigma * b) x y HA HB Herrx Herry)
    as [Hy0 Hratio].
  exists x, y.
  unfold Binary64.py_mul in U1, U2.
  rewrite Hsigma, Ha, mul_finite, Hx in U1.
  rewrite Hsigma, Hb, mul_finite, Hy in U2.
  split; [exact U1|]. split; [exact U2|]. split; [exact Hy0|].
  assert (Hs0 : ~ sigma == 0).
  { intros H0. apply HA. rewrite H0. ring. }
  assert (Hb0 : ~ b == 0).
  { intros H0. apply HB. rewrite H0. ring. }
  setoid_replace (a / b) with (sigma * a / (sigma * b))
    by (field; split; assumption).
  exact Hratio.
Qed.

Lemma uncertainty_ratio_is_nearly_the_range_ratio_witness :
  exists (rows : list row) (st1 : store) (S : scalar) (r1 r2 : row)
         (a b x y : Q),
    Binary64.analyze_cell_uncertainty "Cell 1" tied_slopes_cell sample_store
    = (Return rows, st1)
    /\ List.length rows = List.length (torque_levels sample_store)
    /\ Binary64.steepest_slope tied_slopes_cell = Return S
    /\ nth_error rows 0 = Some r1 /\ nth_error rows 1 = Some r2
    /\ row_from_end r1 2 = Return (Scalar NumPy (Fin a))
    /\ row_from_end r2 2 = Return (Scalar NumPy (Fin b))
    /\ row_from_end r1 1 = Return (Scalar NumPy (Fin x))
    /\ row_from_end r2 1 = Return (Scalar NumPy (Fin y))
    /\ ~ y == 0
    /\ Qabs (x / y - a / b) <= 2 ^ (-51) * Qabs (a / b).
Proof.
  destruct (uncertainty_ratio_is_nearly_the_range_ratio
              "Cell 1" tied_slopes_cell sample_store)
    as (rows & st1 & S & Hrun & _ & Hlen & HS & _ & Hratio); [discriminate|].
  pose proof Hrun as Hrows. vm_compute in Hrows.
  injection Hrows as Hrows _. subst rows.
  pose proof HS as HS'. vm_compute in HS'. injection HS' as HS'. subst S.
  match type of Hrun with
  | _ = (Return [?r1; ?r2], _) =>
      match type of HS with
      | _ = Return (Scalar ?o (Fin ?sigma)) =>
          match eval vm_compute in (row_from_end r1 2, row_from_end r2 2) with
          | (Return (Scalar _ (Fin ?a)), Return (Scalar _ (Fin ?b))) =>
              destruct (Hratio r1 r2 (Scalar NumPy (Fin a))
                               (Scalar NumPy (Fin b)) sigma a b
                               (or_introl eq_refl)
                               (or_intror (or_introl eq_refl))
                               eq_refl eq_refl eq_refl eq_refl eq_refl)
                as (x & y & Hx & Hy & Hy0 & Hbound);
                [ vm_compute; discriminate | vm_compute; reflexivity
                | vm_compute; discriminate | vm_compute; reflexivity |];
              exists [r1; r2], st1, (Scalar o (Fin sigma)), r1, r2, a, b, x, y
          end
      end
  end.
  split; [exact Hrun|]. split; [exact Hlen|]. split; [exact HS|].
  split; [reflexivity|]. split; [reflexivity|].
  split; [reflexivity|]. split; [reflexivity|].
  split; [exact Hx|]. split; [exact Hy|]. split; [exact Hy0 | exact Hbound].
Defined.
